(** * FL Studio MCP bridge: the file-and-trigger round trip

    A shallow embedding of the protocol code of the repository:

    - [src/fl_studio_mcp/utils/midi_connection.py]: [MIDIConnection]
      ([connect], [ensure_connected], [send_command], [_wait_for_response]);
    - [src/fl_studio_mcp/tools/piano_roll.py]: [_write_request],
      [_clear_request_file];
    - [fl_controller/device_FLStudioMCP.py]: [OnMidiMsg],
      [execute_pending_command], [write_response], [dispatch_command].

    Python values that travel through the JSON files are values of [json];
    a file holds what [json.loads] makes of its text, so that a value
    written with [json.dumps] is the value read back.  The file system is a
    finite map from paths to file contents together with the paths on which
    writing or unlinking is refused, so that every [try]/[except] of the
    source has a branch that can be reached.  Python exceptions are values
    of [exn]; a call either returns or raises ([outcome]). *)

From Stdlib Require Import ZArith QArith List String Ascii Bool Lia.
From Stdlib Require DecimalString DecimalZ DecimalPos.
Import DecimalString.
From stdpp Require Import gmap strings.

Import ListNotations.
Local Open Scope string_scope.
Set Warnings "-register-all".

(** ** Python values and exceptions *)

(** JSON data as Python's [json] module builds it: [None], [bool], [int],
    [str], [list] and [dict] (insertion-ordered, keyed by strings).  None of
    the protocol code inspects a number, so numbers are integers. *)
Inductive json : Type :=
| JNull
| JBool (b : bool)
| JInt (n : Z)
| JStr (s : string)
| JArr (items : list json)
| JObj (fields : list (string * json)).

(** The exception classes the source tells apart in its [except] clauses.
    [OSError] stands for itself and its subclasses ([IOError] is an alias). *)
Inductive exn_class : Type :=
| JSONDecodeError | OSError | ImportError | RuntimeError
| AttributeError | TypeError | UnicodeDecodeError | OtherException.

Record exn : Type := Exn { exn_cls : exn_class; exn_msg : string }.

Inductive outcome (A : Type) : Type :=
| Returned (a : A)
| Raised (e : exn).
Arguments Returned {A} a.
Arguments Raised {A} e.

Definition is_JSONDecodeError (e : exn) : bool :=
  match exn_cls e with JSONDecodeError => true | _ => false end.

Definition is_OSError (e : exn) : bool :=
  match exn_cls e with OSError => true | _ => false end.

(** *** Dictionaries *)

Module Dict.

Definition t : Type := list (string * json).

(** [d.get(k)] *)
Fixpoint get (k : string) (d : t) : option json :=
  match d with
  | [] => None
  | (k', v) :: rest => if String.eqb k k' then Some v else get k rest
  end.

(** [d.get(k, default)] *)
Definition get_default (k : string) (default : json) (d : t) : json :=
  match get k d with Some v => v | None => default end.

(** [d[k] = v]: an existing key keeps its position, a new one goes last. *)
Fixpoint set (k : string) (v : json) (d : t) : t :=
  match d with
  | [] => [(k, v)]
  | (k', v') :: rest =>
      if String.eqb k k' then (k', v) :: rest else (k', v') :: set k v rest
  end.

(** [{**d, **extra}] *)
Definition update (d extra : t) : t :=
  fold_left (fun acc kv => set (fst kv) (snd kv) acc) extra d.

End Dict.

(** ** The file system *)

(** What reading a file and handing its text to [json.loads] gives: the
    value of well-formed JSON text, a [JSONDecodeError] (with its message)
    for text that is not JSON, or the exception the read itself raises. *)
Inductive file_data : Type :=
| WellFormed (v : json)
| Malformed (why : string)
| Unreadable (e : exn).

Record filesystem : Type := FS {
  files : gmap string file_data;
  write_denied : gset string;     (* opening for writing raises here *)
  unlink_denied : gset string     (* unlinking raises here *)
}.

Module Path.

(** [p / name] *)
Definition join (p name : string) : string := p +:+ "/" +:+ name.

(** [p.exists()] *)
Definition exists_ (p : string) (fs : filesystem) : bool :=
  match files fs !! p with Some _ => true | None => false end.

(** [json.loads(p.read_text())], also [json.load(open(p))] *)
Definition read_json (p : string) (fs : filesystem) : outcome json :=
  match files fs !! p with
  | None => Raised (Exn OSError ("[Errno 2] No such file or directory: '" +:+ p +:+ "'"))
  | Some (WellFormed v) => Returned v
  | Some (Malformed why) => Raised (Exn JSONDecodeError why)
  | Some (Unreadable e) => Raised e
  end.

(** [p.write_text(json.dumps(v, indent=2))], also [json.dump(v, open(p, "w"))] *)
Definition write_json (p : string) (v : json) (fs : filesystem)
  : outcome unit * filesystem :=
  if decide (p ∈ write_denied fs)
  then (Raised (Exn OSError ("[Errno 13] Permission denied: '" +:+ p +:+ "'")), fs)
  else (Returned tt,
        FS (<[p := WellFormed v]> (files fs)) (write_denied fs) (unlink_denied fs)).

(** [p.unlink()] *)
Definition unlink (p : string) (fs : filesystem) : outcome unit * filesystem :=
  match files fs !! p with
  | None => (Raised (Exn OSError ("[Errno 2] No such file or directory: '" +:+ p +:+ "'")), fs)
  | Some _ =>
      if decide (p ∈ unlink_denied fs)
      then (Raised (Exn OSError ("[Errno 13] Permission denied: '" +:+ p +:+ "'")), fs)
      else (Returned tt,
            FS (delete p (files fs)) (write_denied fs) (unlink_denied fs))
  end.

End Path.

(** The machine the server runs on: [platform.system()] and [Path.home()]. *)
Record host : Type := Host { system : string; home : string }.

(** ** [tools/piano_roll.py]: the request queue *)

Module PianoRoll.

(** [_get_fl_scripts_dir] (the [mkdir] of an existing directory is a no-op) *)
Definition _get_fl_scripts_dir (h : host) : string :=
  let base :=
    if String.eqb (system h) "Darwin" then
      Path.join (Path.join (Path.join (Path.join (home h) "Documents") "Image-Line") "FL Studio") "Settings"
    else if String.eqb (system h) "Windows" then
      Path.join (Path.join (Path.join (Path.join (home h) "Documents") "Image-Line") "FL Studio") "Settings"
    else
      Path.join (Path.join (home h) ".fl-studio") "Settings" in
  Path.join base "Piano roll scripts".

Definition _get_request_file (h : host) : string :=
  Path.join (_get_fl_scripts_dir h) "mcp_request.json".

(** The first half of [_write_request]: "Read existing requests if any".
    [except (json.JSONDecodeError, IOError)] lets any other exception
    through. *)
Definition read_existing (request_file : string) (fs : filesystem)
  : outcome (list json) :=
  if Path.exists_ request_file fs then
    match Path.read_json request_file fs with
    | Returned (JArr data) => Returned data
    | Returned (JObj data) => Returned [JObj data]
    | Returned _ => Returned []
    | Raised e =>
        if is_JSONDecodeError e || is_OSError e then Returned [] else Raised e
    end
  else Returned [].

(** "Append new request(s)": [extend] for a list, [append] otherwise. *)
Definition append_requests (existing : list json) (request : json) : list json :=
  match request with
  | JArr items => existing ++ items
  | _ => existing ++ [request]
  end.

Definition _write_request (h : host) (request : json) (fs : filesystem)
  : outcome unit * filesystem :=
  let request_file := _get_request_file h in
  match read_existing request_file fs with
  | Raised e => (Raised e, fs)
  | Returned existing =>
      Path.write_json request_file (JArr (append_requests existing request)) fs
  end.


End PianoRoll.

(** ** [utils/midi_connection.py]: the server side of the round trip *)

(** *** Strings *)

Module Str.

(** [needle in hay] *)
Fixpoint contains (needle hay : string) : bool :=
  String.prefix needle hay ||
  match hay with
  | EmptyString => false
  | String _ rest => contains needle rest
  end.

Definition upper_ascii (c : ascii) : ascii :=
  let n := nat_of_ascii c in
  if (97 <=? n)%nat && (n <=? 122)%nat then ascii_of_nat (n - 32) else c.

(** [s.upper()], on ASCII text *)
Fixpoint upper (s : string) : string :=
  match s with
  | EmptyString => EmptyString
  | String c rest => String (upper_ascii c) (upper rest)
  end.

(** [a or b] on [str | None]: [None] and the empty string are falsy. *)
Definition or_else (a : option string) (b : string) : string :=
  match a with
  | Some EmptyString | None => b
  | Some s => s
  end.

End Str.

(** *** The [mido] library and its ports *)

(** [mido.Message(type, note=.., velocity=..)]; the channel defaults to 0. *)
Record message : Type := Message {
  msg_type : string;
  msg_channel : Z;
  msg_note : Z;
  msg_velocity : Z
}.

(** An open output port: what has been sent on it so far, and whether
    [send] raises (a port whose device has gone away). *)
Record port : Type := Port {
  port_device : string;
  port_sent : list message;
  port_broken : option exn
}.

Definition port_send (p : port) (m : message) : outcome unit * port :=
  match port_broken p with
  | Some e => (Raised e, p)
  | None => (Returned tt, Port (port_device p) (port_sent p ++ [m]) None)
  end.

(** What [mido] offers on this machine. *)
Record mido_env : Type := Mido {
  mido_installed : bool;                       (* [import mido] succeeds *)
  get_output_names : outcome (list string);
  open_output : string -> outcome port
}.

Definition import_mido (m : mido_env) : outcome unit :=
  if mido_installed m then Returned tt
  else Raised (Exn ImportError "No module named 'mido'").

(** *** The world around one call *)

(** What another process (the DAW) does to the shared directory. *)
Inductive fs_op : Type :=
| Put (p : string) (d : file_data)
| Remove (p : string).

Definition apply_op (fs : filesystem) (op : fs_op) : filesystem :=
  match op with
  | Put p d => FS (<[p := d]> (files fs)) (write_denied fs) (unlink_denied fs)
  | Remove p => FS (delete p (files fs)) (write_denied fs) (unlink_denied fs)
  end.

(** [clock] holds the successive readings of [time.time()] (floats are
    read as rationals); [others] holds, for each [time.sleep] to come, what
    the other processes do meanwhile (nothing once the list is used up). *)
Record world : Type := World {
  fs : filesystem;
  clock : list Q;
  others : list (list fs_op);
  mido : mido_env
}.

(** [time.sleep(poll_interval)] *)
Definition sleep (fs : filesystem) (others : list (list fs_op))
  : filesystem * list (list fs_op) :=
  match others with
  | [] => (fs, [])
  | ops :: rest => (fold_left apply_op ops fs, rest)
  end.

Definition Qltb (x y : Q) : bool := negb (Qle_bool y x).

(** [{"success": False, "error": msg}] *)
Definition failure (msg : string) : json :=
  JObj [("success", JBool false); ("error", JStr msg)].

(** *** [class MIDIConnection] *)

Record MIDIConnection : Type := Conn {
  _port : option port;
  _port_name : option string;
  _connected : bool;
  _error : option string;
  _command_file : string;
  _response_file : string
}.

(** The class attribute [MIDIConnection.TRIGGER_NOTE] *)
Definition TRIGGER_NOTE : Z := 127.

Definition _get_fl_hardware_dir (h : host) : string :=
  let base :=
    if String.eqb (system h) "Darwin" then
      Path.join (Path.join (Path.join (Path.join (home h) "Documents") "Image-Line") "FL Studio") "Settings"
    else if String.eqb (system h) "Windows" then
      Path.join (Path.join (Path.join (Path.join (home h) "Documents") "Image-Line") "FL Studio") "Settings"
    else
      Path.join (Path.join (home h) ".fl-studio") "Settings" in
  Path.join (Path.join base "Hardware") "FLStudioMCP".

(** [MIDIConnection.__init__] *)
Definition init (h : host) : MIDIConnection :=
  let hardware_dir := _get_fl_hardware_dir h in
  Conn None None false None
       (Path.join hardware_dir "mcp_command.json")
       (Path.join hardware_dir "mcp_response.json").

Definition is_connected (c : MIDIConnection) : bool :=
  _connected c && match _port c with Some _ => true | None => false end.

Definition set_error (c : MIDIConnection) (msg : string) : MIDIConnection :=
  Conn (_port c) (_port_name c) (_connected c) (Some msg)
       (_command_file c) (_response_file c).

(** The [for port_name in output_ports] loop of [connect]: the first name
    that mentions IAC, loopMIDI or (in any case) FL. *)
Definition wanted_port (port_name : string) : bool :=
  Str.contains "IAC" port_name ||
  (Str.contains "loopMIDI" port_name || Str.contains "FL" (Str.upper port_name)).

Definition find_target_port (output_ports : list string) : option string :=
  List.find wanted_port output_ports.

Definition connect (c : MIDIConnection) (m : mido_env) : bool * MIDIConnection :=
  if is_connected c then (true, c) else
  match import_mido m with
  | Raised _ =>
      (false, set_error c "mido library not installed. Install with: pip install mido python-rtmidi")
  | Returned _ =>
      match get_output_names m with
      | Raised e => (false, set_error c ("Failed to get MIDI ports: " +:+ exn_msg e))
      | Returned [] =>
          (false, set_error c "No MIDI output ports found. On Mac, enable IAC Driver in Audio MIDI Setup.")
      | Returned ((first_port :: _) as output_ports) =>
          let target_port :=
            match find_target_port output_ports with
            | Some port_name => port_name
            | None => first_port            (* [output_ports[0]] *)
            end in
          match open_output m target_port with
          | Returned p =>
              (true, Conn (Some p) (Some target_port) true None
                          (_command_file c) (_response_file c))
          | Raised e =>
              (false, set_error c ("Failed to open MIDI port '" +:+ target_port
                                    +:+ "': " +:+ exn_msg e))
          end
      end
  end.

Definition disconnect (c : MIDIConnection) : MIDIConnection :=
  Conn None None false (_error c) (_command_file c) (_response_file c).

Definition ensure_connected (c : MIDIConnection) (m : mido_env)
  : outcome unit * MIDIConnection :=
  if negb (is_connected c) then
    let (ok, c') := connect c m in
    if negb ok
    then (Raised (Exn RuntimeError
                      (Str.or_else (_error c') "Failed to connect to FL Studio via MIDI")), c')
    else (Returned tt, c')
  else (Returned tt, c).

(** [mido.Message("note_on", note=self.TRIGGER_NOTE, velocity=127)] *)
Definition trigger_msg : message := Message "note_on" 0 TRIGGER_NOTE 127.

(** "Clear old response file": the [if exists: try: unlink; except: pass]
    block of [send_command]. *)
Definition clear_old_response (response_file : string) (fs : filesystem) : filesystem :=
  if Path.exists_ response_file fs
  then snd (Path.unlink response_file fs)
  else fs.

(** "Send MIDI trigger": [import mido], build the message, [self._port.send]. *)
Definition send_trigger (c : MIDIConnection) (m : mido_env)
  : outcome unit * MIDIConnection :=
  match import_mido m with
  | Raised e => (Raised e, c)
  | Returned _ =>
      match _port c with
      | None => (Raised (Exn AttributeError "'NoneType' object has no attribute 'send'"), c)
      | Some p =>
          let (r, p') := port_send p trigger_msg in
          (r, Conn (Some p') (_port_name c) (_connected c) (_error c)
                   (_command_file c) (_response_file c))
      end
  end.

Section RoundTrip.

(** [str(timeout)], as the f-string of the timeout message renders it. *)
Variable float_str : Q -> string.

Definition timeout_message (timeout : Q) : string :=
  "Timeout waiting for FL Studio response after " +:+ float_str timeout +:+ "s. "
  +:+ "Make sure FL Studio is running and the MCP controller is enabled "
  +:+ "in MIDI Settings.".

(** The [while] loop of [_wait_for_response].  Each turn reads the clock
    once; [ticks] are the readings still to come.  [None]: the model has
    no reading left for a loop that is still running. *)
Fixpoint poll (response_file : string) (timeout start_time : Q)
         (ticks : list Q) (fs : filesystem) (others : list (list fs_op))
  : option (json * (filesystem * list Q * list (list fs_op))) :=
  match ticks with
  | [] => None
  | now :: ticks' =>
      if Qltb (now - start_time) timeout then
        if Path.exists_ response_file fs then
          match Path.read_json response_file fs with
          | Returned response =>
              (* Clean up response file *)
              let fs' := snd (Path.unlink response_file fs) in
              Some (response, (fs', ticks', others))
          | Raised e =>
              if is_JSONDecodeError e
              then Some (failure ("Invalid JSON in response: " +:+ exn_msg e),
                         (fs, ticks', others))
              else Some (failure ("Failed to read response: " +:+ exn_msg e),
                         (fs, ticks', others))
          end
        else
          let (fs', others') := sleep fs others in
          poll response_file timeout start_time ticks' fs' others'
      else Some (failure (timeout_message timeout), (fs, ticks', others))
  end.

Definition _wait_for_response (c : MIDIConnection) (timeout : Q) (w : world)
  : option (json * world) :=
  match clock w with
  | [] => None
  | start_time :: ticks =>
      match poll (_response_file c) timeout start_time ticks (fs w) (others w) with
      | None => None
      | Some (response, (fs', ticks', others')) =>
          Some (response, World fs' ticks' others' (mido w))
      end
  end.

(** [params or {}] *)
Definition params_or_empty (params : option Dict.t) : Dict.t :=
  match params with Some d => d | None => [] end.

Definition with_fs (w : world) (fs' : filesystem) : world :=
  World fs' (clock w) (others w) (mido w).

Definition send_command (c : MIDIConnection) (action : string)
           (params : option Dict.t) (timeout : Q) (w : world)
  : option (outcome json * MIDIConnection * world) :=
  match ensure_connected c (mido w) with
  | (Raised e, c1) => Some (Raised e, c1, w)
  | (Returned _, c1) =>
      let command := JObj [("action", JStr action);
                           ("params", JObj (params_or_empty params))] in
      match Path.write_json (_command_file c1) command (fs w) with
      | (Raised e, _) =>
          Some (Returned (failure ("Failed to write command file: " +:+ exn_msg e)), c1, w)
      | (Returned _, fs1) =>
          let fs2 := clear_old_response (_response_file c1) fs1 in
          match send_trigger c1 (mido w) with
          | (Raised e, c2) =>
              Some (Returned (failure ("Failed to send MIDI trigger: " +:+ exn_msg e)),
                    c2, with_fs w fs2)
          | (Returned _, c2) =>
              match _wait_for_response c2 timeout (with_fs w fs2) with
              | None => None
              | Some (response, w') => Some (Returned response, c2, w')
              end
          end
      end
  end.

End RoundTrip.

(** ** [fl_controller/device_FLStudioMCP.py]: the script inside the DAW *)

Module Controller.

(** Where the script runs: [sys.platform], [Path.home()] and
    [os.environ.get("USERPROFILE")]. *)
Record daw_host : Type := DawHost {
  sys_platform : string;
  daw_home : string;
  userprofile : option string
}.

Definition _get_script_dir (h : daw_host) : string :=
  let base :=
    if String.eqb (sys_platform h) "darwin" then
      Path.join (Path.join (Path.join (Path.join (daw_home h) "Documents") "Image-Line") "FL Studio") "Settings"
    else if String.eqb (sys_platform h) "win32" then
      Path.join (Path.join (Path.join (Path.join
        (match userprofile h with Some p => p | None => "~" end)
        "Documents") "Image-Line") "FL Studio") "Settings"
    else
      Path.join (Path.join (Path.join (Path.join (daw_home h) "Documents") "Image-Line") "FL Studio") "Settings" in
  Path.join (Path.join base "Hardware") "FLStudioMCP".

Definition COMMAND_FILE (h : daw_host) : string :=
  Path.join (_get_script_dir h) "mcp_command.json".
Definition RESPONSE_FILE (h : daw_host) : string :=
  Path.join (_get_script_dir h) "mcp_response.json".

(** The module constant [TRIGGER_NOTE] of the script *)
Definition TRIGGER_NOTE : Z := 127.

(** The event object FL Studio hands to [OnMidiMsg]. *)
Record midi_event : Type := Event {
  midiId : Z;
  data1 : Z;
  data2 : Z;
  handled : bool
}.

(** The handlers [dispatch_command] routes to. *)
Inductive handler : Type :=
| handle_transport_start | handle_transport_stop | handle_transport_record
| handle_transport_get_status | handle_transport_set_position
| handle_transport_get_length | handle_transport_set_loop_mode
| handle_transport_set_playback_speed
| handle_mixer_get_track_count | handle_mixer_get_track_info
| handle_mixer_get_all_tracks | handle_mixer_set_track_volume
| handle_mixer_set_track_pan | handle_mixer_mute_track
| handle_mixer_solo_track | handle_mixer_arm_track
| handle_mixer_set_track_name | handle_mixer_set_track_color
| handle_mixer_set_stereo_sep
| handle_channels_get_count | handle_channels_get_info
| handle_channels_get_all | handle_channels_get_selected
| handle_channels_select | handle_channels_select_one
| handle_channels_trigger_note | handle_channels_set_volume
| handle_channels_set_pan | handle_channels_mute | handle_channels_solo
| handle_channels_set_name | handle_channels_set_color
| handle_channels_route_to_mixer
| handle_channels_get_grid_bit | handle_channels_set_grid_bit
| handle_channels_get_step_sequence | handle_channels_set_step_sequence
| handle_plugins_is_valid | handle_plugins_get_name
| handle_plugins_get_param_count | handle_plugins_get_params
| handle_plugins_get_param_value | handle_plugins_set_param_value
| handle_plugins_get_preset_count | handle_plugins_next_preset
| handle_plugins_prev_preset | handle_plugins_get_color.

(** The [if]/[elif] chain of [dispatch_command], top to bottom. *)
Definition dispatch_table : list (string * handler) :=
  [ ("transport.start", handle_transport_start);
    ("transport.stop", handle_transport_stop);
    ("transport.record", handle_transport_record);
    ("transport.getStatus", handle_transport_get_status);
    ("transport.setPosition", handle_transport_set_position);
    ("transport.getLength", handle_transport_get_length);
    ("transport.setLoopMode", handle_transport_set_loop_mode);
    ("transport.setPlaybackSpeed", handle_transport_set_playback_speed);
    ("mixer.getTrackCount", handle_mixer_get_track_count);
    ("mixer.getTrackInfo", handle_mixer_get_track_info);
    ("mixer.getAllTracks", handle_mixer_get_all_tracks);
    ("mixer.setTrackVolume", handle_mixer_set_track_volume);
    ("mixer.setTrackPan", handle_mixer_set_track_pan);
    ("mixer.muteTrack", handle_mixer_mute_track);
    ("mixer.soloTrack", handle_mixer_solo_track);
    ("mixer.armTrack", handle_mixer_arm_track);
    ("mixer.setTrackName", handle_mixer_set_track_name);
    ("mixer.setTrackColor", handle_mixer_set_track_color);
    ("mixer.setStereoSep", handle_mixer_set_stereo_sep);
    ("channels.getCount", handle_channels_get_count);
    ("channels.getInfo", handle_channels_get_info);
    ("channels.getAll", handle_channels_get_all);
    ("channels.getSelected", handle_channels_get_selected);
    ("channels.select", handle_channels_select);
    ("channels.selectOne", handle_channels_select_one);
    ("channels.triggerNote", handle_channels_trigger_note);
    ("channels.setVolume", handle_channels_set_volume);
    ("channels.setPan", handle_channels_set_pan);
    ("channels.mute", handle_channels_mute);
    ("channels.solo", handle_channels_solo);
    ("channels.setName", handle_channels_set_name);
    ("channels.setColor", handle_channels_set_color);
    ("channels.routeToMixer", handle_channels_route_to_mixer);
    ("channels.getGridBit", handle_channels_get_grid_bit);
    ("channels.setGridBit", handle_channels_set_grid_bit);
    ("channels.getStepSequence", handle_channels_get_step_sequence);
    ("channels.setStepSequence", handle_channels_set_step_sequence);
    ("plugins.isValid", handle_plugins_is_valid);
    ("plugins.getName", handle_plugins_get_name);
    ("plugins.getParamCount", handle_plugins_get_param_count);
    ("plugins.getParams", handle_plugins_get_params);
    ("plugins.getParamValue", handle_plugins_get_param_value);
    ("plugins.setParamValue", handle_plugins_set_param_value);
    ("plugins.getPresetCount", handle_plugins_get_preset_count);
    ("plugins.nextPreset", handle_plugins_next_preset);
    ("plugins.prevPreset", handle_plugins_prev_preset);
    ("plugins.getColor", handle_plugins_get_color) ].

Definition known_actions : list string := map fst dispatch_table.

Definition find_handler (action : string) : option handler :=
  option_map snd (List.find (fun entry => String.eqb action (fst entry)) dispatch_table).

(** [type(v).__name__] *)
Definition type_name (v : json) : string :=
  match v with
  | JNull => "NoneType"
  | JBool _ => "bool"
  | JInt _ => "int"
  | JStr _ => "str"
  | JArr _ => "list"
  | JObj _ => "dict"
  end.

Section Script.

(** The DAW behind its scripting API ([transport], [mixer], [channels],
    [plugins]): its state, and what each handler does with the
    parameters it is given (return a dict, or raise). *)
Variable Daw : Type.
Variable run_handler : handler -> json -> Daw -> outcome Dict.t * Daw.

(** [repr] of a value that is not a string, for the f-strings. *)
Variable py_repr : json -> string.

(** [str(v)] *)
Definition py_str (v : json) : string :=
  match v with JStr s => s | _ => py_repr v end.

(** The state of the script's world; [executions] counts the calls of
    [execute_pending_command] (a trace, not a variable of the script). *)
Record state : Type := State {
  daw_fs : filesystem;
  api : Daw;
  executions : nat
}.

Definition dispatch_command (action params : json) (d : Daw)
  : outcome Dict.t * Daw :=
  match action with
  | JStr name =>
      match find_handler name with
      | Some h => run_handler h params d
      | None => (Returned [("error", JStr ("Unknown action: " +:+ py_str action))], d)
      end
  | _ => (Returned [("error", JStr ("Unknown action: " +:+ py_str action))], d)
  end.

(** [write_response]: a failed write is printed and otherwise ignored. *)
Definition write_response (h : daw_host) (response : Dict.t) (fs : filesystem)
  : filesystem :=
  snd (Path.write_json (RESPONSE_FILE h) (JObj response) fs).

Definition execute_pending_command (h : daw_host) (s : state) : state :=
  let response := [("success", JBool false); ("error", JNull)] in
  let fs := daw_fs s in
  let n := S (executions s) in
  if negb (Path.exists_ (COMMAND_FILE h) fs) then
    State (write_response h (Dict.set "error" (JStr "No command file found") response) fs)
          (api s) n
  else
    match Path.read_json (COMMAND_FILE h) fs with
    | Raised e =>
        let msg :=
          if is_JSONDecodeError e
          then "Invalid JSON in command file: " +:+ exn_msg e
          else "Error executing command: " +:+ exn_msg e in
        State (write_response h (Dict.set "error" (JStr msg) response) fs) (api s) n
    | Returned (JObj command) =>
        let action := Dict.get_default "action" (JStr "") command in
        let params := Dict.get_default "params" (JObj []) command in
        match dispatch_command action params (api s) with
        | (Returned result, d') =>
            State (write_response h (Dict.update [("success", JBool true)] result) fs) d' n
        | (Raised e, d') =>
            State (write_response h
                     (Dict.set "error" (JStr ("Error executing command: " +:+ exn_msg e))
                               response) fs) d' n
        end
    | Returned command =>
        let msg := "Error executing command: '" +:+ type_name command
                   +:+ "' object has no attribute 'get'" in
        State (write_response h (Dict.set "error" (JStr msg) response) fs) (api s) n
    end.

(** The test of [OnMidiMsg]: [midiId == 0x90 and data1 == TRIGGER_NOTE
    and data2 > 0]. *)
Definition is_trigger (event : midi_event) : bool :=
  (midiId event =? 144)%Z && (data1 event =? TRIGGER_NOTE)%Z && (0 <? data2 event)%Z.

Definition OnMidiMsg (h : daw_host) (event : midi_event) (s : state)
  : midi_event * state :=
  if is_trigger event
  then (Event (midiId event) (data1 event) (data2 event) true,
        execute_pending_command h s)
  else (event, s).

End Script.

End Controller.

(** ** [tools/transport.py] and its siblings: how a Response is shown *)

Module Tools.

(** [bool(v)] *)
Definition truthy (v : json) : bool :=
  match v with
  | JNull => false
  | JBool b => b
  | JInt n => negb (n =? 0)%Z
  | JStr s => negb (String.eqb s "")
  | JArr items => match items with [] => false | _ => true end
  | JObj fields => match fields with [] => false | _ => true end
  end.

(** The test every tool wrapper makes before it reports an error:
    [not result.get("success", False) and "error" in result]. *)
Definition shows_error (result : Dict.t) : bool :=
  negb (truthy (Dict.get_default "success" (JBool false) result)) &&
  match Dict.get "error" result with Some _ => true | None => false end.

End Tools.

(** ** More of Python *)

Module Py.

(** [str(n)] for an [int] *)
Definition str_of_int (n : Z) : string := NilZero.string_of_int (Z.to_int n).

(** [int(v)] for the values Python computes with as integers: [int]
    itself and [bool] *)
Definition as_int (v : json) : option Z :=
  match v with
  | JInt n => Some n
  | JBool b => Some (Z.b2z b)
  | _ => None
  end.

End Py.

(** ** [utils/fl_trigger.py]: the keystroke trigger *)

Module Trigger.

(** [TRIGGER_DELAY] *)
Definition TRIGGER_DELAY : Q := 2.

Inductive key : Type := Key_cmd | Key_alt | Key_ctrl | Key_y.

(** The two commands given to [osascript]: the script that activates
    FL Studio and sends the key chord through System Events, and the
    one-line [tell application ... to activate] of the fallback. *)
Inductive osascript : Type := keystroke_script | activate_script.

(** What a trigger does to the desktop, in order. *)
Inductive effect : Type :=
| Ran (script : osascript) (timeout : Q)     (* [subprocess.run], called *)
| Slept (seconds : Q)                        (* [time.sleep] *)
| Pressed (k : key)
| Released (k : key).

(** How a [subprocess.run] ends. *)
Inductive completion : Type :=
| Completed (returncode : Z)
| TimeoutExpired
| CannotRun (e : exn).

(** The desktop the server runs on: what [osascript] does, whether
    [pynput] can be imported and a [Controller] made, and which keyboard
    call of a trigger (counted from 0) raises, if any. *)
Record desktop : Type := Desktop {
  run_osascript : osascript -> completion;
  pynput : outcome unit;
  keyboard_fault : nat -> option exn
}.

Inductive trigger_func : Type := trigger_macos | trigger_windows.

Record FLStudioTrigger : Type := Trig {
  _system : string;
  _trigger_func : option trigger_func
}.

(** [__init__] with [_setup_trigger] *)
Definition new (h : host) : FLStudioTrigger :=
  Trig (system h)
       (if String.eqb (system h) "Darwin" then Some trigger_macos
        else if String.eqb (system h) "Windows" then Some trigger_windows
        else None).

(** The six keyboard calls of a chord: the modifier, Alt and "y" pressed,
    then released in reverse. *)
Definition chord (modifier : key) : list effect :=
  [Pressed modifier; Pressed Key_alt; Pressed Key_y;
   Released Key_y; Released Key_alt; Released modifier].

(** The keyboard calls one after the other, until one raises. *)
Fixpoint type_keys (d : desktop) (n : nat) (calls : list effect) (trace : list effect)
  : outcome unit * list effect :=
  match calls with
  | [] => (Returned tt, trace)
  | call :: rest =>
      match keyboard_fault d n with
      | Some e => (Raised e, trace)
      | None => type_keys d (S n) rest (trace ++ [call])%list
      end
  end.

Definition _trigger_macos_pynput (d : desktop) (trace : list effect)
  : bool * list effect :=
  match pynput d with
  | Raised _ => (false, trace)
  | Returned _ =>
      let trace1 := (trace ++ [Ran activate_script 5])%list in
      match run_osascript d activate_script with
      | Completed _ =>
          match type_keys d 0 (chord Key_cmd) (trace1 ++ [Slept (3 # 10)])%list with
          | (Returned _, trace2) => (true, trace2)
          | (Raised _, trace2) => (false, trace2)
          end
      | TimeoutExpired | CannotRun _ => (false, trace1)
      end
  end.

Definition _trigger_macos (d : desktop) (trace : list effect) : bool * list effect :=
  let trace1 := (trace ++ [Ran keystroke_script 10])%list in
  match run_osascript d keystroke_script with
  | Completed _ => (true, trace1)
  | TimeoutExpired => (false, trace1)
  | CannotRun _ => _trigger_macos_pynput d trace1      (* Fallback to pynput *)
  end.

Definition _trigger_windows (d : desktop) (trace : list effect) : bool * list effect :=
  match pynput d with
  | Raised _ => (false, trace)
  | Returned _ =>
      match type_keys d 0 (chord Key_ctrl) trace with
      | (Returned _, trace1) => (true, trace1)
      | (Raised _, trace1) => (false, trace1)
      end
  end.

Definition call_trigger_func (f : trigger_func) : desktop -> list effect -> bool * list effect :=
  match f with
  | trigger_macos => _trigger_macos
  | trigger_windows => _trigger_windows
  end.

Definition trigger (t : FLStudioTrigger) (delay : Q) (d : desktop) (trace : list effect)
  : bool * list effect :=
  match _trigger_func t with
  | None => (false, trace)
  | Some f =>
      let (success, trace1) := call_trigger_func f d trace in
      if success && Qltb 0 delay
      then (success, (trace1 ++ [Slept delay])%list)
      else (success, trace1)
  end.

Definition is_supported (t : FLStudioTrigger) : bool :=
  match _trigger_func t with Some _ => true | None => false end.

Definition platform (t : FLStudioTrigger) : string := _system t.

Definition keystroke (t : FLStudioTrigger) : string :=
  if String.eqb (_system t) "Darwin" then "Cmd+Opt+Y"
  else if String.eqb (_system t) "Windows" then "Ctrl+Alt+Y"
  else "Unknown".

(** [get_trigger]: the module global [_trigger], made on first use. *)
Definition get_trigger (h : host) (global : option FLStudioTrigger)
  : FLStudioTrigger * option FLStudioTrigger :=
  match global with
  | Some t => (t, global)
  | None => (new h, Some (new h))
  end.

(** [trigger_fl_studio] *)
Definition trigger_fl_studio (h : host) (delay : Q) (d : desktop)
           (global : option FLStudioTrigger) (trace : list effect)
  : bool * option FLStudioTrigger * list effect :=
  let (t, global') := get_trigger h global in
  let (success, trace') := trigger t delay d trace in
  (success, global', trace').

End Trigger.

(** ** [tools/piano_roll.py]: the tools *)

Module PianoRollTools.

Definition _get_state_file (h : host) : string :=
  Path.join (PianoRoll._get_fl_scripts_dir h) "piano_roll_state.json".

(** [_read_state]; [JNull] is Python's [None]. *)
Definition _read_state (h : host) (fs : filesystem) : outcome json :=
  let state_file := _get_state_file h in
  if negb (Path.exists_ state_file fs) then Returned JNull
  else
    match Path.read_json state_file fs with
    | Returned state => Returned state
    | Raised e =>
        if is_JSONDecodeError e || is_OSError e then Returned JNull else Raised e
    end.

Definition note_names : list string :=
  ["C"; "C#"; "D"; "D#"; "E"; "F"; "F#"; "G"; "G#"; "A"; "A#"; "B"].

(** [_midi_to_note_name]; [%] and [//] round towards minus infinity, as
    [Z.modulo] and [Z.div] do. *)
Definition _midi_to_note_name (midi : Z) : string :=
  let note_name := nth (Z.to_nat (midi mod 12)) note_names "" in
  let octave := (midi / 12 - 1)%Z in
  note_name +:+ Py.str_of_int octave.

(** What the tools work on: the shared directory, the module global
    [_trigger] of [fl_trigger.py], and what has been done to the desktop. *)
Record desk : Type := Desk {
  disk : filesystem;
  the_trigger : option Trigger.FLStudioTrigger;
  happened : list Trigger.effect
}.

(** The block "Trigger FL Studio if requested" of [fl_send_chord],
    [fl_delete_notes] and [fl_clear_piano_roll]. *)
Definition trigger_if_requested (h : host) (d : Trigger.desktop)
           (auto_trigger : bool) (s : desk) : string * desk :=
  if auto_trigger then
    let (trigger, global) := Trigger.get_trigger h (the_trigger s) in
    if Trigger.is_supported trigger then
      match Trigger.trigger_fl_studio h Trigger.TRIGGER_DELAY d global (happened s) with
      | (success, global', trace) =>
          (if success then " FL Studio triggered successfully."
           else " Warning: Could not trigger FL Studio. Press "
                +:+ Trigger.keystroke trigger +:+ " manually.",
           Desk (disk s) global' trace)
      end
    else ("", Desk (disk s) global (happened s))
  else ("", s).

Definition fl_delete_notes (h : host) (d : Trigger.desktop)
           (notes : list Dict.t) (auto_trigger : bool) (s : desk)
  : outcome string * desk :=
  match notes with
  | [] => (Returned "Error: No notes specified for deletion", s)
  | _ =>
      let request := JObj [("action", JStr "delete_notes");
                           ("notes", JArr (map JObj notes))] in
      match PianoRoll._write_request h request (disk s) with
      | (Raised e, fs') => (Raised e, Desk fs' (the_trigger s) (happened s))
      | (Returned _, fs') =>
          let (trigger_info, s') :=
            trigger_if_requested h d auto_trigger
                                 (Desk fs' (the_trigger s) (happened s)) in
          (Returned ("Queued deletion of "
                     +:+ Py.str_of_int (Z.of_nat (length notes))
                     +:+ " note(s)." +:+ trigger_info), s')
      end
  end.



Definition fl_trigger_script (h : host) (d : Trigger.desktop) (s : desk)
  : string * desk :=
  let (trigger, global) := Trigger.get_trigger h (the_trigger s) in
  if negb (Trigger.is_supported trigger) then
    ("Error: Auto-trigger not supported on " +:+ Trigger.platform trigger,
     Desk (disk s) global (happened s))
  else
    match Trigger.trigger_fl_studio h Trigger.TRIGGER_DELAY d global (happened s) with
    | (success, global', trace) =>
        (if success
         then "FL Studio triggered successfully. Notes should now appear in the piano roll."
         else "Failed to trigger FL Studio. Try pressing "
              +:+ Trigger.keystroke trigger +:+ " manually.",
         Desk (disk s) global' trace)
    end.

End PianoRollTools.

(** ** [MIDIConnection.get_status] *)

(** [None] or a string, as JSON *)
Definition optional_str (v : option string) : json :=
  match v with Some text => JStr text | None => JNull end.

(** [get_status]: its [import mido] stands outside any [try]. *)
Definition get_status (c : MIDIConnection) (m : mido_env) : outcome Dict.t :=
  match import_mido m with
  | Raised e => Raised e
  | Returned _ =>
      let output_ports :=
        match get_output_names m with
        | Returned names => names
        | Raised _ => []
        end in
      Returned [("connected", JBool (is_connected c));
                ("port_name", optional_str (_port_name c));
                ("available_ports", JArr (map JStr output_ports));
                ("command_file", JStr (_command_file c));
                ("response_file", JStr (_response_file c));
                ("error", optional_str (_error c))]
  end.

(** ** The module globals of [midi_connection.py] and [connection.py] *)

(** [class FLConnection]: its one attribute refers to a [MIDIConnection]
    object. *)
Record FLConnection : Type := FLConn { _midi : nat }.

(** The objects made so far, by address, and the two module globals, both
    called [_connection] in the source. *)
Record session : Type := Session {
  objects : gmap nat MIDIConnection;
  midi_global : option nat;            (* [midi_connection._connection] *)
  fl_global : option FLConnection      (* [connection._connection] *)
}.

Module MidiGlobal.

(** [get_connection] of [midi_connection.py] *)
Definition get_connection (h : host) (s : session) : nat * session :=
  match midi_global s with
  | Some address => (address, s)
  | None =>
      let address := fresh (dom (objects s)) in
      (address, Session (<[address := init h]> (objects s)) (Some address) (fl_global s))
  end.

(** [reset_connection] of [midi_connection.py] *)
Definition reset_connection (s : session) : session :=
  match midi_global s with
  | Some address => Session (alter disconnect address (objects s)) None (fl_global s)
  | None => s
  end.

End MidiGlobal.

Module Connection.

(** [FLConnection.__init__] *)
Definition new (h : host) (s : session) : FLConnection * session :=
  let (address, s') := MidiGlobal.get_connection h s in
  (FLConn address, s').

(** [get_connection] of [connection.py] *)
Definition get_connection (h : host) (s : session) : FLConnection * session :=
  match fl_global s with
  | Some conn => (conn, s)
  | None =>
      let (conn, s') := new h s in
      (conn, Session (objects s') (midi_global s') (Some conn))
  end.

(** [reset_connection] of [connection.py] *)
Definition reset_connection (s : session) : session :=
  let s' := MidiGlobal.reset_connection s in
  Session (objects s') (midi_global s') None.

(** The properties and methods of [FLConnection] hand over to the object
    [_midi] refers to.  [None]: the reference names no object, which no
    Python run produces. *)
Definition is_connected (conn : FLConnection) (s : session) : option bool :=
  is_connected <$> objects s !! _midi conn.

Definition connection_error (conn : FLConnection) (s : session)
  : option (option string) :=
  _error <$> objects s !! _midi conn.

Definition get_status (conn : FLConnection) (m : mido_env) (s : session)
  : option (outcome Dict.t) :=
  (fun c => get_status c m) <$> objects s !! _midi conn.

Definition send_command (float_str : Q -> string) (conn : FLConnection)
           (action : string) (params : option Dict.t) (timeout : Q)
           (s : session) (w : world)
  : option (outcome json * session * world) :=
  match objects s !! _midi conn with
  | None => None
  | Some c =>
      match send_command float_str c action params timeout w with
      | None => None
      | Some (result, c', w') =>
          Some (result,
                Session (<[_midi conn := c']> (objects s)) (midi_global s) (fl_global s),
                w')
      end
  end.

End Connection.

(** ** [server.py] and [tools/transport.py] *)

Module Server.

Section Tools.

(** [str] of the timeout, and [repr] of a value that is not a string, for
    the f-strings. *)
Variable float_str : Q -> string.
Variable py_repr : json -> string.

(** [str(v)] *)
Definition str (v : json) : string :=
  match v with JStr text => text | _ => py_repr v end.

(** [str(v)] for [v : str | None] *)
Definition str_optional (v : option string) : string :=
  match v with Some text => text | None => "None" end.

(** [@mcp.resource("fl://status") get_fl_status] *)
Definition get_fl_status (h : host) (s : session) : option (string * session) :=
  let (conn, s1) := Connection.get_connection h s in
  match Connection.is_connected conn s1, Connection.connection_error conn s1 with
  | Some connected, Some error =>
      Some (if connected then "Connected to FL Studio via MIDI"
            else "Not connected: " +:+ str_optional error, s1)
  | _, _ => None
  end.


(** [fl_connection_status] *)
Definition fl_connection_status (h : host) (m : mido_env) (s : session)
  : option (outcome Dict.t * session) :=
  let (conn, s1) := Connection.get_connection h s in
  match Connection.get_status conn m s1 with
  | None => None
  | Some (Raised e) => Some (Raised e, s1)
  | Some (Returned status) =>
      Some (Returned [("connected", Dict.get_default "connected" (JBool false) status);
                      ("port_name", Dict.get_default "port_name" JNull status);
                      ("available_ports", Dict.get_default "available_ports" (JArr []) status);
                      ("error", Dict.get_default "error" JNull status)],
            s1)
  end.

(** What a tool does with what [send_command] returned: [result.get] and
    [in] want a dict. *)
Definition as_result (response : json) : outcome Dict.t :=
  match response with
  | JObj result => Returned result
  | _ => Raised (Exn AttributeError ("'" +:+ Controller.type_name response
                                      +:+ "' object has no attribute 'get'"))
  end.

(** [result["error"]], asked for only after ["error" in result] *)
Definition error_of (result : Dict.t) : json :=
  Dict.get_default "error" JNull result.

(** [@mcp.resource("fl://project") get_project_info] *)
Definition get_project_info (h : host) (s : session) (w : world)
  : option (Dict.t * session * world) :=
  let (conn, s1) := Connection.get_connection h s in
  match Connection.is_connected conn s1, Connection.connection_error conn s1 with
  | Some false, Some error => Some ([("error", optional_str error)], s1, w)
  | Some true, Some _ =>
      match Connection.send_command float_str conn "transport.getStatus" None 2 s1 w with
      | None => None
      | Some (Raised e, s2, w') => Some ([("error", JStr (exn_msg e))], s2, w')
      | Some (Returned response, s2, w') =>
          match as_result response with
          | Raised e => Some ([("error", JStr (exn_msg e))], s2, w')
          | Returned result =>
              if Tools.shows_error result
              then Some ([("error", error_of result)], s2, w')
              else Some ([("is_playing", Dict.get_default "is_playing" (JBool false) result);
                          ("is_recording", Dict.get_default "is_recording" (JBool false) result);
                          ("position", Dict.get_default "position" (JStr "") result);
                          ("loop_mode", Dict.get_default "loop_mode" (JStr "pattern") result)],
                         s2, w')
          end
      end
  | _, _ => None
  end.

(** The shape shared by the tools of [tools/transport.py]: get the
    connection, send the command with the default timeout of two seconds,
    show an error or the answer. *)
Definition call_tool (h : host) (action : string) (params : option Dict.t)
           (show : Dict.t -> string) (s : session) (w : world)
  : option (outcome string * session * world) :=
  let (conn, s1) := Connection.get_connection h s in
  match Connection.send_command float_str conn action params 2 s1 w with
  | None => None
  | Some (Raised e, s2, w') => Some (Raised e, s2, w')
  | Some (Returned response, s2, w') =>
      match as_result response with
      | Raised e => Some (Raised e, s2, w')
      | Returned result =>
          if Tools.shows_error result
          then Some (Returned ("Error: " +:+ str (error_of result)), s2, w')
          else Some (Returned (show result), s2, w')
      end
  end.

(** [fl_play] *)
Definition fl_play (h : host) : session -> world -> option (outcome string * session * world) :=
  call_tool h "transport.start" None
    (fun result =>
       let is_playing := Dict.get_default "is_playing" (JBool false) result in
       "Playback " +:+ (if Tools.truthy is_playing then "started" else "paused")).

(** [fl_stop] *)
Definition fl_stop (h : host) : session -> world -> option (outcome string * session * world) :=
  call_tool h "transport.stop" None (fun _ => "Playback stopped").

(** [fl_record] *)
Definition fl_record (h : host) : session -> world -> option (outcome string * session * world) :=
  call_tool h "transport.record" None
    (fun result =>
       let is_recording := Dict.get_default "is_recording" (JBool false) result in
       "Recording " +:+ (if Tools.truthy is_recording then "enabled" else "disabled")).

End Tools.

End Server.

(** ** [fl_controller/device_FLStudioMCP.py]: some handlers *)

Module Handlers.

(** [params.get(key, default)]; [params] is whatever the command file
    held under ["params"]. *)
Definition params_get (params : json) (key : string) (default : json) : outcome json :=
  match params with
  | JObj d => Returned (Dict.get_default key default d)
  | _ => Raised (Exn AttributeError ("'" +:+ Controller.type_name params
                                      +:+ "' object has no attribute 'get'"))
  end.

(** [v << bits], for a constant [bits] *)
Definition shift_left (v : json) (bits : Z) : outcome Z :=
  match Py.as_int v with
  | Some n => Returned (Z.shiftl n bits)
  | None => Raised (Exn TypeError ("unsupported operand type(s) for <<: '"
                                   +:+ Controller.type_name v +:+ "' and 'int'"))
  end.

(** [n | v], for an integer [n] *)
Definition bit_or (n : Z) (v : json) : outcome Z :=
  match Py.as_int v with
  | Some m => Returned (Z.lor n m)
  | None => Raised (Exn TypeError ("unsupported operand type(s) for |: 'int' and '"
                                   +:+ Controller.type_name v +:+ "'"))
  end.

(** [color = (b << 16) | (g << 8) | r], on integers *)
Definition bgr (r g b : Z) : Z := Z.lor (Z.lor (Z.shiftl b 16) (Z.shiftl g 8)) r.

(** The same on what the parameters hold, operand by operand. *)
Definition color_of (r g b : json) : outcome Z :=
  match shift_left b 16 with
  | Raised e => Raised e
  | Returned high =>
      match shift_left g 8 with
      | Raised e => Raised e
      | Returned middle => bit_or (Z.lor high middle) r
      end
  end.

(** [str(v)] for an [int] or a [bool] *)
Definition str_of_number (v : json) : string :=
  match v with
  | JInt n => Py.str_of_int n
  | JBool true => "True"
  | JBool false => "False"
  | _ => ""
  end.

(** [1 if value else 0] *)
Definition bit_of (value : json) : json :=
  JInt (if Tools.truthy value then 1 else 0).

(** [v == 1] *)
Definition equals_one (v : json) : bool :=
  match v with
  | JInt n => (n =? 1)%Z
  | JBool b => b
  | _ => false
  end.

(** The elements a [for] loop, [enumerate], [sum] or [len] sees. *)
Definition iterate (v : json) : outcome (list json) :=
  match v with
  | JArr items => Returned items
  | JObj fields => Returned (map (fun kv => JStr (fst kv)) fields)
  | JStr text =>
      Returned (map (fun c => JStr (String c EmptyString)) (list_ascii_of_string text))
  | _ => Raised (Exn TypeError ("'" +:+ Controller.type_name v
                                +:+ "' object is not iterable"))
  end.

(** [sum(items)]: from 0, adding left to right. *)
Fixpoint sum_from (total : Z) (items : list json) : outcome Z :=
  match items with
  | [] => Returned total
  | item :: rest =>
      match Py.as_int item with
      | Some n => sum_from (total + n) rest
      | None => Raised (Exn TypeError ("unsupported operand type(s) for +: 'int' and '"
                                       +:+ Controller.type_name item +:+ "'"))
      end
  end.

(** [range(n)] *)
Definition range (n : json) : outcome (list Z) :=
  match Py.as_int n with
  | Some count => Returned (map Z.of_nat (seq 0 (Z.to_nat count)))
  | None => Raised (Exn TypeError ("'" +:+ Controller.type_name n
                                   +:+ "' object cannot be interpreted as an integer"))
  end.

(** [name.startswith(prefix)] *)
Definition starts_with (prefix : string) (name : json) : outcome bool :=
  match name with
  | JStr text => Returned (String.prefix prefix text)
  | _ => Raised (Exn AttributeError ("'" +:+ Controller.type_name name
                                     +:+ "' object has no attribute 'startswith'"))
  end.

Section Api.

(** The DAW behind its API: a call names the function and gives its
    positional arguments; it returns a value or raises, and may change the
    DAW. *)
Variable Daw : Type.
Variable api : string -> list json -> Daw -> outcome json * Daw.

Definition handle_mixer_set_track_color (params : json) (d : Daw)
  : outcome Dict.t * Daw :=
  match params_get params "track" (JInt 0), params_get params "r" (JInt 0),
        params_get params "g" (JInt 0), params_get params "b" (JInt 0) with
  | Returned track, Returned r, Returned g, Returned b =>
      match color_of r g b with
      | Raised e => (Raised e, d)
      | Returned color =>
          match api "mixer.setTrackColor" [track; JInt color] d with
          | (Raised e, d') => (Raised e, d')
          | (Returned _, d') =>
              (Returned [("color", JStr ("RGB(" +:+ str_of_number r +:+ ", "
                                          +:+ str_of_number g +:+ ", "
                                          +:+ str_of_number b +:+ ")"))], d')
          end
      end
  | Raised e, _, _, _ | _, Raised e, _, _ | _, _, Raised e, _ | _, _, _, Raised e =>
      (Raised e, d)
  end.

Definition handle_channels_set_color (params : json) (d : Daw)
  : outcome Dict.t * Daw :=
  match params_get params "index" (JInt 0), params_get params "r" (JInt 0),
        params_get params "g" (JInt 0), params_get params "b" (JInt 0) with
  | Returned index, Returned r, Returned g, Returned b =>
      match color_of r g b with
      | Raised e => (Raised e, d)
      | Returned color =>
          match api "channels.setChannelColor" [index; JInt color; JBool true] d with
          | (Raised e, d') => (Raised e, d')
          | (Returned _, d') =>
              (Returned [("color", JStr ("RGB(" +:+ str_of_number r +:+ ", "
                                          +:+ str_of_number g +:+ ", "
                                          +:+ str_of_number b +:+ ")"))], d')
          end
      end
  | Raised e, _, _, _ | _, Raised e, _, _ | _, _, Raised e, _ | _, _, _, Raised e =>
      (Raised e, d)
  end.

Definition handle_channels_get_grid_bit (params : json) (d : Daw)
  : outcome Dict.t * Daw :=
  match params_get params "channel" (JInt 0), params_get params "position" (JInt 0) with
  | Returned channel, Returned position =>
      match api "channels.getGridBit" [channel; position; JBool true] d with
      | (Raised e, d') => (Raised e, d')
      | (Returned bit, d') => (Returned [("value", JBool (equals_one bit))], d')
      end
  | Raised e, _ | _, Raised e => (Raised e, d)
  end.

Definition handle_channels_set_grid_bit (params : json) (d : Daw)
  : outcome Dict.t * Daw :=
  match params_get params "channel" (JInt 0), params_get params "position" (JInt 0),
        params_get params "value" (JBool false) with
  | Returned channel, Returned position, Returned value =>
      match api "channels.setGridBit" [channel; position; bit_of value; JBool true] d with
      | (Raised e, d') => (Raised e, d')
      | (Returned _, d1) =>
          match api "channels.getChannelName" [channel; JBool true] d1 with
          | (Raised e, d') => (Raised e, d')
          | (Returned name, d') =>
              (Returned [("value", value); ("channel_name", name)], d')
          end
      end
  | Raised e, _, _ | _, Raised e, _ | _, _, Raised e => (Raised e, d)
  end.

(** The loop of [handle_channels_get_step_sequence]. *)
Fixpoint get_steps (channel : json) (positions : list Z) (sequence : list json) (d : Daw)
  : outcome (list json) * Daw :=
  match positions with
  | [] => (Returned sequence, d)
  | i :: rest =>
      match api "channels.getGridBit" [channel; JInt i; JBool true] d with
      | (Raised e, d') => (Raised e, d')
      | (Returned bit, d') =>
          get_steps channel rest (sequence ++ [JBool (equals_one bit)]) d'
      end
  end.

Definition handle_channels_get_step_sequence (params : json) (d : Daw)
  : outcome Dict.t * Daw :=
  match params_get params "channel" (JInt 0), params_get params "steps" (JInt 16) with
  | Returned channel, Returned steps =>
      match range steps with
      | Raised e => (Raised e, d)
      | Returned positions =>
          match get_steps channel positions [] d with
          | (Raised e, d') => (Raised e, d')
          | (Returned sequence, d') => (Returned [("sequence", JArr sequence)], d')
          end
      end
  | Raised e, _ | _, Raised e => (Raised e, d)
  end.

(** The loop of [handle_channels_set_step_sequence], from position [i]. *)
Fixpoint set_steps (channel : json) (i : Z) (values : list json) (d : Daw)
  : outcome unit * Daw :=
  match values with
  | [] => (Returned tt, d)
  | value :: rest =>
      match api "channels.setGridBit" [channel; JInt i; bit_of value; JBool true] d with
      | (Raised e, d') => (Raised e, d')
      | (Returned _, d') => set_steps channel (i + 1) rest d'
      end
  end.

Definition handle_channels_set_step_sequence (params : json) (d : Daw)
  : outcome Dict.t * Daw :=
  match params_get params "channel" (JInt 0), params_get params "pattern" (JArr []) with
  | Returned channel, Returned pattern =>
      match iterate pattern with
      | Raised e => (Raised e, d)
      | Returned values =>
          match set_steps channel 0 values d with
          | (Raised e, d') => (Raised e, d')
          | (Returned _, d1) =>
              match sum_from 0 values with
              | Raised e => (Raised e, d1)
              | Returned active_steps =>
                  match api "channels.getChannelName" [channel; JBool true] d1 with
                  | (Raised e, d') => (Raised e, d')
                  | (Returned name, d') =>
                      (Returned [("active_steps", JInt active_steps);
                                 ("total_steps", JInt (Z.of_nat (length values)));
                                 ("channel_name", name)], d')
                  end
              end
          end
      end
  | Raised e, _ | _, Raised e => (Raised e, d)
  end.

(** The test that skips a track:
    [not include_empty and (not name or name.startswith("Insert "))]. *)
Definition is_empty_track (include_empty name : json) : outcome bool :=
  if Tools.truthy include_empty then Returned false
  else if negb (Tools.truthy name) then Returned true
  else starts_with "Insert " name.

(** [name if name else ("Master" if i == 0 else f"Insert {i}")] *)
Definition shown_name (name : json) (i : Z) : json :=
  if Tools.truthy name then name
  else if (i =? 0)%Z then JStr "Master"
  else JStr ("Insert " +:+ Py.str_of_int i).

(** The dict appended for track [i]; its values are evaluated in order. *)
Definition track_entry (name : json) (i : Z) (d : Daw) : outcome json * Daw :=
  match api "mixer.getTrackVolume" [JInt i] d with
  | (Raised e, d') => (Raised e, d')
  | (Returned volume, d1) =>
      match api "mixer.getTrackPan" [JInt i] d1 with
      | (Raised e, d') => (Raised e, d')
      | (Returned pan, d2) =>
          match api "mixer.isTrackMuted" [JInt i] d2 with
          | (Raised e, d') => (Raised e, d')
          | (Returned muted, d3) =>
              match api "mixer.isTrackSolo" [JInt i] d3 with
              | (Raised e, d') => (Raised e, d')
              | (Returned solo, d4) =>
                  (Returned (JObj [("index", JInt i);
                                   ("name", shown_name name i);
                                   ("volume", volume);
                                   ("pan", pan);
                                   ("is_muted", JBool (equals_one muted));
                                   ("is_solo", JBool (equals_one solo))]), d4)
              end
          end
      end
  end.

(** The loop of [handle_mixer_get_all_tracks]. *)
Fixpoint get_tracks (include_empty : json) (positions : list Z) (tracks : list json)
         (d : Daw) : outcome (list json) * Daw :=
  match positions with
  | [] => (Returned tracks, d)
  | i :: rest =>
      match api "mixer.getTrackName" [JInt i] d with
      | (Raised e, d') => (Raised e, d')
      | (Returned name, d1) =>
          match is_empty_track include_empty name with
          | Raised e => (Raised e, d1)
          | Returned skip =>
              if skip && negb (i =? 0)%Z
              then get_tracks include_empty rest tracks d1
              else
                match track_entry name i d1 with
                | (Raised e, d') => (Raised e, d')
                | (Returned entry, d') =>
                    get_tracks include_empty rest (tracks ++ [entry]) d'
                end
          end
      end
  end.

Definition handle_mixer_get_all_tracks (params : json) (d : Daw)
  : outcome Dict.t * Daw :=
  match params_get params "include_empty" (JBool false) with
  | Raised e => (Raised e, d)
  | Returned include_empty =>
      match api "mixer.trackCount" [] d with
      | (Raised e, d') => (Raised e, d')
      | (Returned track_count, d1) =>
          match range track_count with
          | Raised e => (Raised e, d1)
          | Returned positions =>
              match get_tracks include_empty positions [] d1 with
              | (Raised e, d') => (Raised e, d')
              | (Returned tracks, d') => (Returned [("tracks", JArr tracks)], d')
              end
          end
      end
  end.

End Api.

End Handlers.

(** ** The actions the tools send *)

(** The first argument of each [send_command] call, file by file, in the
    order of the calls. *)
Module ToolCalls.

Definition server : list string := ["transport.getStatus"].

Definition transport : list string :=
  ["transport.start"; "transport.stop"; "transport.record"; "transport.getStatus";
   "transport.setPosition"; "transport.getLength"; "transport.setLoopMode";
   "transport.setPlaybackSpeed"].

Definition mixer : list string :=
  ["mixer.getTrackCount"; "mixer.getTrackInfo"; "mixer.getAllTracks";
   "mixer.setTrackVolume"; "mixer.setTrackPan"; "mixer.muteTrack"; "mixer.soloTrack";
   "mixer.armTrack"; "mixer.setTrackName"; "mixer.setTrackColor"; "mixer.setStereoSep"].

Definition channels : list string :=
  ["channels.getCount"; "channels.getInfo"; "channels.getAll"; "channels.getSelected";
   "channels.select"; "channels.selectOne"; "channels.triggerNote"; "channels.setVolume";
   "channels.setPan"; "channels.mute"; "channels.solo"; "channels.setName";
   "channels.setColor"; "channels.routeToMixer"; "channels.getGridBit";
   "channels.setGridBit"; "channels.getStepSequence"; "channels.setStepSequence"].

Definition plugins : list string :=
  ["plugins.isValid"; "plugins.getName"; "plugins.getParamCount"; "plugins.getParams";
   "plugins.getParamValue"; "plugins.setParamValue"; "plugins.getPresetCount";
   "plugins.nextPreset"; "plugins.prevPreset"; "plugins.getColor"].

Definition sent_actions : list string :=
  (server ++ transport ++ mixer ++ channels ++ plugins)%list.

End ToolCalls.

(** ** Vocabulary of the statements *)


(** The shared directory as the [k]-th turn of the polling loop finds it:
    after [k] sleeps. *)
Fixpoint after_sleeps (k : nat) (fs : filesystem) (others : list (list fs_op))
  : filesystem * list (list fs_op) :=
  match k with
  | O => (fs, others)
  | S k' => let (fs', others') := sleep fs others in after_sleeps k' fs' others'
  end.

(** [needle] occurs in [hay]. *)
Definition occurs_in (needle hay : string) : Prop :=
  exists before after : string, hay = before +:+ needle +:+ after.

(** The first [n] turns of the polling loop are within the time budget and
    find no response file. *)
Definition idle_until (n : nat) (response_file : string) (timeout start_time : Q)
           (ticks : list Q) (fs : filesystem) (others : list (list fs_op)) : Prop :=
  forall k : nat, (k < n)%nat ->
    exists now : Q,
      ticks !! k = Some now /\ (now - start_time < timeout)%Q /\
      files (fst (after_sleeps k fs others)) !! response_file = None.

(** The command [send_command] writes for [action] and [params]. *)
Definition command_of (action : string) (params : option Dict.t) : json :=
  JObj [("action", JStr action); ("params", JObj (params_or_empty params))].

(** The shared directory when polling starts: the command written, the old
    response cleared. *)
Definition fs_at_poll_start (c : MIDIConnection) (action : string)
           (params : option Dict.t) (fs : filesystem) : filesystem :=
  clear_old_response (_response_file c)
    (apply_op fs (Put (_command_file c) (WellFormed (command_of action params)))).

(** The connection after the trigger has gone out on its port [p]. *)
Definition triggered (c : MIDIConnection) (p : port) : MIDIConnection :=
  Conn (Some (Port (port_device p) (port_sent p ++ [trigger_msg]) None))
       (_port_name c) (_connected c) (_error c) (_command_file c) (_response_file c).

(** A call gets as far as polling: the connection stands (as [c1], with
    port [p]), the command file can be written and the trigger is sent. *)
Definition trigger_goes_out (c : MIDIConnection) (w : world)
           (c1 : MIDIConnection) (p : port) : Prop :=
  ensure_connected c (mido w) = (Returned tt, c1) /\
  (_command_file c1 ∉ write_denied (fs w)) /\
  mido_installed (mido w) = true /\
  _port c1 = Some p /\
  port_broken p = None.

(** The error messages [send_command] makes up itself. *)
Definition reported_failure (float_str : Q -> string) (timeout : Q) (msg : string) : Prop :=
  (exists detail, msg = "Failed to write command file: " +:+ detail) \/
  (exists detail, msg = "Failed to send MIDI trigger: " +:+ detail) \/
  msg = timeout_message float_str timeout \/
  (exists detail, msg = "Invalid JSON in response: " +:+ detail) \/
  (exists detail, msg = "Failed to read response: " +:+ detail).

(** A note-on for note 127 at full velocity. *)
Definition is_trigger_note (m : message) : Prop :=
  msg_type m = "note_on" /\ msg_note m = 127%Z /\ msg_velocity m = 127%Z.

(** ** Sample data *)

Module Sample.

Definition mac : host := Host "Darwin" "/Users/me".

(** [str(2.0)], for the calls below, which all wait two seconds *)
Definition float_str (timeout : Q) : string := "2.0".

Definition no_files : filesystem := FS ∅ ∅ ∅.

(** A machine with the IAC driver enabled, and one with no MIDI port. *)
Definition mido_iac : mido_env :=
  Mido true (Returned ["Built-in Output"; "IAC Driver Bus 1"])
       (fun name => Returned (Port name [] None)).
Definition mido_no_ports : mido_env :=
  Mido true (Returned []) (fun name => Returned (Port name [] None)).

Definition fresh : MIDIConnection := init mac.
Definition iac : port := Port "IAC Driver Bus 1" [] None.
Definition connected : MIDIConnection :=
  Conn (Some iac) (Some "IAC Driver Bus 1") true None
       (_command_file fresh) (_response_file fresh).

Definition answer : json := JObj [("success", JBool true); ("value", JInt 42)].

(** The DAW never answers: the clock passes two seconds after two turns. *)
Definition silent : world :=
  World no_files [0; 1 # 100; 3 # 100; 21 # 10]%Q [] mido_iac.

(** The DAW writes its answer during the second sleep. *)
Definition answering (fs : filesystem) (reply : file_data) : world :=
  World fs [0; 1 # 100; 3 # 100; 5 # 100; 21 # 10]%Q
        [[]; [Put (_response_file fresh) reply]] mido_iac.

(** The response file cannot be unlinked (say, another process holds it
    open). *)
Definition held : filesystem := FS ∅ ∅ {[ _response_file fresh ]}.

(** A response file waiting when the call starts. *)
Definition waiting (reply : file_data) (unlink_denied : gset string) : world :=
  World (FS {[ _response_file fresh := reply ]} ∅ unlink_denied)
        [0; 1 # 100; 21 # 10]%Q [] mido_iac.

Definition no_midi : world := World no_files [0; 21 # 10]%Q [] mido_no_ports.

Definition add_c4 : Dict.t :=
  [("action", JStr "add_notes"); ("notes", JArr [JObj [("midi", JInt 60)]])].

(** The controller's side: a DAW with no state whose handlers all return
    an empty dict, and a command for an action the script does not know. *)
Definition studio : Controller.daw_host := Controller.DawHost "darwin" "/Users/me" None.
Definition quiet_handler (hd : Controller.handler) (params : json) (d : unit)
  : outcome Dict.t * unit := (Returned [], d).
Definition repr_unused (v : json) : string := "".
Definition rewind : Dict.t := [("action", JStr "transport.rewind"); ("params", JObj [])].
Definition rewind_pending : Controller.state unit :=
  Controller.State unit
    (FS {[ Controller.COMMAND_FILE studio := WellFormed (JObj rewind) ]} ∅ ∅) tt 0.
Definition trigger_event : Controller.midi_event := Controller.Event 144 127 127 false.

End Sample.

(** Tactics for the statements at sample inputs: [idle_until] over a
    concrete clock, and [trigger_goes_out] for a concrete connection. *)
Ltac idle_turns :=
  let k := fresh "k" in
  let Hk := fresh "Hk" in
  intros k Hk;
  repeat (destruct k as [|k]; [eexists; repeat split; reflexivity|]);
  exfalso; lia.

Ltac goes_out :=
  repeat split; try reflexivity; try apply not_elem_of_empty.

(** ** More vocabulary *)

(** The path an operation of another process works on. *)
Definition path_of (op : fs_op) : string :=
  match op with Put p _ | Remove p => p end.

(** No other process touches [p] while the call sleeps. *)
Definition left_alone (p : string) (others : list (list fs_op)) : Prop :=
  forall ops op, In ops others -> In op ops -> path_of op <> p.

Definition key_eqb (a b : Trigger.key) : bool :=
  match a, b with
  | Trigger.Key_cmd, Trigger.Key_cmd | Trigger.Key_alt, Trigger.Key_alt
  | Trigger.Key_ctrl, Trigger.Key_ctrl | Trigger.Key_y, Trigger.Key_y => true
  | _, _ => false
  end.

(** The keys that are down after a run of effects, given those that were
    down before. *)
Fixpoint held_after (down : list Trigger.key) (trace : list Trigger.effect)
  : list Trigger.key :=
  match trace with
  | [] => down
  | Trigger.Pressed k :: rest => held_after (k :: down) rest
  | Trigger.Released k :: rest =>
      held_after (filter (fun k' => negb (key_eqb k k')) down) rest
  | _ :: rest => held_after down rest
  end.

Definition held (trace : list Trigger.effect) : list Trigger.key := held_after [] trace.

(** The global [_trigger] is unset or was made on this machine. *)
Definition trigger_of (h : host) (global : option Trigger.FLStudioTrigger) : Prop :=
  global = None \/ global = Some (Trigger.new h).

(** A DAW that keeps step-sequencer bits as an API should: [bit] reads
    the grid of a DAW state; setting a step stores it and leaves the other
    steps alone, getting a step or a channel name changes nothing. *)
Definition keeps_grid_bits {Daw : Type}
           (api : string -> list json -> Daw -> outcome json * Daw)
           (bit : Daw -> json -> Z -> Z) : Prop :=
  (forall d channel i v,
      exists r d',
        api "channels.setGridBit" [channel; JInt i; JInt v; JBool true] d = (Returned r, d') /\
        bit d' channel i = v /\
        forall j, j <> i -> bit d' channel j = bit d channel j) /\
  (forall d channel i,
      api "channels.getGridBit" [channel; JInt i; JBool true] d
        = (Returned (JInt (bit d channel i)), d)) /\
  (forall d channel,
      exists name,
        api "channels.getChannelName" [channel; JBool true] d = (Returned name, d)).

(** The number of steps that are on. *)
Definition count_on (bits : list bool) : Z := Z.of_nat (count_occ bool_dec bits true).

(** A session as the two [get_connection] and [reset_connection] leave
    it: the wrapper, if there is one, refers to the object the global of
    [midi_connection.py] names, and that object exists. *)
Definition tidy (s : session) : Prop :=
  (forall conn, fl_global s = Some conn -> midi_global s = Some (_midi conn)) /\
  (forall address, midi_global s = Some address -> is_Some (objects s !! address)).

(** The session when the server starts. *)
Definition no_session : session := Session ∅ None None.

(** The mixer as the API shows it: how many tracks, and for each track
    its name, volume, pan and mute and solo flags. *)
Record mixer_view (Daw : Type) : Type := MixerView {
  track_count : Daw -> Z;
  track_name : Daw -> Z -> string;
  track_volume : Daw -> Z -> json;
  track_pan : Daw -> Z -> json;
  track_muted : Daw -> Z -> json;
  track_solo : Daw -> Z -> json
}.

Arguments track_count {Daw}.
Arguments track_name {Daw}.
Arguments track_volume {Daw}.
Arguments track_pan {Daw}.
Arguments track_muted {Daw}.
Arguments track_solo {Daw}.

(** Reading the mixer changes nothing: the getters answer with what the
    view shows and leave the DAW as it is. *)
Definition reads_mixer {Daw : Type}
           (api : string -> list json -> Daw -> outcome json * Daw)
           (view : mixer_view Daw) : Prop :=
  forall d : Daw,
    api "mixer.trackCount" [] d = (Returned (JInt (track_count view d)), d) /\
    forall i : Z,
      api "mixer.getTrackName" [JInt i] d = (Returned (JStr (track_name view d i)), d) /\
      api "mixer.getTrackVolume" [JInt i] d = (Returned (track_volume view d i), d) /\
      api "mixer.getTrackPan" [JInt i] d = (Returned (track_pan view d i), d) /\
      api "mixer.isTrackMuted" [JInt i] d = (Returned (track_muted view d i), d) /\
      api "mixer.isTrackSolo" [JInt i] d = (Returned (track_solo view d i), d).

(** A track that has been given a name of its own. *)
Definition named_track (name : string) : bool :=
  negb (String.eqb name "") && negb (String.prefix "Insert " name).

(** The tracks [handle_mixer_get_all_tracks] is to list: all of them on
    request, otherwise the master and the named ones. *)
Definition listed {Daw : Type} (view : mixer_view Daw) (include_empty : bool)
           (d : Daw) (i : Z) : bool :=
  include_empty || (i =? 0)%Z || named_track (track_name view d i).

(** The entry of track [i]. *)
Definition entry_of {Daw : Type} (view : mixer_view Daw) (d : Daw) (i : Z) : json :=
  JObj [("index", JInt i);
        ("name", JStr (if String.eqb (track_name view d i) "" then
                         if (i =? 0)%Z then "Master" else "Insert " +:+ Py.str_of_int i
                       else track_name view d i));
        ("volume", track_volume view d i);
        ("pan", track_pan view d i);
        ("is_muted", JBool (Handlers.equals_one (track_muted view d i)));
        ("is_solo", JBool (Handlers.equals_one (track_solo view d i)))].

(** The track numbers from 0 up to the count. *)
Definition tracks_of {Daw : Type} (view : mixer_view Daw) (d : Daw) : list Z :=
  map Z.of_nat (seq 0 (Z.to_nat (track_count view d))).

(** What the controller script does to the shared directory when it is
    triggered with the directory as [fs] and the DAW as [d]: it writes its
    response file, if it can. *)
Definition script_reply {Daw : Type}
           (run_handler : Controller.handler -> json -> Daw -> outcome Dict.t * Daw)
           (py_repr : json -> string) (hd : Controller.daw_host)
           (d : Daw) (fs : filesystem) : list fs_op :=
  match files (Controller.daw_fs Daw
                 (Controller.execute_pending_command Daw run_handler py_repr hd
                    (Controller.State Daw fs d 0)))
        !! Controller.RESPONSE_FILE hd with
  | Some data => [Put (Controller.RESPONSE_FILE hd) data]
  | None => []
  end.

(** ** More sample data *)

Module Sample2.

Definition pc : host := Host "Windows" "C:/Users/me".
Definition linux : host := Host "Linux" "/home/me".

(** A Mac on which [osascript] exits with status 1. *)
Definition mac_script_fails : Trigger.desktop :=
  Trigger.Desktop (fun _ => Trigger.Completed 1) (Returned tt) (fun _ => None).

(** A PC whose keyboard works, and one whose third keyboard call raises. *)
Definition pc_ok : Trigger.desktop :=
  Trigger.Desktop (fun _ => Trigger.Completed 0) (Returned tt) (fun _ => None).
Definition pc_third_key_fails : Trigger.desktop :=
  Trigger.Desktop (fun _ => Trigger.Completed 0) (Returned tt)
                  (fun n => if (n =? 2)%nat then Some (Exn OtherException "key") else None).

(** A DAW with one channel, "Kick", whose grid is a map from positions
    to bits. *)
Definition kick_api (name : string) (args : list json) (d : gmap Z Z)
  : outcome json * gmap Z Z :=
  if String.eqb name "channels.setGridBit" then
    match args with
    | [_; JInt i; JInt v; _] => (Returned JNull, <[i := v]> d)
    | _ => (Raised (Exn TypeError "setGridBit"), d)
    end
  else if String.eqb name "channels.getGridBit" then
    match args with
    | [_; JInt i; _] => (Returned (JInt (default 0%Z (d !! i))), d)
    | _ => (Raised (Exn TypeError "getGridBit"), d)
    end
  else if String.eqb name "channels.getChannelName" then (Returned (JStr "Kick"), d)
  else (Returned JNull, d).

Definition kick_bit (d : gmap Z Z) (channel : json) (i : Z) : Z := default 0%Z (d !! i).

Definition empty_desk : PianoRollTools.desk := PianoRollTools.Desk Sample.no_files None [].

Definition note_c4 : Dict.t := [("midi", JInt 60); ("time", JInt 0)].

(** A DAW that counts the times it was started; [transport.start]
    answers with the count. *)
Definition counting_handler (hd : Controller.handler) (params : json) (d : Z)
  : outcome Dict.t * Z :=
  (Returned [("started", JInt (d + 1))], (d + 1)%Z).

(** A handler that raises. *)
Definition failing_handler (hd : Controller.handler) (params : json) (d : unit)
  : outcome Dict.t * unit := (Raised (Exn OtherException "no such track"), d).

(** A connection whose port has stopped working. *)
Definition unplugged : MIDIConnection :=
  Conn (Some (Port "IAC Driver Bus 1" [] (Some (Exn OSError "port closed"))))
       (Some "IAC Driver Bus 1") true None
       (_command_file Sample.fresh) (_response_file Sample.fresh).

(** A desk with one request queued. *)
Definition queued_desk : PianoRollTools.desk :=
  PianoRollTools.Desk
    (FS {[ PianoRoll._get_request_file Sample.mac := WellFormed (JArr [JObj Sample.add_c4]) ]}
        ∅ ∅)
    None [].


(** A session with a live connection at address 0. *)
Definition live_session : session :=
  Session {[ 0%nat := Sample.connected ]} (Some 0%nat) (Some (FLConn 0)).


(** A mixer with four tracks: the master, an untouched insert, "Bass",
    and a track whose name has been deleted. *)
Definition band_names (i : Z) : string :=
  if (i =? 0)%Z then "Master"
  else if (i =? 1)%Z then "Insert 1"
  else if (i =? 2)%Z then "Bass"
  else "".
Definition band_api (name : string) (args : list json) (d : unit)
  : outcome json * unit :=
  if String.eqb name "mixer.trackCount" then (Returned (JInt 4), d)
  else if String.eqb name "mixer.getTrackName" then
    match args with
    | [JInt i] => (Returned (JStr (band_names i)), d)
    | _ => (Raised (Exn TypeError "getTrackName"), d)
    end
  else (Returned (JInt 0), d).
Definition band : mixer_view unit :=
  MixerView unit (fun _ => 4%Z) (fun _ => band_names) (fun _ _ => JInt 0)
            (fun _ _ => JInt 0) (fun _ _ => JInt 0) (fun _ _ => JInt 0).

(** A pending [transport.start]. *)
Definition start : Dict.t := [("action", JStr "transport.start"); ("params", JObj [])].
Definition start_pending : Controller.state unit :=
  Controller.State unit
    (FS {[ Controller.COMMAND_FILE Sample.studio := WellFormed (JObj start) ]} ∅ ∅) tt 0.

(** The script answers the command [action] during the first sleep. *)
Definition replying (action : string) (d : Z) : world :=
  World Sample.no_files [0; 1 # 100; 3 # 100; 21 # 10]%Q
        [script_reply counting_handler Sample.repr_unused Sample.studio d
           (fs_at_poll_start Sample.connected action None Sample.no_files)]
        Sample.mido_iac.

End Sample2.

(** * Properties *)

(** ** The request queue *)

Section Queue.

Variable h : host.
Let request_file := PianoRoll._get_request_file h.





(** A call that finds the queue [existing] and may write stores the
    extended queue and touches nothing else. *)
Lemma write_request_writes (fs : filesystem) (request : json) (existing : list json) :
  PianoRoll.read_existing request_file fs = Returned existing ->
  request_file ∉ write_denied fs ->
  PianoRoll._write_request h request fs =
    (Returned tt,
     apply_op fs (Put request_file
                      (WellFormed (JArr (PianoRoll.append_requests existing request))))).
Proof.
  intros Hread Hw. unfold PianoRoll._write_request. fold request_file.
  rewrite Hread. unfold Path.write_json.
  destruct (decide (request_file ∈ write_denied fs)) as [Hin|_]; [contradiction|].
  reflexivity.
Qed.


Lemma write_request_raises (fs fs' : filesystem) (request : json) (e : exn) :
  PianoRoll._write_request h request fs = (Raised e, fs') -> fs' = fs.
Proof.
  unfold PianoRoll._write_request. fold request_file.
  destruct (PianoRoll.read_existing request_file fs) as [existing|e'].
  - unfold Path.write_json.
    destruct (decide (request_file ∈ write_denied fs)); [|discriminate].
    now intros [= _ <-].
  - now intros [= _ <-].
Qed.

Lemma put_lookup (fs : filesystem) (p : string) (d : file_data) :
  files (apply_op fs (Put p d)) !! p = Some d.
Proof. simpl. apply lookup_insert_eq. Qed.

Lemma put_write_denied (fs : filesystem) (p : string) (d : file_data) :
  write_denied (apply_op fs (Put p d)) = write_denied fs.
Proof. reflexivity. Qed.





End Queue.

(** ** The polling loop *)

Lemma Qltb_lt (x y : Q) : Qltb x y = true <-> (x < y)%Q.
Proof.
  unfold Qltb. rewrite negb_true_iff. split.
  - intros Hle. apply Qnot_le_lt. intros Hyx.
    apply Qle_bool_iff in Hyx. congruence.
  - intros Hlt. destruct (Qle_bool y x) eqn:Hle; [|reflexivity].
    apply Qle_bool_iff in Hle. exfalso. now apply (Qlt_not_le x y).
Qed.

Lemma Qltb_not_lt (x y : Q) : Qltb x y = false <-> ~ (x < y)%Q.
Proof.
  rewrite <- Qltb_lt. destruct (Qltb x y); split; intros H; congruence.
Qed.

Section Polling.

Variable float_str : Q -> string.
Variable response_file : string.
Variables timeout start_time : Q.

Local Abbreviation poll_from := (poll float_str response_file timeout start_time).

(** A turn within the budget that finds no file sleeps and goes on. *)
Lemma poll_sleeps (now : Q) (ticks : list Q) (fs : filesystem)
      (others : list (list fs_op)) :
  (now - start_time < timeout)%Q ->
  files fs !! response_file = None ->
  poll_from (now :: ticks) fs others =
    poll_from ticks (fst (sleep fs others)) (snd (sleep fs others)).
Proof.
  intros Hin Hnone. cbn [poll].
  apply Qltb_lt in Hin. rewrite Hin.
  unfold Path.exists_. rewrite Hnone.
  now destruct (sleep fs others).
Qed.

Lemma after_sleeps_succ (k : nat) (fs : filesystem) (others : list (list fs_op)) :
  after_sleeps (S k) fs others =
    after_sleeps k (fst (sleep fs others)) (snd (sleep fs others)).
Proof. cbn [after_sleeps]. now destruct (sleep fs others). Qed.

(** [n] idle turns bring the loop to its [n]-th turn. *)
Lemma poll_idle (n : nat) :
  forall (ticks : list Q) (fs : filesystem) (others : list (list fs_op)),
    idle_until n response_file timeout start_time ticks fs others ->
    poll_from ticks fs others =
      poll_from (drop n ticks) (fst (after_sleeps n fs others))
                (snd (after_sleeps n fs others)).
Proof.
  induction n as [|n IH]; intros ticks fs others Hidle.
  - now rewrite drop_0.
  - destruct (Hidle 0%nat) as (now & Hnow & Hin & Hnone); [lia|].
    destruct ticks as [|now' ticks']; [discriminate|].
    injection Hnow as ->. cbn [after_sleeps fst] in Hnone.
    rewrite poll_sleeps by assumption.
    rewrite after_sleeps_succ. cbn [drop].
    apply IH. intros k Hk.
    destruct (Hidle (S k)) as (t & Ht & Hbudget & Hfile); [lia|].
    exists t. rewrite after_sleeps_succ in Hfile. now repeat split.
Qed.

(** The turn that finds the budget used up reports the timeout. *)
Lemma poll_times_out (now : Q) (ticks : list Q) (fs : filesystem)
      (others : list (list fs_op)) :
  ~ (now - start_time < timeout)%Q ->
  poll_from (now :: ticks) fs others =
    Some (failure (timeout_message float_str timeout), (fs, ticks, others)).
Proof.
  intros Hout. cbn [poll]. apply Qltb_not_lt in Hout. now rewrite Hout.
Qed.

(** The turn that finds a file which is not JSON reports it and stops. *)
Lemma poll_malformed (now : Q) (ticks : list Q) (fs : filesystem)
      (others : list (list fs_op)) (why : string) :
  (now - start_time < timeout)%Q ->
  files fs !! response_file = Some (Malformed why) ->
  poll_from (now :: ticks) fs others =
    Some (failure ("Invalid JSON in response: " +:+ why), (fs, ticks, others)).
Proof.
  intros Hin Hbad. cbn [poll]. apply Qltb_lt in Hin. rewrite Hin.
  unfold Path.exists_, Path.read_json. now rewrite Hbad.
Qed.

(** The turn that finds a file it cannot read reports that and stops. *)
Lemma poll_unreadable (now : Q) (ticks : list Q) (fs : filesystem)
      (others : list (list fs_op)) (e : exn) :
  (now - start_time < timeout)%Q ->
  files fs !! response_file = Some (Unreadable e) ->
  exists msg : string,
    poll_from (now :: ticks) fs others = Some (failure msg, (fs, ticks, others)).
Proof.
  intros Hin Hbad. cbn [poll]. apply Qltb_lt in Hin. rewrite Hin.
  unfold Path.exists_, Path.read_json. rewrite Hbad.
  destruct (is_JSONDecodeError e); eauto.
Qed.

(** The turn that finds well-formed JSON unlinks the file and returns
    the value. *)
Lemma poll_reads (now : Q) (ticks : list Q) (fs : filesystem)
      (others : list (list fs_op)) (v : json) :
  (now - start_time < timeout)%Q ->
  files fs !! response_file = Some (WellFormed v) ->
  poll_from (now :: ticks) fs others =
    Some (v, (snd (Path.unlink response_file fs), ticks, others)).
Proof.
  intros Hin Hok. cbn [poll]. apply Qltb_lt in Hin. rewrite Hin.
  unfold Path.exists_, Path.read_json. now rewrite Hok.
Qed.

(** The loop ends as soon as the clock shows the budget used up. *)
Lemma poll_terminates (ticks : list Q) :
  forall (fs : filesystem) (others : list (list fs_op)),
    (exists now : Q, In now ticks /\ ~ (now - start_time < timeout)%Q) ->
    exists result, poll_from ticks fs others = Some result.
Proof.
  induction ticks as [|t ticks IH]; intros fs others (now & Hin & Hout).
  - destruct Hin.
  - cbn [poll]. destruct (Qltb (t - start_time) timeout) eqn:Hbudget; [|eauto].
    destruct (Path.exists_ response_file fs).
    + destruct (Path.read_json response_file fs) as [v|e]; [eauto|].
      destruct (is_JSONDecodeError e); eauto.
    + destruct (sleep fs others) as [fs' others']. apply IH.
      destruct Hin as [->|Hin]; [|eauto].
      apply Qltb_lt in Hbudget. contradiction.
Qed.

End Polling.

(** ** The round trip *)

Lemma apply_op_unlink_denied (fs : filesystem) (op : fs_op) :
  unlink_denied (apply_op fs op) = unlink_denied fs.
Proof. now destruct op. Qed.

Lemma sleep_unlink_denied (fs : filesystem) (others : list (list fs_op)) :
  unlink_denied (fst (sleep fs others)) = unlink_denied fs.
Proof.
  destruct others as [|ops rest]; [reflexivity|]. cbn [sleep fst].
  revert fs. induction ops as [|op ops IH]; intros fs; [reflexivity|].
  cbn [fold_left]. now rewrite IH, apply_op_unlink_denied.
Qed.

Lemma after_sleeps_unlink_denied (k : nat) :
  forall (fs : filesystem) (others : list (list fs_op)),
    unlink_denied (fst (after_sleeps k fs others)) = unlink_denied fs.
Proof.
  induction k as [|k IH]; intros fs others; [reflexivity|].
  cbn [after_sleeps]. destruct (sleep fs others) as [fs' others'] eqn:Hsleep.
  rewrite IH. change fs' with (fst (fs', others')). rewrite <- Hsleep.
  apply sleep_unlink_denied.
Qed.

Lemma unlink_unlink_denied (p : string) (fs : filesystem) :
  unlink_denied (snd (Path.unlink p fs)) = unlink_denied fs.
Proof.
  unfold Path.unlink. destruct (files fs !! p); [|reflexivity].
  now destruct (decide (p ∈ unlink_denied fs)).
Qed.

Lemma clear_old_response_unlink_denied (p : string) (fs : filesystem) :
  unlink_denied (clear_old_response p fs) = unlink_denied fs.
Proof.
  unfold clear_old_response. destruct (Path.exists_ p fs); [|reflexivity].
  apply unlink_unlink_denied.
Qed.

Lemma fs_at_poll_start_unlink_denied (c : MIDIConnection) (action : string)
      (params : option Dict.t) (fs : filesystem) :
  unlink_denied (fs_at_poll_start c action params fs) = unlink_denied fs.
Proof.
  unfold fs_at_poll_start.
  now rewrite clear_old_response_unlink_denied, apply_op_unlink_denied.
Qed.

(** Unlinking a file that is there: gone if allowed, untouched if not. *)
Lemma unlink_present (p : string) (fs : filesystem) (d : file_data) :
  files fs !! p = Some d ->
  (p ∉ unlink_denied fs -> files (snd (Path.unlink p fs)) !! p = None) /\
  (p ∈ unlink_denied fs -> snd (Path.unlink p fs) = fs).
Proof.
  intros Hfile. unfold Path.unlink. rewrite Hfile.
  destruct (decide (p ∈ unlink_denied fs)) as [Hin|Hout]; cbn; split; intros H;
    try contradiction; try reflexivity.
  apply lookup_delete_eq.
Qed.

Section Exchange.

Variable float_str : Q -> string.

Lemma wait_for_response_polls (c : MIDIConnection) (timeout : Q) (w : world)
      (start_time : Q) (ticks : list Q) :
  clock w = start_time :: ticks ->
  _wait_for_response float_str c timeout w =
    match poll float_str (_response_file c) timeout start_time ticks (fs w) (others w) with
    | None => None
    | Some (response, (fs', ticks', others')) =>
        Some (response, World fs' ticks' others' (mido w))
    end.
Proof. intros Hclock. unfold _wait_for_response. now rewrite Hclock. Qed.

(** The common part of what follows: [n] idle turns, then the [n]-th turn
    decides. *)
Lemma wait_for_response_turn (c : MIDIConnection) (timeout : Q) (w : world)
      (start_time : Q) (ticks : list Q) (n : nat) (now : Q) :
  clock w = start_time :: ticks ->
  idle_until n (_response_file c) timeout start_time ticks (fs w) (others w) ->
  ticks !! n = Some now ->
  _wait_for_response float_str c timeout w =
    match poll float_str (_response_file c) timeout start_time
               (now :: drop (S n) ticks)
               (fst (after_sleeps n (fs w) (others w)))
               (snd (after_sleeps n (fs w) (others w))) with
    | None => None
    | Some (response, (fs', ticks', others')) =>
        Some (response, World fs' ticks' others' (mido w))
    end.
Proof.
  intros Hclock Hidle Hnow.
  rewrite (wait_for_response_polls _ _ _ _ _ Hclock).
  rewrite (poll_idle _ _ _ _ n _ _ _ Hidle).
  now rewrite (drop_S _ _ _ Hnow).
Qed.

Lemma send_command_polls (c : MIDIConnection) (action : string)
      (params : option Dict.t) (timeout : Q) (w : world)
      (c1 : MIDIConnection) (p : port) :
  trigger_goes_out c w c1 p ->
  send_command float_str c action params timeout w =
    match _wait_for_response float_str (triggered c1 p) timeout
            (with_fs w (fs_at_poll_start c1 action params (fs w))) with
    | None => None
    | Some (response, w') => Some (Returned response, triggered c1 p, w')
    end.
Proof.
  intros (Hconn & Hwrite & Hmido & Hport & Hsend).
  unfold send_command. rewrite Hconn. unfold Path.write_json.
  destruct (decide (_command_file c1 ∈ write_denied (fs w))); [contradiction|].
  unfold send_trigger, import_mido. rewrite Hmido, Hport.
  unfold port_send. rewrite Hsend. reflexivity.
Qed.

(** C3: whatever the timeout, when no turn of the polling loop finds a
    response file before the clock shows the budget used up,
    [send_command] returns a failed Response whose error message is the
    timeout message, and that message contains the timeout as rendered by
    [str]. *)
Theorem timeout_names_the_budget (c : MIDIConnection) (action : string)
        (params : option Dict.t) (timeout : Q) (w : world)
        (c1 : MIDIConnection) (p : port)
        (start_time : Q) (ticks : list Q) (n : nat) (now : Q) :
  trigger_goes_out c w c1 p ->
  clock w = start_time :: ticks ->
  idle_until n (_response_file c1) timeout start_time ticks
             (fs_at_poll_start c1 action params (fs w)) (others w) ->
  ticks !! n = Some now ->
  ~ (now - start_time < timeout)%Q ->
  exists (msg : string) (c' : MIDIConnection) (w' : world),
    send_command float_str c action params timeout w =
      Some (Returned (failure msg), c', w') /\
    msg = timeout_message float_str timeout /\
    occurs_in (float_str timeout) msg.
Proof.
  intros Hgo Hclock Hidle Hnow Hout.
  rewrite (send_command_polls _ _ _ _ _ _ _ Hgo).
  rewrite (wait_for_response_turn (triggered c1 p) timeout _ start_time ticks n now);
    [|exact Hclock|exact Hidle|exact Hnow].
  rewrite poll_times_out by exact Hout.
  eexists _, _, _. split; [reflexivity|]. split; [reflexivity|].
  unfold timeout_message, occurs_in. eexists _, _. reflexivity.
Qed.

(** C4: the first turn of the polling loop that finds a response file,
    when the file does not hold valid JSON, makes [_wait_for_response]
    return a failed Response whose message says so (and likewise when the
    file cannot be read at all).  Nothing more is polled: no further clock
    reading is taken, no further sleep is made and the file system is left
    as found. *)
Theorem malformed_response_is_not_retried (c : MIDIConnection) (timeout : Q)
        (w : world) (start_time : Q) (ticks : list Q) (n : nat) (now : Q) :
  clock w = start_time :: ticks ->
  idle_until n (_response_file c) timeout start_time ticks (fs w) (others w) ->
  ticks !! n = Some now ->
  (now - start_time < timeout)%Q ->
  let found := after_sleeps n (fs w) (others w) in
  let stopped := World (fst found) (drop (S n) ticks) (snd found) (mido w) in
  (forall why : string,
      files (fst found) !! _response_file c = Some (Malformed why) ->
      _wait_for_response float_str c timeout w =
        Some (failure ("Invalid JSON in response: " +:+ why), stopped)) /\
  (forall e : exn,
      files (fst found) !! _response_file c = Some (Unreadable e) ->
      _wait_for_response float_str c timeout w =
        Some (failure ((if is_JSONDecodeError e
                        then "Invalid JSON in response: "
                        else "Failed to read response: ") +:+ exn_msg e),
              stopped)).
Proof.
  intros Hclock Hidle Hnow Hin found stopped.
  rewrite (wait_for_response_turn c timeout w start_time ticks n now Hclock Hidle Hnow).
  fold found. split.
  - intros why Hbad. now rewrite (poll_malformed _ _ _ _ _ _ _ _ why Hin Hbad).
  - intros e Hbad. cbn [poll]. apply Qltb_lt in Hin. rewrite Hin.
    unfold Path.exists_, Path.read_json. rewrite Hbad.
    now destruct (is_JSONDecodeError e).
Qed.

(** C5, as the code has it: a well-formed JSON value that the polling
    loop finds in the response file within the budget is what
    [send_command] returns, unchanged.  The file is then unlinked: it is
    gone afterwards unless the unlink is refused, and a refused unlink is
    ignored and leaves the file where it was. *)
Theorem response_is_returned_unchanged (c : MIDIConnection) (action : string)
        (params : option Dict.t) (timeout : Q) (w : world)
        (c1 : MIDIConnection) (p : port)
        (start_time : Q) (ticks : list Q) (n : nat) (now : Q) (v : json) :
  trigger_goes_out c w c1 p ->
  clock w = start_time :: ticks ->
  idle_until n (_response_file c1) timeout start_time ticks
             (fs_at_poll_start c1 action params (fs w)) (others w) ->
  ticks !! n = Some now ->
  (now - start_time < timeout)%Q ->
  files (fst (after_sleeps n (fs_at_poll_start c1 action params (fs w)) (others w)))
    !! _response_file c1 = Some (WellFormed v) ->
  exists (c' : MIDIConnection) (w' : world),
    send_command float_str c action params timeout w = Some (Returned v, c', w') /\
    (_response_file c1 ∉ unlink_denied (fs w) ->
     files (fs w') !! _response_file c1 = None) /\
    (_response_file c1 ∈ unlink_denied (fs w) ->
     files (fs w') !! _response_file c1 = Some (WellFormed v)).
Proof.
  intros Hgo Hclock Hidle Hnow Hin Hok.
  rewrite (send_command_polls _ _ _ _ _ _ _ Hgo).
  rewrite (wait_for_response_turn (triggered c1 p) timeout _ start_time ticks n now);
    [|exact Hclock|exact Hidle|exact Hnow].
  cbn [with_fs fs others triggered _response_file] in *.
  rewrite (poll_reads _ _ _ _ _ _ _ _ v Hin Hok).
  eexists _, _. split; [reflexivity|]. cbn [fs].
  destruct (unlink_present _ _ _ Hok) as [Hgone Hkept].
  rewrite after_sleeps_unlink_denied, fs_at_poll_start_unlink_denied in Hgone, Hkept.
  split; [exact Hgone|]. intros Hdenied. now rewrite (Hkept Hdenied).
Qed.

(** C9, as the code has it: when the turn that finds the response file
    cannot parse it, [_wait_for_response] returns the failed Response and
    the malformed file is still on disk after the call; when it parses
    the file, it unlinks the file before returning, so that the file is
    gone unless the unlink is refused, in which case it too stays. *)
Theorem response_file_after_wait (c : MIDIConnection) (timeout : Q) (w : world)
        (start_time : Q) (ticks : list Q) (n : nat) (now : Q) :
  clock w = start_time :: ticks ->
  idle_until n (_response_file c) timeout start_time ticks (fs w) (others w) ->
  ticks !! n = Some now ->
  (now - start_time < timeout)%Q ->
  let found := fst (after_sleeps n (fs w) (others w)) in
  (forall why : string,
      files found !! _response_file c = Some (Malformed why) ->
      exists (msg : string) (w' : world),
        _wait_for_response float_str c timeout w = Some (failure msg, w') /\
        fs w' = found /\
        files (fs w') !! _response_file c = Some (Malformed why)) /\
  (forall v : json,
      files found !! _response_file c = Some (WellFormed v) ->
      exists w' : world,
        _wait_for_response float_str c timeout w = Some (v, w') /\
        fs w' = snd (Path.unlink (_response_file c) found) /\
        (_response_file c ∉ unlink_denied found ->
         files (fs w') !! _response_file c = None) /\
        (_response_file c ∈ unlink_denied found -> fs w' = found)).
Proof.
  intros Hclock Hidle Hnow Hin found. split.
  - intros why Hbad.
    rewrite (wait_for_response_turn c timeout w start_time ticks n now Hclock Hidle Hnow).
    fold found. rewrite (poll_malformed _ _ _ _ _ _ _ _ why Hin Hbad).
    eexists _, _. split; [reflexivity|]. now split.
  - intros v Hok.
    rewrite (wait_for_response_turn c timeout w start_time ticks n now Hclock Hidle Hnow).
    fold found. rewrite (poll_reads _ _ _ _ _ _ _ _ v Hin Hok).
    eexists. split; [reflexivity|]. split; [reflexivity|].
    exact (unlink_present _ _ _ Hok).
Qed.

(** Whatever the loop returns is a failure it reports itself or the
    content of the response file at some turn. *)
Lemma poll_result (response_file : string) (timeout start_time : Q) (ticks : list Q) :
  forall (fs : filesystem) (others : list (list fs_op)) (response : json) rest,
    poll float_str response_file timeout start_time ticks fs others
      = Some (response, rest) ->
    (exists msg, response = failure msg /\ reported_failure float_str timeout msg) \/
    (exists k, files (fst (after_sleeps k fs others)) !! response_file
               = Some (WellFormed response)).
Proof.
  induction ticks as [|now ticks IH]; intros fs others response rest; [discriminate|].
  cbn [poll]. destruct (Qltb (now - start_time) timeout).
  - unfold Path.exists_, Path.read_json.
    destruct (files fs !! response_file) as [[v|why|e]|] eqn:Hfile.
    + intros [= <- _]. right. now exists 0%nat.
    + cbn. intros [= <- _]. left. eexists. split; [reflexivity|].
      unfold reported_failure. eauto 7.
    + destruct (is_JSONDecodeError e); intros [= <- _]; left;
        (eexists; split; [reflexivity|]); unfold reported_failure; eauto 7.
    + destruct (sleep fs others) as [fs' others'] eqn:Hsleep. intros Hpoll.
      destruct (IH _ _ _ _ Hpoll) as [Hfail|[k Hk]]; [now left|].
      right. exists (S k). cbn [after_sleeps]. now rewrite Hsleep.
  - intros [= <- _]. left. eexists. split; [reflexivity|].
    unfold reported_failure. eauto 7.
Qed.

Lemma connect_keeps_files (c : MIDIConnection) (m : mido_env) :
  _command_file (snd (connect c m)) = _command_file c /\
  _response_file (snd (connect c m)) = _response_file c.
Proof.
  unfold connect. destruct (is_connected c); [now split|].
  destruct (import_mido m); [|now split].
  destruct (get_output_names m) as [[|first_port names]|e]; [now split| |now split].
  now destruct (open_output m _).
Qed.

Lemma send_trigger_keeps_files (c c2 : MIDIConnection) (m : mido_env) r :
  send_trigger c m = (r, c2) ->
  _command_file c2 = _command_file c /\ _response_file c2 = _response_file c.
Proof.
  unfold send_trigger. destruct (import_mido m); [|now intros [= _ <-]].
  destruct (_port c) as [p|]; [|now intros [= _ <-]].
  destruct (port_send p trigger_msg). now intros [= _ <-].
Qed.

(** Only a failed connection makes [send_command] raise. *)
Lemma send_command_raises_only_unconnected
      (c : MIDIConnection) (action : string) (params : option Dict.t)
      (timeout : Q) (w : world) (e : exn) (c' : MIDIConnection) (w' : world) :
  send_command float_str c action params timeout w = Some (Raised e, c', w') ->
  ensure_connected c (mido w) = (Raised e, c').
Proof.
  unfold send_command.
  destruct (ensure_connected c (mido w)) as [[[]|e1] c1]; [|now intros [= <- <- _]].
  destruct (Path.write_json _ _ _) as [[[]|e2] fs1]; [|discriminate].
  destruct (send_trigger c1 (mido w)) as [[[]|e3] c2]; [|discriminate].
  destruct (_wait_for_response _ _ _ _) as [[response w2]|]; discriminate.
Qed.

(** What [send_command] returns is a failure it reports itself or what
    the response file held at some turn of the loop. *)
Lemma send_command_returns_response
      (c : MIDIConnection) (action : string) (params : option Dict.t)
      (timeout : Q) (w : world) (response : json) (c' : MIDIConnection) (w' : world) :
  send_command float_str c action params timeout w = Some (Returned response, c', w') ->
  (exists msg, response = failure msg /\ reported_failure float_str timeout msg) \/
  (exists k,
      files (fst (after_sleeps k (fs_at_poll_start c' action params (fs w)) (others w)))
        !! _response_file c' = Some (WellFormed response)).
Proof.
  unfold send_command.
  destruct (ensure_connected c (mido w)) as [[[]|e1] c1]; [|discriminate].
  unfold Path.write_json at 1.
  destruct (decide (_command_file c1 ∈ write_denied (fs w))).
  { intros [= <- _ _]. left. eexists. split; [reflexivity|].
    unfold reported_failure. eauto 7. }
  destruct (send_trigger c1 (mido w)) as [[[]|e3] c2] eqn:Htrigger.
  2:{ intros [= <- _ _]. left. eexists. split; [reflexivity|].
      unfold reported_failure. eauto 7. }
  apply send_trigger_keeps_files in Htrigger as [Hcmd Hresp].
  unfold _wait_for_response. cbn [with_fs clock fs others mido].
  destruct (clock w) as [|start_time ticks]; [discriminate|].
  destruct (poll _ _ _ _ _ _ _) as [[r [[fs' ticks'] others']]|] eqn:Hpoll; [|discriminate].
  intros [= <- <- _].
  apply poll_result in Hpoll. unfold fs_at_poll_start, command_of.
  rewrite Hcmd, Hresp. rewrite Hresp in Hpoll. exact Hpoll.
Qed.

(** [send_command] returns once the clock shows the budget used up. *)
Lemma send_command_terminates
      (c : MIDIConnection) (action : string) (params : option Dict.t)
      (timeout : Q) (w : world) :
  (exists now : Q, In now (tl (clock w)) /\ ~ (now - hd 0%Q (clock w) < timeout)%Q) ->
  exists result, send_command float_str c action params timeout w = Some result.
Proof.
  intros Hclock. unfold send_command.
  destruct (ensure_connected c (mido w)) as [[[]|e1] c1]; [|eauto].
  destruct (Path.write_json _ _ _) as [[[]|e2] fs1]; [|eauto].
  destruct (send_trigger c1 (mido w)) as [[[]|e3] c2]; [|eauto].
  unfold _wait_for_response. cbn [with_fs clock fs others mido].
  destruct (clock w) as [|start_time ticks]; [now destruct Hclock as (? & [] & _)|].
  cbn [tl hd] in Hclock.
  destruct (poll_terminates float_str (_response_file c2) timeout start_time ticks
              (clear_old_response (_response_file c1) fs1) (others w) Hclock)
    as [[r [[fs' ticks'] others']] ->].
  eauto.
Qed.

(** C2, as the code has it: [send_command] raises in one case only, when
    no connection can be made; it then raises the [RuntimeError] of
    [ensure_connected], which carries the connection error.  Every other
    failure comes back as a Response with [success] false and a message
    that says what failed: the command file could not be written, the
    trigger could not be sent, the wait timed out, the response file was
    malformed or could not be read.  Anything else [send_command] returns
    is what the DAW side put in the response file, a failure it reports
    included, and a call returns as soon as the clock passes the budget. *)
Theorem send_command_failures
        (c : MIDIConnection) (action : string) (params : option Dict.t)
        (timeout : Q) (w : world) :
  (forall e c1,
      ensure_connected c (mido w) = (Raised e, c1) ->
      send_command float_str c action params timeout w = Some (Raised e, c1, w) /\
      e = Exn RuntimeError
              (Str.or_else (_error c1) "Failed to connect to FL Studio via MIDI")) /\
  (forall e c' w',
      send_command float_str c action params timeout w = Some (Raised e, c', w') ->
      ensure_connected c (mido w) = (Raised e, c')) /\
  (forall response c' w',
      send_command float_str c action params timeout w
        = Some (Returned response, c', w') ->
      (exists msg, response = failure msg /\ reported_failure float_str timeout msg) \/
      (exists k,
          files (fst (after_sleeps k (fs_at_poll_start c' action params (fs w))
                                   (others w)))
            !! _response_file c' = Some (WellFormed response))) /\
  (forall c1,
      ensure_connected c (mido w) = (Returned tt, c1) ->
      _command_file c1 ∈ write_denied (fs w) ->
      exists detail,
        send_command float_str c action params timeout w
          = Some (Returned (failure ("Failed to write command file: " +:+ detail)), c1, w)) /\
  (forall c1 e c2,
      ensure_connected c (mido w) = (Returned tt, c1) ->
      _command_file c1 ∉ write_denied (fs w) ->
      send_trigger c1 (mido w) = (Raised e, c2) ->
      exists w',
        send_command float_str c action params timeout w
          = Some (Returned (failure ("Failed to send MIDI trigger: " +:+ exn_msg e)),
                  c2, w')) /\
  ((exists now : Q, In now (tl (clock w)) /\ ~ (now - hd 0%Q (clock w) < timeout)%Q) ->
   exists result, send_command float_str c action params timeout w = Some result).
Proof.
  split; [|split; [|split; [|split; [|split]]]].
  - intros e c1 Hconn. split.
    + unfold send_command. now rewrite Hconn.
    + unfold ensure_connected in Hconn.
      destruct (negb (is_connected c)); [|discriminate].
      destruct (connect c (mido w)) as [ok c0].
      destruct (negb ok); [|discriminate]. now injection Hconn as <- <-.
  - apply send_command_raises_only_unconnected.
  - apply send_command_returns_response.
  - intros c1 Hconn Hdenied. unfold send_command. rewrite Hconn.
    unfold Path.write_json.
    destruct (decide (_command_file c1 ∈ write_denied (fs w))); [|contradiction].
    eexists. reflexivity.
  - intros c1 e c2 Hconn Hwrite Htrigger. unfold send_command. rewrite Hconn.
    unfold Path.write_json.
    destruct (decide (_command_file c1 ∈ write_denied (fs w))); [contradiction|].
    rewrite Htrigger. eexists. reflexivity.
  - apply send_command_terminates.
Qed.

(** What a call adds to the port's log: nothing, or the trigger. *)
Lemma send_command_sends
      (c : MIDIConnection) (action : string) (params : option Dict.t)
      (timeout : Q) (w : world) r (c' : MIDIConnection) (w' : world) (p' : port) :
  send_command float_str c action params timeout w = Some (r, c', w') ->
  _port c' = Some p' ->
  exists (p : port) (news : list message),
    _port (snd (ensure_connected c (mido w))) = Some p /\
    port_sent p' = (port_sent p ++ news)%list /\
    (news = [] \/ news = [trigger_msg]).
Proof.
  unfold send_command.
  destruct (ensure_connected c (mido w)) as [[[]|e1] c1]; cbn [snd].
  2:{ intros [= _ <- _] Hport. exists p', []. rewrite app_nil_r. auto. }
  destruct (Path.write_json _ _ _) as [[[]|e2] fs1].
  2:{ intros [= _ <- _] Hport. exists p', []. rewrite app_nil_r. auto. }
  assert (Hsent : forall r2 c2, send_trigger c1 (mido w) = (r2, c2) ->
            _port c2 = Some p' ->
            exists p news, _port c1 = Some p /\
              port_sent p' = (port_sent p ++ news)%list /\
              (news = [] \/ news = [trigger_msg])).
  { unfold send_trigger. intros r2 c2.
    destruct (import_mido (mido w)).
    2:{ intros [= _ <-] Hport. exists p', []. rewrite app_nil_r. auto. }
    destruct (_port c1) as [p|] eqn:Hp1; [|intros [= _ <-] Hport; congruence].
    unfold port_send. destruct (port_broken p).
    - intros [= _ <-]. cbn. intros [= <-]. exists p, []. rewrite app_nil_r. auto.
    - intros [= _ <-]. cbn. intros [= <-]. exists p, [trigger_msg]. auto. }
  destruct (send_trigger c1 (mido w)) as [[[]|e3] c2].
  - destruct (_wait_for_response _ _ _ _) as [[response w2]|]; [|discriminate].
    intros [= _ <- _]. now apply Hsent with (Returned tt).
  - intros [= _ <- _]. now apply Hsent with (Raised e3).
Qed.

End Exchange.

(** ** The controller script *)

Section Dispatch.

Variable Daw : Type.
Variable run_handler : Controller.handler -> json -> Daw -> outcome Dict.t * Daw.
Variable py_repr : json -> string.

Local Abbreviation state := (Controller.state Daw).
Local Abbreviation OnMidiMsg := (Controller.OnMidiMsg Daw run_handler py_repr).
Local Abbreviation execute_pending_command :=
  (Controller.execute_pending_command Daw run_handler py_repr).
Local Abbreviation dispatch_command :=
  (Controller.dispatch_command Daw run_handler py_repr).

Lemma find_handler_unknown (name : string) :
  ~ In name Controller.known_actions -> Controller.find_handler name = None.
Proof.
  unfold Controller.known_actions, Controller.find_handler.
  generalize Controller.dispatch_table as table.
  induction table as [|[key handler] table IH]; intros Hnot; [reflexivity|].
  cbn [find fst]. destruct (String.eqb name key) eqn:Hkey.
  - apply String.eqb_eq in Hkey. exfalso. apply Hnot. now left.
  - apply IH. intros Hin. apply Hnot. now right.
Qed.

(** The [else] branch of [dispatch_command]. *)
Lemma dispatch_unknown (name : string) (params : json) (d : Daw) :
  ~ In name Controller.known_actions ->
  dispatch_command (JStr name) params d =
    (Returned [("error", JStr ("Unknown action: " +:+ name))], d).
Proof.
  intros Hnot. unfold Controller.dispatch_command.
  now rewrite (find_handler_unknown _ Hnot).
Qed.

Lemma is_trigger_spec (event : Controller.midi_event) :
  Controller.is_trigger event = true <->
  Controller.midiId event = 144%Z /\ Controller.data1 event = 127%Z /\
  (0 < Controller.data2 event)%Z.
Proof.
  unfold Controller.is_trigger, Controller.TRIGGER_NOTE.
  rewrite !andb_true_iff, !Z.eqb_eq, Z.ltb_lt. tauto.
Qed.

Lemma execute_counts (h : Controller.daw_host) (s : state) :
  Controller.executions Daw (execute_pending_command h s)
  = S (Controller.executions Daw s).
Proof.
  unfold Controller.execute_pending_command.
  destruct (negb _); [reflexivity|].
  destruct (Path.read_json _ _) as [[| | | | |command]|e]; try reflexivity.
  now destruct (Controller.dispatch_command _ _ _ _ _ _) as [[result|e] d'].
Qed.

(** C1, what the code does: triggered with a command whose action is a
    string outside the dispatch table, the controller writes a response
    that carries the error "Unknown action: <name>", but with [success]
    true, not false. *)
Theorem unknown_action_is_reported_as_success
        (h : Controller.daw_host) (s : state) (event : Controller.midi_event)
        (command : Dict.t) (name : string) :
  Controller.is_trigger event = true ->
  files (Controller.daw_fs Daw s) !! Controller.COMMAND_FILE h
    = Some (WellFormed (JObj command)) ->
  Dict.get "action" command = Some (JStr name) ->
  ~ In name Controller.known_actions ->
  Controller.RESPONSE_FILE h ∉ write_denied (Controller.daw_fs Daw s) ->
  files (Controller.daw_fs Daw (snd (OnMidiMsg h event s))) !! Controller.RESPONSE_FILE h
    = Some (WellFormed (JObj [("success", JBool true);
                              ("error", JStr ("Unknown action: " +:+ name))])).
Proof.
  intros Htrigger Hfile Haction Hnot Hwrite.
  unfold Controller.OnMidiMsg. rewrite Htrigger. cbn [snd].
  unfold Controller.execute_pending_command, Path.exists_, Path.read_json.
  rewrite Hfile. cbn [negb].
  unfold Dict.get_default at 1. rewrite Haction.
  rewrite (dispatch_unknown _ _ _ Hnot).
  cbn [Controller.daw_fs]. unfold Controller.write_response, Path.write_json.
  destruct (decide (Controller.RESPONSE_FILE h ∈ write_denied (Controller.daw_fs Daw s)));
    [contradiction|].
  cbn. apply lookup_insert_eq.
Qed.

(** X27: The sibling path: a handler that raises is reported with [success]
    false. *)
Lemma handler_error_is_reported_as_failure
      (h : Controller.daw_host) (s : state) (command : Dict.t) (e : exn) (d' : Daw) :
  files (Controller.daw_fs Daw s) !! Controller.COMMAND_FILE h
    = Some (WellFormed (JObj command)) ->
  dispatch_command (Dict.get_default "action" (JStr "") command)
                   (Dict.get_default "params" (JObj []) command)
                   (Controller.api Daw s) = (Raised e, d') ->
  Controller.RESPONSE_FILE h ∉ write_denied (Controller.daw_fs Daw s) ->
  files (Controller.daw_fs Daw (execute_pending_command h s)) !! Controller.RESPONSE_FILE h
    = Some (WellFormed (failure ("Error executing command: " +:+ exn_msg e))).
Proof.
  intros Hfile Hraise Hwrite.
  unfold Controller.execute_pending_command, Path.exists_, Path.read_json.
  rewrite Hfile. cbn [negb]. rewrite Hraise.
  cbn [Controller.daw_fs]. unfold Controller.write_response, Path.write_json.
  destruct (decide (Controller.RESPONSE_FILE h ∈ write_denied (Controller.daw_fs Daw s)));
    [contradiction|].
  cbn. apply lookup_insert_eq.
Qed.

(** The tool wrappers show an error only when [success] is false, so the
    response written for an unknown action is not shown as one. *)
Lemma unknown_action_error_is_not_shown (name : string) :
  Tools.shows_error [("success", JBool true);
                     ("error", JStr ("Unknown action: " +:+ name))] = false.
Proof. reflexivity. Qed.

(** The controller runs the pending command on the trigger and on
    nothing else. *)
Lemma OnMidiMsg_executes (h : Controller.daw_host) (event : Controller.midi_event)
      (s : state) :
  (Controller.midiId event = 144%Z /\ Controller.data1 event = 127%Z /\
   (0 < Controller.data2 event)%Z ->
   snd (OnMidiMsg h event s) = execute_pending_command h s /\
   Controller.executions Daw (snd (OnMidiMsg h event s))
     = S (Controller.executions Daw s)) /\
  (~ (Controller.midiId event = 144%Z /\ Controller.data1 event = 127%Z /\
      (0 < Controller.data2 event)%Z) ->
   OnMidiMsg h event s = (event, s)).
Proof.
  unfold Controller.OnMidiMsg. split.
  - intros Hyes. apply is_trigger_spec in Hyes. rewrite Hyes. cbn [snd].
    split; [reflexivity|apply execute_counts].
  - intros Hno. destruct (Controller.is_trigger event) eqn:Htest; [|reflexivity].
    apply is_trigger_spec in Htest. contradiction.
Qed.

End Dispatch.

(** C7: the trigger [send_command] sends is a note-on for note 127 at full
    velocity, and nothing else is sent: a call adds to what the port has
    sent either nothing or this one message.  On its side the controller
    runs [execute_pending_command] exactly when the message it is handed is
    a note-on ([midiId] 0x90) for note 127 with a velocity above zero, as
    the trigger is; any other message leaves the state and the event as
    they were. *)
Theorem trigger_is_note_127 :
  (forall (float_str : Q -> string) (c : MIDIConnection) (action : string)
          (params : option Dict.t) (timeout : Q) (w : world)
          r (c' : MIDIConnection) (w' : world) (p' : port),
      send_command float_str c action params timeout w = Some (r, c', w') ->
      _port c' = Some p' ->
      exists (p : port) (news : list message),
        _port (snd (ensure_connected c (mido w))) = Some p /\
        port_sent p' = (port_sent p ++ news)%list /\
        Forall is_trigger_note news) /\
  (forall (c : MIDIConnection) (m : mido_env) (c' : MIDIConnection) (p : port),
      send_trigger c m = (Returned tt, c') ->
      _port c = Some p ->
      exists p' : port,
        _port c' = Some p' /\
        port_sent p' = (port_sent p ++ [Message "note_on" 0 127 127])%list) /\
  (forall (Daw : Type) run_handler py_repr (h : Controller.daw_host)
          (event : Controller.midi_event) (s : Controller.state Daw),
      let after := Controller.OnMidiMsg Daw run_handler py_repr h event s in
      let note_on_127 :=
        Controller.midiId event = 144%Z /\ Controller.data1 event = 127%Z /\
        (0 < Controller.data2 event)%Z in
      (note_on_127 ->
       snd after = Controller.execute_pending_command Daw run_handler py_repr h s /\
       Controller.executions Daw (snd after) = S (Controller.executions Daw s)) /\
      (~ note_on_127 -> after = (event, s))) /\
  Controller.is_trigger
    (Controller.Event 144 (msg_note trigger_msg) (msg_velocity trigger_msg) false) = true.
Proof.
  split; [|split; [|split]].
  - intros float_str c action params timeout w r c' w' p' Hcall Hport.
    destruct (send_command_sends _ _ _ _ _ _ _ _ _ _ Hcall Hport)
      as (p & news & Hp & Hsent & Hnews).
    exists p, news. repeat split; try assumption.
    destruct Hnews as [->| ->]; [constructor|].
    constructor; [|constructor]. now repeat split.
  - intros c m c' p. unfold send_trigger.
    destruct (import_mido m); [|discriminate].
    intros Hsend Hport. rewrite Hport in Hsend. unfold port_send in Hsend.
    destruct (port_broken p); [discriminate|].
    injection Hsend as <-. eexists. split; reflexivity.
  - intros Daw run_handler py_repr h event s. apply OnMidiMsg_executes.
  - reflexivity.
Qed.

(** ** The statements at sample inputs *)

Lemma unknown_action_is_reported_as_success_witness :
  files (Controller.daw_fs unit
           (snd (Controller.OnMidiMsg unit Sample.quiet_handler Sample.repr_unused
                   Sample.studio Sample.trigger_event Sample.rewind_pending)))
    !! Controller.RESPONSE_FILE Sample.studio
  = Some (WellFormed (JObj [("success", JBool true);
                            ("error", JStr "Unknown action: transport.rewind")])).
Proof.
  apply (unknown_action_is_reported_as_success unit Sample.quiet_handler Sample.repr_unused
           Sample.studio Sample.rewind_pending Sample.trigger_event
           Sample.rewind "transport.rewind").
  - reflexivity.
  - reflexivity.
  - reflexivity.
  - intros Hin. cbv [Controller.known_actions Controller.dispatch_table map fst] in Hin.
    repeat (destruct Hin as [Hin|Hin]; [discriminate Hin|]). exact Hin.
  - apply not_elem_of_empty.
Defined.

(** On a machine with no MIDI output port the call raises; no Response is
    returned. *)
Lemma send_command_raises_without_ports :
  option_map (fun result => fst (fst result))
             (send_command Sample.float_str Sample.fresh "transport.start" None 2
                           Sample.no_midi)
  = Some (Raised (Exn RuntimeError
       "No MIDI output ports found. On Mac, enable IAC Driver in Audio MIDI Setup.")).
Proof. vm_compute. reflexivity. Qed.

Lemma send_command_failures_witness :
  send_command Sample.float_str Sample.fresh "transport.start" None 2 Sample.no_midi
  = Some (Raised (Exn RuntimeError
            "No MIDI output ports found. On Mac, enable IAC Driver in Audio MIDI Setup."),
          set_error Sample.fresh
            "No MIDI output ports found. On Mac, enable IAC Driver in Audio MIDI Setup.",
          Sample.no_midi).
Proof.
  destruct (send_command_failures Sample.float_str Sample.fresh "transport.start" None 2
              Sample.no_midi) as [Hraise _].
  apply (Hraise _ _). reflexivity.
Defined.

Lemma timeout_names_the_budget_witness :
  exists (msg : string) (c' : MIDIConnection) (w' : world),
    send_command Sample.float_str Sample.connected "transport.start" None 2 Sample.silent
      = Some (Returned (failure msg), c', w') /\
    msg = timeout_message Sample.float_str 2 /\
    occurs_in "2.0" msg.
Proof.
  apply (timeout_names_the_budget Sample.float_str Sample.connected "transport.start" None 2
           Sample.silent Sample.connected Sample.iac
           0 [1 # 100; 3 # 100; 21 # 10]%Q 2 (21 # 10)%Q).
  - goes_out.
  - reflexivity.
  - idle_turns.
  - reflexivity.
  - intros Hlt. discriminate Hlt.
Defined.

Lemma malformed_response_is_not_retried_witness :
  _wait_for_response Sample.float_str Sample.connected 2
    (Sample.waiting (Malformed "Expecting value: line 1 column 1 (char 0)") ∅)
  = Some (failure "Invalid JSON in response: Expecting value: line 1 column 1 (char 0)",
          World (fs (Sample.waiting (Malformed "Expecting value: line 1 column 1 (char 0)") ∅))
                [21 # 10]%Q [] Sample.mido_iac).
Proof.
  destruct (malformed_response_is_not_retried Sample.float_str Sample.connected 2
              (Sample.waiting (Malformed "Expecting value: line 1 column 1 (char 0)") ∅)
              0 [1 # 100; 21 # 10]%Q 0 (1 # 100)%Q)
    as [Hmalformed _].
  - reflexivity.
  - idle_turns.
  - reflexivity.
  - reflexivity.
  - apply (Hmalformed "Expecting value: line 1 column 1 (char 0)"). reflexivity.
Defined.

(** The answer is returned, and the file it was read from is still there:
    its unlink was refused and the refusal ignored. *)
Lemma response_file_survives_refused_unlink :
  option_map (fun result =>
                (fst (fst result),
                 files (fs (snd result)) !! _response_file Sample.connected))
             (send_command Sample.float_str Sample.connected "x" (Some [("a", JInt 1)]) 2
                           (Sample.answering Sample.held (WellFormed Sample.answer)))
  = Some (Returned Sample.answer, Some (WellFormed Sample.answer)).
Proof. vm_compute. reflexivity. Qed.

Lemma response_is_returned_unchanged_witness :
  exists (c' : MIDIConnection) (w' : world),
    send_command Sample.float_str Sample.connected "x" (Some [("a", JInt 1)]) 2
                 (Sample.answering Sample.no_files (WellFormed Sample.answer))
      = Some (Returned Sample.answer, c', w') /\
    (_response_file Sample.connected ∉ unlink_denied Sample.no_files ->
     files (fs w') !! _response_file Sample.connected = None) /\
    (_response_file Sample.connected ∈ unlink_denied Sample.no_files ->
     files (fs w') !! _response_file Sample.connected = Some (WellFormed Sample.answer)).
Proof.
  apply (response_is_returned_unchanged Sample.float_str Sample.connected "x"
           (Some [("a", JInt 1)]) 2
           (Sample.answering Sample.no_files (WellFormed Sample.answer))
           Sample.connected Sample.iac
           0 [1 # 100; 3 # 100; 5 # 100; 21 # 10]%Q 2 (5 # 100)%Q).
  - goes_out.
  - reflexivity.
  - idle_turns.
  - reflexivity.
  - reflexivity.
  - reflexivity.
Defined.

(** A response file that parses but cannot be unlinked outlives the call. *)
Lemma response_file_kept_after_parse :
  option_map (fun result =>
                (fst result, files (fs (snd result)) !! _response_file Sample.connected))
             (_wait_for_response Sample.float_str Sample.connected 2
                (Sample.waiting (WellFormed Sample.answer)
                                {[ _response_file Sample.connected ]}))
  = Some (Sample.answer, Some (WellFormed Sample.answer)).
Proof. vm_compute. reflexivity. Qed.

Lemma response_file_after_wait_witness :
  exists w' : world,
    _wait_for_response Sample.float_str Sample.connected 2
      (Sample.waiting (WellFormed Sample.answer) ∅) = Some (Sample.answer, w') /\
    files (fs w') !! _response_file Sample.connected = None.
Proof.
  destruct (response_file_after_wait Sample.float_str Sample.connected 2
              (Sample.waiting (WellFormed Sample.answer) ∅)
              0 [1 # 100; 21 # 10]%Q 0 (1 # 100)%Q)
    as [_ Hparsed].
  - reflexivity.
  - idle_turns.
  - reflexivity.
  - reflexivity.
  - destruct (Hparsed Sample.answer) as (w' & Hcall & _ & Hgone & _); [reflexivity|].
    exists w'. split; [exact Hcall|]. apply Hgone. apply not_elem_of_empty.
Defined.




Lemma trigger_is_note_127_witness :
  snd (Controller.OnMidiMsg unit Sample.quiet_handler Sample.repr_unused
         Sample.studio Sample.trigger_event Sample.rewind_pending)
  = Controller.execute_pending_command unit Sample.quiet_handler Sample.repr_unused
      Sample.studio Sample.rewind_pending.
Proof.
  destruct trigger_is_note_127 as (_ & _ & Hcontroller & _).
  destruct (Hcontroller unit Sample.quiet_handler Sample.repr_unused
              Sample.studio Sample.trigger_event Sample.rewind_pending) as [Hruns _].
  apply Hruns. repeat split.
Defined.

(** * More of the code *)

(** ** Connecting *)

Lemma is_connected_port (c : MIDIConnection) :
  is_connected c = true -> exists p, _port c = Some p /\ _connected c = true.
Proof.
  unfold is_connected. destruct (_connected c); [|discriminate].
  destruct (_port c) as [p|]; [eauto|discriminate].
Qed.

Lemma set_error_not_connected (c : MIDIConnection) (msg : string) :
  is_connected (set_error c msg) = is_connected c.
Proof. reflexivity. Qed.

(** X1: [connect] picks the first port whose name mentions IAC, loopMIDI or
    FL, and the first port of all when there is none; a successful
    [connect] leaves the connection connected on that port with the error
    cleared. *)
Theorem connect_chooses_port (c : MIDIConnection) (m : mido_env) (c' : MIDIConnection) :
  is_connected c = false ->
  connect c m = (true, c') ->
  exists (names : list string) (name : string) (p : port),
    get_output_names m = Returned names /\
    In name names /\
    open_output m name = Returned p /\
    _port c' = Some p /\ _port_name c' = Some name /\
    is_connected c' = true /\ _error c' = None /\
    (find wanted_port names = Some name \/
     find wanted_port names = None /\ head names = Some name).
Proof.
  intros Hnot. unfold connect. rewrite Hnot.
  destruct (import_mido m); [|discriminate].
  destruct (get_output_names m) as [[|first_port names]|e]; [discriminate| |discriminate].
  unfold find_target_port.
  destruct (find wanted_port (first_port :: names)) as [name|] eqn:Hfind.
  - destruct (open_output m name) as [p|e] eqn:Hopen; [|discriminate].
    intros [= <-]. exists (first_port :: names), name, p.
    repeat split; try assumption; try reflexivity; [|now left].
    now apply find_some in Hfind.
  - destruct (open_output m first_port) as [p|e] eqn:Hopen; [|discriminate].
    intros [= <-]. exists (first_port :: names), first_port, p.
    repeat split; try assumption; try reflexivity; [now left|now right].
Qed.

(** A [connect] that fails records why and changes nothing else. *)
Lemma connect_failure (c : MIDIConnection) (m : mido_env) (c' : MIDIConnection) :
  connect c m = (false, c') ->
  exists msg : string, c' = set_error c msg /\ msg <> "" /\ is_connected c = false.
Proof.
  unfold connect. destruct (is_connected c) eqn:Hconn; [discriminate|].
  destruct (import_mido m).
  2:{ intros [= <-]. eexists. repeat split. discriminate. }
  destruct (get_output_names m) as [[|first_port names]|e].
  - intros [= <-]. eexists. repeat split. discriminate.
  - destruct (open_output m _) as [p|e]; [discriminate|].
    intros [= <-]. eexists. repeat split. discriminate.
  - intros [= <-]. eexists. repeat split. discriminate.
Qed.

Lemma ensure_connected_failure
        (c : MIDIConnection) (m : mido_env) (e : exn) (c' : MIDIConnection) :
  ensure_connected c m = (Raised e, c') ->
  exn_cls e = RuntimeError /\
  _error c' = Some (exn_msg e) /\ exn_msg e <> "" /\
  is_connected c' = false /\
  _port c' = _port c /\ _port_name c' = _port_name c /\ _connected c' = _connected c.
Proof.
  unfold ensure_connected. destruct (is_connected c) eqn:Hconn; [discriminate|].
  cbn [negb]. destruct (connect c m) as [ok c0] eqn:Hconnect.
  destruct ok; [discriminate|]. cbn [negb]. intros [= <- <-].
  destruct (connect_failure _ _ _ Hconnect) as (msg & -> & Hmsg & _).
  cbn [exn_cls exn_msg set_error _error _port _port_name _connected].
  assert (Hor : Str.or_else (Some msg) "Failed to connect to FL Studio via MIDI" = msg).
  { destruct msg; [contradiction|reflexivity]. }
  rewrite Hor. repeat split; try assumption.
Qed.

(** X2: When [ensure_connected] raises, its [RuntimeError] carries the error
    that [connect] has just recorded in the connection, which is never
    empty: the fallback text "Failed to connect to FL Studio via MIDI" is
    never what a caller sees.  The connection stays as it was otherwise,
    not connected. *)
Theorem ensure_connected_raises_the_recorded_error
        (c : MIDIConnection) (m : mido_env) (e : exn) (c' : MIDIConnection) :
  ensure_connected c m = (Raised e, c') ->
  exn_cls e = RuntimeError /\
  _error c' = Some (exn_msg e) /\ exn_msg e <> "" /\
  is_connected c' = false /\
  _port c' = _port c /\ _port_name c' = _port_name c /\ _connected c' = _connected c.
Proof. apply ensure_connected_failure. Qed.

Lemma send_trigger_keeps_connected (c c2 : MIDIConnection) (m : mido_env) r :
  is_connected c = true ->
  send_trigger c m = (r, c2) ->
  is_connected c2 = true /\ _port_name c2 = _port_name c /\ _error c2 = _error c.
Proof.
  intros Hconn. unfold send_trigger.
  destruct (import_mido m); [|now intros [= _ <-]].
  destruct (_port c) as [p|] eqn:Hport; [|now intros [= _ <-]].
  destruct (port_send p trigger_msg) as [r' p']. intros [= _ <-].
  apply is_connected_port in Hconn as (p0 & _ & Hflag).
  unfold is_connected. cbn. now rewrite Hflag.
Qed.

(** X3: Once connected, always connected: a call on a connected connection
    returns a Response, never raises, and leaves the connection connected
    on the same port, whether or not the trigger could be sent; later
    calls do not look at the MIDI ports again. *)
Theorem send_command_keeps_the_connection
        (float_str : Q -> string) (c : MIDIConnection) (action : string)
        (params : option Dict.t) (timeout : Q) (w : world)
        (r : outcome json) (c' : MIDIConnection) (w' : world) :
  is_connected c = true ->
  send_command float_str c action params timeout w = Some (r, c', w') ->
  (exists response, r = Returned response) /\
  is_connected c' = true /\
  _port_name c' = _port_name c /\ _error c' = _error c /\
  (forall m' : mido_env, ensure_connected c' m' = (Returned tt, c')).
Proof.
  intros Hconn. unfold send_command, ensure_connected at 1. rewrite Hconn. cbn [negb].
  assert (Hstays : forall c2, is_connected c2 = true ->
            forall m', ensure_connected c2 m' = (Returned tt, c2)).
  { intros c2 H2 m'. unfold ensure_connected. now rewrite H2. }
  destruct (Path.write_json _ _ _) as [[[]|e2] fs1].
  2:{ intros [= <- <- _]. repeat split; eauto. }
  destruct (send_trigger c (mido w)) as [[[]|e3] c2] eqn:Htrigger.
  - apply (send_trigger_keeps_connected _ _ _ _ Hconn) in Htrigger as (H2 & Hname & Herr).
    destruct (_wait_for_response _ _ _ _) as [[response w2]|]; [|discriminate].
    intros [= <- <- _]. repeat split; eauto.
  - apply (send_trigger_keeps_connected _ _ _ _ Hconn) in Htrigger as (H2 & Hname & Herr).
    intros [= <- <- _]. repeat split; eauto.
Qed.

(** X4: A port that has stopped working is never reopened by [send_command]:
    the call reports the failed trigger, reads no clock, and hands back
    the very same connection, still marked connected, so that every later
    call fails the same way until the connection is reset. *)
Theorem broken_port_is_not_reopened
        (float_str : Q -> string) (c : MIDIConnection) (action : string)
        (params : option Dict.t) (timeout : Q) (w : world) (p : port) (e : exn) :
  is_connected c = true ->
  _port c = Some p ->
  port_broken p = Some e ->
  mido_installed (mido w) = true ->
  _command_file c ∉ write_denied (fs w) ->
  send_command float_str c action params timeout w =
    Some (Returned (failure ("Failed to send MIDI trigger: " +:+ exn_msg e)),
          c, with_fs w (fs_at_poll_start c action params (fs w))).
Proof.
  intros Hconn Hport Hbroken Hmido Hwrite.
  unfold send_command, ensure_connected. rewrite Hconn. cbn [negb].
  unfold Path.write_json.
  destruct (decide (_command_file c ∈ write_denied (fs w))); [contradiction|].
  unfold send_trigger, import_mido. rewrite Hmido, Hport.
  unfold port_send. rewrite Hbroken.
  destruct c as [port0 name0 flag0 error0 cmd0 resp0]. cbn in Hport. subst port0.
  reflexivity.
Qed.

(** ** What a call does to the shared directory *)

Lemma fold_apply_source (p : string) (d : file_data) (ops : list fs_op) :
  forall fs : filesystem,
    files (fold_left apply_op ops fs) !! p = Some d ->
    files fs !! p = Some d \/ In (Put p d) ops.
Proof.
  induction ops as [|op ops IH]; intros fs Hfound; [now left|].
  cbn [fold_left] in Hfound. destruct (IH _ Hfound) as [Hhere|Hlater].
  - destruct op as [q d'|q]; cbn in Hhere.
    + destruct (decide (q = p)) as [->|Hne].
      * rewrite lookup_insert_eq in Hhere. injection Hhere as ->. right. now left.
      * rewrite lookup_insert_ne in Hhere by exact Hne. now left.
    + destruct (decide (q = p)) as [->|Hne].
      * now rewrite lookup_delete_eq in Hhere.
      * rewrite lookup_delete_ne in Hhere by exact Hne. now left.
  - right. now right.
Qed.

Lemma fold_apply_untouched (p : string) (ops : list fs_op) :
  forall fs : filesystem,
    (forall op, In op ops -> path_of op <> p) ->
    files (fold_left apply_op ops fs) !! p = files fs !! p.
Proof.
  induction ops as [|op ops IH]; intros fs Halone; [reflexivity|].
  cbn [fold_left]. rewrite IH by (intros op' Hin; apply Halone; now right).
  assert (Hop : path_of op <> p) by (apply Halone; now left).
  destruct op as [q d|q]; cbn in *.
  - now apply lookup_insert_ne.
  - now apply lookup_delete_ne.
Qed.

Lemma fold_apply_write_denied (ops : list fs_op) :
  forall fs : filesystem, write_denied (fold_left apply_op ops fs) = write_denied fs.
Proof.
  induction ops as [|op ops IH]; intros fs; [reflexivity|].
  cbn [fold_left]. rewrite IH. now destruct op.
Qed.

Lemma sleep_source (p : string) (d : file_data) (fs : filesystem)
      (others : list (list fs_op)) :
  files (fst (sleep fs others)) !! p = Some d ->
  files fs !! p = Some d \/ exists ops, In ops others /\ In (Put p d) ops.
Proof.
  destruct others as [|ops rest]; cbn [sleep fst]; [now left|].
  intros Hfound. destruct (fold_apply_source _ _ _ _ Hfound) as [Hhere|Hput]; [now left|].
  right. exists ops. split; [now left|exact Hput].
Qed.

Lemma sleep_rest (fs : filesystem) (others : list (list fs_op)) (ops : list fs_op) :
  In ops (snd (sleep fs others)) -> In ops others.
Proof. destruct others as [|first rest]; cbn; [tauto|now right]. Qed.

Lemma sleep_untouched (p : string) (fs : filesystem) (others : list (list fs_op)) :
  left_alone p others ->
  files (fst (sleep fs others)) !! p = files fs !! p /\
  left_alone p (snd (sleep fs others)).
Proof.
  intros Halone. destruct others as [|ops rest]; cbn [sleep fst snd]; [now split|].
  split.
  - apply fold_apply_untouched. intros op Hin. apply (Halone ops op); [now left|exact Hin].
  - intros ops' op Hin. apply Halone. now right.
Qed.

Lemma sleep_write_denied (fs : filesystem) (others : list (list fs_op)) :
  write_denied (fst (sleep fs others)) = write_denied fs.
Proof.
  destruct others as [|ops rest]; [reflexivity|]. apply fold_apply_write_denied.
Qed.

(** A file found after [k] sleeps was there before or was put there by
    another process. *)
Lemma after_sleeps_source (p : string) (d : file_data) (k : nat) :
  forall (fs : filesystem) (others : list (list fs_op)),
    files (fst (after_sleeps k fs others)) !! p = Some d ->
    files fs !! p = Some d \/ exists ops, In ops others /\ In (Put p d) ops.
Proof.
  induction k as [|k IH]; intros fs others Hfound; [now left|].
  rewrite after_sleeps_succ in Hfound.
  destruct (IH _ _ Hfound) as [Hslept|(ops & Hin & Hput)].
  - now apply sleep_source.
  - right. exists ops. split; [|exact Hput]. now apply sleep_rest in Hin.
Qed.

Lemma unlink_other (p q : string) (fs : filesystem) :
  q <> p -> files (snd (Path.unlink p fs)) !! q = files fs !! q.
Proof.
  intros Hne. unfold Path.unlink. destruct (files fs !! p); [|reflexivity].
  destruct (decide (p ∈ unlink_denied fs)); [reflexivity|].
  cbn. apply lookup_delete_ne. congruence.
Qed.

Lemma unlink_write_denied (p : string) (fs : filesystem) :
  write_denied (snd (Path.unlink p fs)) = write_denied fs.
Proof.
  unfold Path.unlink. destruct (files fs !! p); [|reflexivity].
  now destruct (decide (p ∈ unlink_denied fs)).
Qed.

Lemma clear_old_response_other (p q : string) (fs : filesystem) :
  q <> p -> files (clear_old_response p fs) !! q = files fs !! q.
Proof.
  intros Hne. unfold clear_old_response.
  destruct (Path.exists_ p fs); [|reflexivity]. now apply unlink_other.
Qed.

Lemma clear_old_response_write_denied (p : string) (fs : filesystem) :
  write_denied (clear_old_response p fs) = write_denied fs.
Proof.
  unfold clear_old_response. destruct (Path.exists_ p fs); [|reflexivity].
  apply unlink_write_denied.
Qed.

(** When the old response may be unlinked, polling starts without a
    response file. *)
Lemma clear_old_response_clears (p : string) (fs : filesystem) :
  p ∉ unlink_denied fs -> files (clear_old_response p fs) !! p = None.
Proof.
  intros Hallowed. unfold clear_old_response, Path.exists_, Path.unlink.
  destruct (files fs !! p) eqn:Hfile; [|exact Hfile].
  destruct (decide (p ∈ unlink_denied fs)); [contradiction|].
  cbn. apply lookup_delete_eq.
Qed.

Section Frame.

Variable float_str : Q -> string.

(** The loop leaves every file but the response file to the others. *)
Lemma poll_frame (response_file : string) (timeout start_time : Q) (p : string)
      (ticks : list Q) :
  forall (fs : filesystem) (others : list (list fs_op)) response fs' ticks' others',
    poll float_str response_file timeout start_time ticks fs others
      = Some (response, (fs', ticks', others')) ->
    write_denied fs' = write_denied fs /\
    unlink_denied fs' = unlink_denied fs /\
    (p <> response_file -> left_alone p others -> files fs' !! p = files fs !! p).
Proof.
  induction ticks as [|now ticks IH]; intros fs others response fs' ticks' others';
    [discriminate|].
  cbn [poll]. destruct (Qltb (now - start_time) timeout).
  - destruct (Path.exists_ response_file fs).
    + destruct (Path.read_json response_file fs) as [v|e].
      * intros [= _ <- _ _]. split; [apply unlink_write_denied|].
        split; [apply unlink_unlink_denied|]. intros Hne _. now apply unlink_other.
      * destruct (is_JSONDecodeError e); intros [= _ <- _ _]; now repeat split.
    + destruct (sleep fs others) as [fs1 others1] eqn:Hsleep. intros Hpoll.
      destruct (IH _ _ _ _ _ _ Hpoll) as (Hw & Hu & Hframe).
      assert (Hfs1 : fs1 = fst (sleep fs others)) by now rewrite Hsleep.
      assert (Hothers1 : others1 = snd (sleep fs others)) by now rewrite Hsleep.
      split; [rewrite Hw, Hfs1; apply sleep_write_denied|].
      split; [rewrite Hu, Hfs1; apply sleep_unlink_denied|].
      intros Hne Halone. destruct (sleep_untouched p fs others Halone) as [Hsame Hrest].
      rewrite Hframe; [now rewrite Hfs1|exact Hne|now rewrite Hothers1].
  - intros [= _ <- _ _]. now repeat split.
Qed.

(** X5: A call works on two files only, the command file and the response
    file; every other file is as the other processes leave it, and what
    may be written or unlinked is not changed. *)
Theorem send_command_touches_two_files
        (c : MIDIConnection) (action : string) (params : option Dict.t)
        (timeout : Q) (w : world)
        (r : outcome json) (c' : MIDIConnection) (w' : world) (p : string) :
  send_command float_str c action params timeout w = Some (r, c', w') ->
  write_denied (fs w') = write_denied (fs w) /\
  unlink_denied (fs w') = unlink_denied (fs w) /\
  (p <> _command_file c' -> p <> _response_file c' ->
   left_alone p (others w) ->
   files (fs w') !! p = files (fs w) !! p).
Proof.
  unfold send_command.
  destruct (ensure_connected c (mido w)) as [[[]|e1] c1]; [|now intros [= _ _ <-]].
  unfold Path.write_json at 1.
  destruct (decide (_command_file c1 ∈ write_denied (fs w))); [now intros [= _ _ <-]|].
  destruct (send_trigger c1 (mido w)) as [[[]|e3] c2] eqn:Htrigger;
    apply send_trigger_keeps_files in Htrigger as [Hcmd Hresp].
  - unfold _wait_for_response. cbn [with_fs clock fs others mido].
    destruct (clock w) as [|start_time ticks]; [discriminate|].
    destruct (poll _ _ _ _ _ _ _) as [[response [[fs' ticks'] others']]|] eqn:Hpoll;
      [|discriminate].
    intros [= _ <- <-]. cbn [fs].
    destruct (poll_frame _ _ _ p _ _ _ _ _ _ _ Hpoll) as (Hw & Hu & Hframe).
    rewrite Hw, Hu, clear_old_response_write_denied, clear_old_response_unlink_denied.
    repeat split. intros Hp1 Hp2 Halone. rewrite Hresp in Hframe, Hp2.
    rewrite Hcmd in Hp1.
    rewrite (Hframe Hp2 Halone), clear_old_response_other by exact Hp2.
    cbn. apply lookup_insert_ne. congruence.
  - intros [= _ <- <-]. cbn [with_fs fs].
    rewrite clear_old_response_write_denied, clear_old_response_unlink_denied.
    repeat split. intros Hp1 Hp2 _.
    rewrite clear_old_response_other by congruence.
    cbn. apply lookup_insert_ne. congruence.
Qed.

(** X6: The command file is a single slot: after a call that could write it,
    it holds the command of this call, whatever it held before, as long as
    no other process writes it meanwhile. *)
Theorem command_file_holds_the_last_command
        (c : MIDIConnection) (action : string) (params : option Dict.t)
        (timeout : Q) (w : world)
        (response : json) (c' : MIDIConnection) (w' : world) :
  send_command float_str c action params timeout w = Some (Returned response, c', w') ->
  _command_file c' ∉ write_denied (fs w) ->
  _command_file c' <> _response_file c' ->
  left_alone (_command_file c') (others w) ->
  files (fs w') !! _command_file c' = Some (WellFormed (command_of action params)).
Proof.
  unfold send_command.
  destruct (ensure_connected c (mido w)) as [[[]|e1] c1]; [|discriminate].
  unfold Path.write_json at 1.
  destruct (decide (_command_file c1 ∈ write_denied (fs w))) as [Hdenied|_].
  { intros [= _ <- _] Hallowed. contradiction. }
  destruct (send_trigger c1 (mido w)) as [[[]|e3] c2] eqn:Htrigger;
    apply send_trigger_keeps_files in Htrigger as [Hcmd Hresp].
  - unfold _wait_for_response. cbn [with_fs clock fs others mido].
    destruct (clock w) as [|start_time ticks]; [discriminate|].
    destruct (poll _ _ _ _ _ _ _) as [[r [[fs' ticks'] others']]|] eqn:Hpoll;
      [|discriminate].
    intros [= _ <- <-] _ Hne Halone. cbn [fs].
    destruct (poll_frame _ _ _ (_command_file c2) _ _ _ _ _ _ _ Hpoll) as (_ & _ & Hframe).
    rewrite Hframe by assumption.
    rewrite clear_old_response_other by congruence.
    rewrite Hcmd. cbn. apply lookup_insert_eq.
  - intros [= _ <- <-] _ Hne _. cbn [with_fs fs].
    rewrite clear_old_response_other by congruence.
    rewrite Hcmd. cbn. apply lookup_insert_eq.
Qed.

(** X7: No stale answer: when the old response file may be unlinked, whatever
    [send_command] returns from the response file was put there by
    another process after the command was written. *)
Theorem response_was_written_during_the_call
        (c : MIDIConnection) (action : string) (params : option Dict.t)
        (timeout : Q) (w : world)
        (response : json) (c' : MIDIConnection) (w' : world) :
  send_command float_str c action params timeout w = Some (Returned response, c', w') ->
  _response_file c' ∉ unlink_denied (fs w) ->
  (exists msg, response = failure msg /\ reported_failure float_str timeout msg) \/
  (exists ops, In ops (others w) /\
               In (Put (_response_file c') (WellFormed response)) ops).
Proof.
  intros Hcall Hallowed.
  destruct (send_command_returns_response _ _ _ _ _ _ _ _ _ Hcall) as [Hown|[k Hfound]];
    [now left|right].
  destruct (after_sleeps_source _ _ _ _ _ Hfound) as [Hstale|Hput]; [|exact Hput].
  unfold fs_at_poll_start in Hstale.
  rewrite clear_old_response_clears in Hstale; [discriminate|].
  now rewrite apply_op_unlink_denied.
Qed.

(** X8: A timeout that is zero or negative gives up at the first look at the
    clock: the call reports the timeout without looking for the response
    file, even when one is waiting. *)
Theorem no_budget_no_look
        (c : MIDIConnection) (timeout : Q) (w : world)
        (start_time now : Q) (ticks : list Q) :
  (timeout <= 0)%Q ->
  clock w = start_time :: now :: ticks ->
  (start_time <= now)%Q ->
  _wait_for_response float_str c timeout w =
    Some (failure (timeout_message float_str timeout),
          World (fs w) ticks (others w) (mido w)).
Proof.
  intros Hnone Hclock Hmonotone.
  rewrite (wait_for_response_polls _ _ _ _ _ _ Hclock).
  rewrite poll_times_out; [reflexivity|].
  intros Hlt. apply (Qlt_not_le _ _ Hlt).
  apply Qle_trans with 0%Q; [exact Hnone|].
  unfold Qminus. rewrite <- Qle_minus_iff. exact Hmonotone.
Qed.

End Frame.

(** ** The keystroke trigger *)

Lemma system_other (h : host) :
  system h <> "Darwin" -> system h <> "Windows" ->
  String.eqb (system h) "Darwin" = false /\ String.eqb (system h) "Windows" = false.
Proof. intros Hd Hw. split; now apply String.eqb_neq. Qed.

(** X9: A trigger is supported exactly when it has a keystroke to name, that
    is on macOS and Windows; anywhere else triggering reports failure and
    does nothing to the desktop, and [fl_trigger_script] says that the
    platform is not supported. *)
Theorem unsupported_platform_is_left_alone (h : host) :
  (Trigger.is_supported (Trigger.new h) = true <->
   Trigger.keystroke (Trigger.new h) <> "Unknown") /\
  (Trigger.is_supported (Trigger.new h) = true <->
   system h = "Darwin" \/ system h = "Windows") /\
  (system h <> "Darwin" -> system h <> "Windows" ->
   forall delay d global trace s,
     trigger_of h global ->
     trigger_of h (PianoRollTools.the_trigger s) ->
     Trigger.trigger_fl_studio h delay d global trace
       = (false, Some (Trigger.new h), trace) /\
     PianoRollTools.fl_trigger_script h d s
       = ("Error: Auto-trigger not supported on " +:+ system h,
          PianoRollTools.Desk (PianoRollTools.disk s) (Some (Trigger.new h))
                              (PianoRollTools.happened s))).
Proof.
  split; [|split].
  - unfold Trigger.is_supported, Trigger.keystroke, Trigger.new. cbn.
    destruct (String.eqb (system h) "Darwin"); [split; [discriminate|reflexivity]|].
    destruct (String.eqb (system h) "Windows"); [split; [discriminate|reflexivity]|].
    split; [discriminate|congruence].
  - unfold Trigger.is_supported, Trigger.new. cbn.
    destruct (String.eqb_spec (system h) "Darwin") as [Hd|Hd]; [now split; auto|].
    destruct (String.eqb_spec (system h) "Windows") as [Hw|Hw]; [now split; auto|].
    split; [discriminate|intros [?|?]; contradiction].
  - intros Hd Hw delay d global trace s Hglobal Hs.
    assert (Hnew : Trigger.new h = Trigger.Trig (system h) None).
    { unfold Trigger.new.
      destruct (system_other h Hd Hw) as [-> ->]. reflexivity. }
    split.
    + unfold Trigger.trigger_fl_studio, Trigger.get_trigger.
      destruct Hglobal as [->| ->]; rewrite Hnew; reflexivity.
    + unfold PianoRollTools.fl_trigger_script, Trigger.get_trigger.
      destruct Hs as [->| ->]; rewrite Hnew; reflexivity.
Qed.

Lemma type_keys_returns (d : Trigger.desktop) (calls : list Trigger.effect) :
  forall (n : nat) (trace trace' : list Trigger.effect),
    Trigger.type_keys d n calls trace = (Returned tt, trace') ->
    trace' = (trace ++ calls)%list.
Proof.
  induction calls as [|call calls IH]; intros n trace trace'; cbn.
  - intros [= <-]. now rewrite app_nil_r.
  - destruct (Trigger.keyboard_fault d n); [discriminate|].
    intros Hrest. apply IH in Hrest. now rewrite <- app_assoc in Hrest.
Qed.

Lemma type_keys_stops (d : Trigger.desktop) (calls : list Trigger.effect) :
  forall (n k : nat) (e : exn) (trace : list Trigger.effect),
    (forall j, (j < k)%nat -> Trigger.keyboard_fault d (n + j) = None) ->
    Trigger.keyboard_fault d (n + k) = Some e ->
    (k < length calls)%nat ->
    Trigger.type_keys d n calls trace = (Raised e, (trace ++ firstn k calls)%list).
Proof.
  induction calls as [|call calls IH]; intros n k e trace Hfine Hfault Hk; cbn in Hk.
  - lia.
  - cbn [Trigger.type_keys]. destruct k as [|k].
    + rewrite Nat.add_0_r in Hfault. rewrite Hfault. cbn. now rewrite app_nil_r.
    + assert (Hfirst : Trigger.keyboard_fault d n = None).
      { rewrite <- (Nat.add_0_r n). apply Hfine. lia. }
      rewrite Hfirst.
      rewrite (IH (S n) k e); [cbn; now rewrite <- app_assoc| | |lia].
      * intros j Hj. replace (S n + j)%nat with (n + S j)%nat by lia. apply Hfine. lia.
      * now replace (S n + k)%nat with (n + S k)%nat by lia.
Qed.

Lemma held_after_app (first second : list Trigger.effect) :
  forall down, held_after down (first ++ second) = held_after (held_after down first) second.
Proof.
  induction first as [|[script t|t|k|k] first IH]; intros down; cbn; auto.
Qed.

Lemma held_chord (modifier : Trigger.key) (down : list Trigger.key) :
  (forall k, In k down -> False) ->
  held_after down (Trigger.chord modifier) = [].
Proof.
  intros Hempty. destruct down as [|k down]; [|destruct (Hempty k); now left].
  now destruct modifier.
Qed.

(** X10: A trigger that reports success has left no key down: whatever it
    pressed, it released. *)
Theorem successful_trigger_releases_every_key
        (t : Trigger.FLStudioTrigger) (delay : Q) (d : Trigger.desktop)
        (trace : list Trigger.effect) :
  Trigger.trigger t delay d [] = (true, trace) ->
  held trace = [].
Proof.
  unfold Trigger.trigger, held.
  destruct (Trigger._trigger_func t) as [f|]; [|discriminate].
  destruct (Trigger.call_trigger_func f d []) as [success trace1] eqn:Hcall.
  assert (Hdone : success = true -> held_after [] trace1 = []).
  { intros ->. destruct f; cbn in Hcall.
    - unfold Trigger._trigger_macos in Hcall.
      destruct (Trigger.run_osascript d Trigger.keystroke_script).
      + now injection Hcall as <-.
      + discriminate.
      + unfold Trigger._trigger_macos_pynput in Hcall.
        destruct (Trigger.pynput d); [|discriminate].
        destruct (Trigger.run_osascript d Trigger.activate_script); try discriminate.
        destruct (Trigger.type_keys _ _ _ _) as [[[]|err] trace2] eqn:Hkeys; [|discriminate].
        injection Hcall as <-. apply type_keys_returns in Hkeys as ->.
        rewrite held_after_app. cbn. reflexivity.
    - unfold Trigger._trigger_windows in Hcall.
      destruct (Trigger.pynput d); [|discriminate].
      destruct (Trigger.type_keys _ _ _ _) as [[[]|err] trace2] eqn:Hkeys; [|discriminate].
      injection Hcall as <-. apply type_keys_returns in Hkeys as ->. reflexivity. }
  destruct success; cbn [andb].
  - destruct (Qltb 0 delay); intros [= <-].
    + rewrite held_after_app, Hdone by reflexivity. reflexivity.
    + now apply Hdone.
  - discriminate.
Qed.

(** X11: A keyboard call that raises after the first one makes the Windows
    trigger report failure with the keys pressed so far still down, as
    nothing releases them; no sleep follows. *)
Theorem failed_keyboard_call_leaves_keys_down
        (h : host) (delay : Q) (d : Trigger.desktop) (n : nat) (e : exn) :
  system h = "Windows" ->
  Trigger.pynput d = Returned tt ->
  (forall j, (j < n)%nat -> Trigger.keyboard_fault d j = None) ->
  Trigger.keyboard_fault d n = Some e ->
  (1 <= n <= 5)%nat ->
  Trigger.trigger (Trigger.new h) delay d []
    = (false, firstn n (Trigger.chord Trigger.Key_ctrl)) /\
  held (firstn n (Trigger.chord Trigger.Key_ctrl)) <> [].
Proof.
  intros Hsys Hpynput Hfine Hfault Hn. split.
  - unfold Trigger.trigger, Trigger.new. rewrite Hsys. cbn.
    unfold Trigger._trigger_windows. rewrite Hpynput.
    rewrite (type_keys_stops d (Trigger.chord Trigger.Key_ctrl) 0 n e []);
      [reflexivity|exact Hfine|exact Hfault|cbn; lia].
  - destruct n as [|[|[|[|[|[|n]]]]]]; try lia; discriminate.
Qed.

(** X12: On macOS the trigger counts as sent as soon as [osascript] has run to
    its end, whatever its exit status: [fl_trigger_script] then reports
    success and waits two seconds, and no key is pressed.  Only a timeout
    of [osascript] is reported as a failure, without the fallback. *)
Theorem script_exit_status_is_ignored
        (h : host) (d : Trigger.desktop) (s : PianoRollTools.desk) :
  system h = "Darwin" ->
  trigger_of h (PianoRollTools.the_trigger s) ->
  (forall returncode : Z,
      Trigger.run_osascript d Trigger.keystroke_script = Trigger.Completed returncode ->
      PianoRollTools.fl_trigger_script h d s =
        ("FL Studio triggered successfully. Notes should now appear in the piano roll.",
         PianoRollTools.Desk (PianoRollTools.disk s) (Some (Trigger.new h))
           (PianoRollTools.happened s
            ++ [Trigger.Ran Trigger.keystroke_script 10; Trigger.Slept 2])%list)) /\
  (Trigger.run_osascript d Trigger.keystroke_script = Trigger.TimeoutExpired ->
   PianoRollTools.fl_trigger_script h d s =
     ("Failed to trigger FL Studio. Try pressing Cmd+Opt+Y manually.",
      PianoRollTools.Desk (PianoRollTools.disk s) (Some (Trigger.new h))
        (PianoRollTools.happened s ++ [Trigger.Ran Trigger.keystroke_script 10])%list)).
Proof.
  intros Hsys Hglobal.
  assert (Hnew : Trigger.new h = Trigger.Trig "Darwin" (Some Trigger.trigger_macos)).
  { unfold Trigger.new. now rewrite Hsys. }
  assert (Hget : Trigger.get_trigger h (PianoRollTools.the_trigger s)
                 = (Trigger.new h, Some (Trigger.new h))).
  { unfold Trigger.get_trigger. now destruct Hglobal as [->| ->]. }
  split.
  - intros returncode Hrun.
    unfold PianoRollTools.fl_trigger_script, Trigger.trigger_fl_studio.
    rewrite Hget. cbn [Trigger.get_trigger]. rewrite Hnew.
    cbn [Trigger.is_supported Trigger._trigger_func negb Trigger.trigger
         Trigger.call_trigger_func].
    unfold Trigger._trigger_macos. rewrite Hrun. cbn. now rewrite <- app_assoc.
  - intros Hrun.
    unfold PianoRollTools.fl_trigger_script, Trigger.trigger_fl_studio.
    rewrite Hget. cbn [Trigger.get_trigger]. rewrite Hnew.
    cbn [Trigger.is_supported Trigger._trigger_func negb Trigger.trigger
         Trigger.call_trigger_func].
    unfold Trigger._trigger_macos. rewrite Hrun. reflexivity.
Qed.

(** ** The piano roll tools *)

Lemma trigger_if_requested_keeps_disk (h : host) (d : Trigger.desktop)
      (auto_trigger : bool) (s : PianoRollTools.desk) :
  PianoRollTools.disk (snd (PianoRollTools.trigger_if_requested h d auto_trigger s))
  = PianoRollTools.disk s.
Proof.
  unfold PianoRollTools.trigger_if_requested. destruct auto_trigger; [|reflexivity].
  destruct (Trigger.get_trigger h _) as [t global].
  destruct (Trigger.is_supported t); [|reflexivity].
  now destruct (Trigger.trigger_fl_studio _ _ _ _ _) as [[success global'] trace].
Qed.

(** X13: [fl_delete_notes] does nothing for an empty list but say so.  For a
    list with notes in it, it adds one [delete_notes] request holding
    these notes at the end of the queue; asked not to trigger, it touches
    neither the trigger nor the desktop and answers with the number of
    notes. *)
Theorem delete_notes_queues_one_request
        (h : host) (d : Trigger.desktop) (notes : list Dict.t)
        (auto_trigger : bool) (s : PianoRollTools.desk) :
  let request_file := PianoRoll._get_request_file h in
  let request := JObj [("action", JStr "delete_notes");
                       ("notes", JArr (map JObj notes))] in
  PianoRollTools.fl_delete_notes h d [] auto_trigger s
    = (Returned "Error: No notes specified for deletion", s) /\
  (forall existing : list json,
      notes <> [] ->
      PianoRoll.read_existing request_file (PianoRollTools.disk s) = Returned existing ->
      request_file ∉ write_denied (PianoRollTools.disk s) ->
      exists (text : string) (s' : PianoRollTools.desk),
        PianoRollTools.fl_delete_notes h d notes auto_trigger s = (Returned text, s') /\
        PianoRollTools.disk s' =
          apply_op (PianoRollTools.disk s)
                   (Put request_file (WellFormed (JArr (existing ++ [request])))) /\
        (auto_trigger = false ->
         PianoRollTools.the_trigger s' = PianoRollTools.the_trigger s /\
         PianoRollTools.happened s' = PianoRollTools.happened s /\
         text = "Queued deletion of " +:+ Py.str_of_int (Z.of_nat (length notes))
                +:+ " note(s).")).
Proof.
  intros request_file request. split; [reflexivity|].
  intros existing Hnotes Hread Hwrite.
  unfold PianoRollTools.fl_delete_notes.
  destruct notes as [|note notes]; [contradiction|].
  fold request. rewrite (write_request_writes h _ request existing Hread Hwrite).
  destruct (PianoRollTools.trigger_if_requested h d auto_trigger _)
    as [trigger_info s'] eqn:Hinfo.
  eexists _, _. split; [reflexivity|]. split.
  - change s' with (snd (trigger_info, s')). rewrite <- Hinfo.
    now rewrite trigger_if_requested_keeps_disk.
  - intros ->. cbn in Hinfo. injection Hinfo as <- <-. cbn.
    repeat split.
Qed.


(** ** Note names *)

Lemma str_of_int_inj (a b : Z) : Py.str_of_int a = Py.str_of_int b -> a = b.
Proof.
  unfold Py.str_of_int. intros Heq. apply DecimalZ.to_int_inj.
  assert (Hparse : forall z, NilZero.int_of_string (NilZero.string_of_int (Z.to_int z))
                             = Some (Z.to_int z)).
  { intros z. apply NilZero.isi; destruct z; cbn; try discriminate;
      intros [= Hnil]; now apply DecimalPos.Unsigned.to_uint_nonnil in Hnil. }
  assert (Hsome : Some (Z.to_int a) = Some (Z.to_int b))
    by now rewrite <- !Hparse, Heq.
  now injection Hsome.
Qed.

(** A number never prints with a sharp in front. *)
Lemma str_of_int_no_sharp (z : Z) (rest : string) :
  Py.str_of_int z <> String "#" rest.
Proof.
  unfold Py.str_of_int. destruct z as [|p|p]; cbn; try discriminate.
  - destruct (Pos.to_uint p); cbn; discriminate.
Qed.

Ltac same_name H :=
  cbn in H;
  first [ discriminate H
        | injection H as H; first [ now apply str_of_int_no_sharp in H
                                  | symmetry in H; now apply str_of_int_no_sharp in H
                                  | idtac ] ].

(** X15: A note name tells which note it names: two MIDI numbers with the same
    name are the same number, those below zero included. *)
Theorem note_names_are_unambiguous (a b : Z) :
  PianoRollTools._midi_to_note_name a = PianoRollTools._midi_to_note_name b -> a = b.
Proof.
  unfold PianoRollTools._midi_to_note_name, PianoRollTools.note_names.
  assert (Ha := Z.mod_pos_bound a 12 eq_refl).
  assert (Hb := Z.mod_pos_bound b 12 eq_refl).
  assert (Hia : Z.of_nat (Z.to_nat (a mod 12)%Z) = (a mod 12)%Z) by lia.
  assert (Hib : Z.of_nat (Z.to_nat (b mod 12)%Z) = (b mod 12)%Z) by lia.
  assert (Hna : (Z.to_nat (a mod 12)%Z < 12)%nat) by lia.
  assert (Hnb : (Z.to_nat (b mod 12)%Z < 12)%nat) by lia.
  revert Hia Hib Hna Hnb.
  generalize (Z.to_nat (a mod 12)%Z) as i. generalize (Z.to_nat (b mod 12)%Z) as j.
  intros j i Hia Hib Hi Hj Hname.
  assert (Hsame : i = j /\ (a / 12 - 1 = b / 12 - 1)%Z).
  { do 12 (destruct i as [|i]; [do 12 (destruct j as [|j];
        [same_name Hname; (split; [reflexivity|now apply str_of_int_inj])|]); lia|]).
    lia. }
  destruct Hsame as [-> Hoctave].
  rewrite (Z.div_mod a 12), (Z.div_mod b 12) by lia. lia.
Qed.

(** ** Handlers *)

Lemma land_shifted_low (high low n : Z) :
  (0 <= n)%Z -> (0 <= low < 2 ^ n)%Z -> Z.land (Z.shiftl high n) low = 0%Z.
Proof.
  intros Hn Hlow. apply Z.bits_inj'. intros m Hm.
  rewrite Z.land_spec, Z.bits_0.
  destruct (Z.lt_ge_cases m n) as [Hlt|Hge].
  - now rewrite Z.shiftl_spec_low.
  - assert (Hbit : Z.testbit low m = false).
    { destruct (Z.eq_dec low 0%Z) as [->|Hpos]; [apply Z.bits_0|].
      apply Z.bits_above_log2; [lia|].
      apply Z.lt_le_trans with n; [|exact Hge].
      apply Z.log2_lt_pow2; lia. }
    rewrite Hbit. apply andb_false_r.
Qed.

Lemma lor_shifted_low (high low n : Z) :
  (0 <= n)%Z -> (0 <= low < 2 ^ n)%Z ->
  Z.lor (Z.shiftl high n) low = (high * 2 ^ n + low)%Z.
Proof.
  intros Hn Hlow.
  rewrite <- Z.lxor_lor by now apply land_shifted_low.
  rewrite <- Z.add_nocarry_lxor by now apply land_shifted_low.
  now rewrite Z.shiftl_mul_pow2.
Qed.

Lemma bgr_sum (r g b : Z) :
  (0 <= r < 256)%Z -> (0 <= g < 256)%Z ->
  Handlers.bgr r g b = (r + 256 * g + 65536 * b)%Z.
Proof.
  intros Hr Hg. unfold Handlers.bgr.
  replace (Z.shiftl b 16) with (Z.shiftl (Z.shiftl b 8) 8)
    by (rewrite Z.shiftl_shiftl by lia; reflexivity).
  rewrite <- Z.shiftl_lor.
  rewrite (lor_shifted_low _ r 8) by (change (2 ^ 8)%Z with 256%Z; lia).
  rewrite (lor_shifted_low b g 8) by (change (2 ^ 8)%Z with 256%Z; lia).
  change (2 ^ 8)%Z with 256%Z. lia.
Qed.

(** X16: Colours are packed blue-green-red: for components from 0 to 255 the
    colour handed to the DAW is [r + 256 g + 65536 b], from which each
    component can be read back, so that different colours are never
    confused. *)
Theorem colour_keeps_its_components (r g b : Z) :
  (0 <= r < 256)%Z -> (0 <= g < 256)%Z -> (0 <= b < 256)%Z ->
  Handlers.color_of (JInt r) (JInt g) (JInt b) = Returned (Handlers.bgr r g b) /\
  Handlers.bgr r g b = (r + 256 * g + 65536 * b)%Z /\
  Z.land (Handlers.bgr r g b) 255 = r /\
  Z.land (Z.shiftr (Handlers.bgr r g b) 8) 255 = g /\
  Z.shiftr (Handlers.bgr r g b) 16 = b /\
  (0 <= Handlers.bgr r g b < 16777216)%Z.
Proof.
  intros Hr Hg Hb. split; [reflexivity|].
  rewrite (bgr_sum r g b Hr Hg). split; [reflexivity|].
  change 255%Z with (Z.ones 8). rewrite !Z.land_ones by lia.
  rewrite !Z.shiftr_div_pow2 by lia.
  change (2 ^ 8)%Z with 256%Z. change (2 ^ 16)%Z with 65536%Z.
  repeat split; try lia.
  - rewrite <- Z.add_assoc, Z.add_comm.
    replace (256 * g + 65536 * b + r)%Z with (r + (g + 256 * b) * 256)%Z by lia.
    rewrite Z.mod_add by lia. apply Z.mod_small. lia.
  - replace (r + 256 * g + 65536 * b)%Z with (r + (g + 256 * b) * 256)%Z by lia.
    rewrite Z.div_add by lia. rewrite (Z.div_small r) by lia.
    replace (0 + (g + 256 * b))%Z with (g + b * 256)%Z by lia.
    rewrite Z.mod_add by lia. apply Z.mod_small. lia.
  - replace (r + 256 * g + 65536 * b)%Z with (r + 256 * g + b * 65536)%Z by lia.
    rewrite Z.div_add by lia. rewrite Z.div_small; lia.
Qed.

Lemma sum_from_bits (bits : list bool) :
  forall total : Z,
    Handlers.sum_from total (map JBool bits) = Returned (total + count_on bits)%Z.
Proof.
  unfold count_on.
  induction bits as [|bit bits IH]; intros total; cbn [map Handlers.sum_from Py.as_int].
  - f_equal. cbn. lia.
  - rewrite IH. f_equal. cbn [count_occ]. destruct bit; cbn.
    + destruct (bool_dec true true); [lia|contradiction].
    + destruct (bool_dec false true); [discriminate|lia].
Qed.

Lemma count_on_bounds (bits : list bool) :
  (0 <= count_on bits <= Z.of_nat (length bits))%Z.
Proof.
  unfold count_on. pose proof (count_occ_bound bool_dec true bits). lia.
Qed.


Section StepSequencer.

Variable Daw : Type.
Variable api : string -> list json -> Daw -> outcome json * Daw.

Local Abbreviation set_step_sequence := (Handlers.handle_channels_set_step_sequence Daw api).
Local Abbreviation get_step_sequence := (Handlers.handle_channels_get_step_sequence Daw api).
Local Abbreviation set_steps := (Handlers.set_steps Daw api).
Local Abbreviation get_steps := (Handlers.get_steps Daw api).


Variable bit : Daw -> json -> Z -> Z.
Hypothesis Hgrid : keeps_grid_bits api bit.

Lemma set_steps_stores (channel : json) (bits : list bool) :
  forall (i : Z) (d : Daw),
    exists d' : Daw,
      set_steps channel i (map JBool bits) d = (Returned tt, d') /\
      (forall k : nat, (k < length bits)%nat ->
                       bit d' channel (i + Z.of_nat k) = Z.b2z (nth k bits false)) /\
      (forall j : Z, (j < i)%Z -> bit d' channel j = bit d channel j).
Proof.
  destruct Hgrid as (Hset & _ & _).
  induction bits as [|b bits IH]; intros i d; cbn [map Handlers.set_steps].
  - exists d. split; [reflexivity|]. split; [cbn; lia|reflexivity].
  - destruct (Hset d channel i (if b then 1 else 0)%Z) as (r & d1 & Hcall & Hhere & Hother).
    unfold Handlers.bit_of. cbn [Tools.truthy]. rewrite Hcall.
    destruct (IH (i + 1)%Z d1) as (d' & Hrest & Hbits & Hbelow).
    exists d'. split; [exact Hrest|]. split.
    + intros k Hk. destruct k as [|k].
      * rewrite Z.add_0_r, Hbelow by lia. rewrite Hhere. now destruct b.
      * cbn [nth]. replace (i + Z.of_nat (S k))%Z with (i + 1 + Z.of_nat k)%Z by lia.
        apply Hbits. cbn in Hk. lia.
    + intros j Hj. rewrite Hbelow by lia. apply Hother. lia.
Qed.

Lemma get_steps_reads (channel : json) (d : Daw) (count : nat) :
  forall (start : nat) (sequence : list json),
    get_steps channel (map Z.of_nat (seq start count)) sequence d =
      (Returned (sequence ++ map (fun k => JBool (bit d channel (Z.of_nat k) =? 1)%Z)
                                 (seq start count))%list, d).
Proof.
  destruct Hgrid as (_ & Hget & _).
  induction count as [|count IH]; intros start sequence; cbn [seq map Handlers.get_steps].
  - now rewrite app_nil_r.
  - rewrite Hget. cbn [Handlers.equals_one]. rewrite IH. now rewrite <- app_assoc.
Qed.

(** X18: Round trip through the step sequencer: on a DAW that keeps its grid
    bits, the pattern written by [handle_channels_set_step_sequence] is
    the sequence [handle_channels_get_step_sequence] reads back for the
    same number of steps, and the handler reports how many steps are on
    out of how many. *)
Theorem step_sequence_round_trip (channel : json) (bits : list bool) (d : Daw) :
  exists (name : json) (d' : Daw),
    set_step_sequence (JObj [("channel", channel); ("pattern", JArr (map JBool bits))]) d
      = (Returned [("active_steps", JInt (count_on bits));
                   ("total_steps", JInt (Z.of_nat (length bits)));
                   ("channel_name", name)], d') /\
    (0 <= count_on bits <= Z.of_nat (length bits))%Z /\
    get_step_sequence (JObj [("channel", channel);
                             ("steps", JInt (Z.of_nat (length bits)))]) d'
      = (Returned [("sequence", JArr (map JBool bits))], d').
Proof.
  destruct (set_steps_stores channel bits 0 d) as (d1 & Hset & Hbits & _).
  destruct Hgrid as (_ & _ & Hname). destruct (Hname d1 channel) as (name & Hcall).
  exists name, d1. split; [|split; [apply count_on_bounds|]].
  - unfold Handlers.handle_channels_set_step_sequence. cbn [Handlers.params_get].
    cbn [Dict.get_default Dict.get String.eqb Ascii.eqb Bool.eqb Handlers.iterate].
    rewrite Hset, sum_from_bits, Hcall. now rewrite length_map.
  - unfold Handlers.handle_channels_get_step_sequence. cbn [Handlers.params_get].
    cbn [Dict.get_default Dict.get String.eqb Ascii.eqb Bool.eqb Handlers.range Py.as_int].
    rewrite Nat2Z.id, get_steps_reads. cbn [app].
    assert (Hseq : map (fun k => JBool (bit d1 channel (Z.of_nat k) =? 1)%Z)
                       (seq 0 (length bits)) = map JBool bits).
    { apply nth_ext with (d := JBool (bit d1 channel (Z.of_nat 0) =? 1)%Z)
                         (d' := JBool false).
      - now rewrite !length_map, length_seq.
      - intros k Hk. rewrite length_map, length_seq in Hk.
        rewrite (map_nth (fun k => JBool (bit d1 channel (Z.of_nat k) =? 1)%Z)).
        rewrite seq_nth by exact Hk. cbn [Nat.add].
        rewrite (map_nth JBool bits false k).
        specialize (Hbits k Hk). rewrite Z.add_0_l in Hbits. rewrite Hbits.
        now destruct (nth k bits false). }
    now rewrite Hseq.
Qed.

End StepSequencer.

(** ** The list of mixer tracks *)

Section Mixer.

Variable Daw : Type.
Variable api : string -> list json -> Daw -> outcome json * Daw.
Variable view : mixer_view Daw.
Hypothesis Hreads : reads_mixer api view.

Lemma track_entry_reads (d : Daw) (i : Z) :
  Handlers.track_entry Daw api (JStr (track_name view d i)) i d
  = (Returned (entry_of view d i), d).
Proof.
  destruct (Hreads d) as [_ Htrack].
  destruct (Htrack i) as (_ & Hvolume & Hpan & Hmuted & Hsolo).
  unfold Handlers.track_entry. rewrite Hvolume, Hpan, Hmuted, Hsolo.
  unfold entry_of, Handlers.shown_name. cbn [Tools.truthy].
  destruct (String.eqb (track_name view d i) ""); cbn [negb]; [|reflexivity].
  now destruct (i =? 0)%Z.
Qed.

Lemma is_empty_track_named (include_empty : bool) (name : string) :
  Handlers.is_empty_track (JBool include_empty) (JStr name)
  = Returned (negb include_empty && negb (named_track name)).
Proof.
  unfold Handlers.is_empty_track, named_track. cbn [Tools.truthy Handlers.starts_with].
  destruct include_empty; [reflexivity|]. cbn [negb andb].
  destruct (String.eqb name ""); cbn [negb andb]; [reflexivity|].
  now rewrite negb_involutive.
Qed.

Lemma get_tracks_lists (include_empty : bool) (d : Daw) (positions : list Z) :
  forall tracks : list json,
    Handlers.get_tracks Daw api (JBool include_empty) positions tracks d
    = (Returned (tracks ++ map (entry_of view d)
                               (List.filter (listed view include_empty d) positions))%list, d).
Proof.
  destruct (Hreads d) as [_ Htrack].
  induction positions as [|i rest IH]; intros tracks; cbn [Handlers.get_tracks List.filter map].
  - now rewrite app_nil_r.
  - destruct (Htrack i) as (Hname & _). rewrite Hname, is_empty_track_named.
    assert (Hskip : negb include_empty && negb (named_track (track_name view d i))
                    && negb (i =? 0)%Z
                    = negb (listed view include_empty d i)).
    { unfold listed.
      now destruct include_empty, (i =? 0)%Z, (named_track (track_name view d i)). }
    rewrite Hskip. destruct (listed view include_empty d i); cbn [negb].
    + rewrite track_entry_reads, IH. cbn [map]. now rewrite <- app_assoc.
    + apply IH.
Qed.

(** X28: What [mixer.getAllTracks] answers on a mixer that can be read: asked
    for all tracks it lists every track from 0 up to the count, in order;
    otherwise it lists the master, whatever its name, and after it the
    tracks with a name of their own (not empty, not starting with
    "Insert "), in order.  So the master comes first as soon as there is a
    track at all.  No entry has an empty name, and the DAW is as it was. *)
Theorem all_tracks_lists_the_master (include_empty : bool) (d : Daw) :
  let tracks := map (entry_of view d) (List.filter (listed view include_empty d) (tracks_of view d)) in
  Handlers.handle_mixer_get_all_tracks Daw api
    (JObj [("include_empty", JBool include_empty)]) d
  = (Returned [("tracks", JArr tracks)], d) /\
  ((0 < track_count view d)%Z -> head tracks = Some (entry_of view d 0)) /\
  (forall i : Z,
      In (entry_of view d i) tracks ->
      (0 <= i < track_count view d)%Z /\
      (include_empty = false -> i = 0%Z \/ named_track (track_name view d i) = true)) /\
  (forall entry : json, In entry tracks ->
      exists (fields : Dict.t) (name : string),
        entry = JObj fields /\ Dict.get "name" fields = Some (JStr name) /\ name <> "").
Proof.
  intros tracks. split; [|split; [|split]].
  - unfold Handlers.handle_mixer_get_all_tracks. cbn [Handlers.params_get].
    change (Dict.get_default "include_empty" (JBool false) _) with (JBool include_empty).
    destruct (Hreads d) as [Hcount _]. rewrite Hcount.
    cbn [Handlers.range Py.as_int]. now rewrite get_tracks_lists.
  - intros Hsome. unfold tracks, tracks_of.
    destruct (Z.to_nat (track_count view d)) as [|n] eqn:Hn; [lia|].
    cbn [seq map List.filter]. unfold listed at 1. cbn [Z.of_nat Z.eqb].
    rewrite orb_true_r. reflexivity.
  - intros i Hin. unfold tracks in Hin. apply in_map_iff in Hin as (j & Hsame & Hin).
    assert (j = i) as -> by (unfold entry_of in Hsame; congruence).
    apply filter_In in Hin as [Hin Hlisted]. split.
    + unfold tracks_of in Hin. apply in_map_iff in Hin as (k & <- & Hk).
      apply in_seq in Hk. lia.
    + intros ->. unfold listed in Hlisted. cbn [orb] in Hlisted.
      apply orb_true_iff in Hlisted as [Hzero|Hnamed]; [left|now right].
      now apply Z.eqb_eq.
  - intros entry Hin. unfold tracks in Hin. apply in_map_iff in Hin as (i & <- & _).
    unfold entry_of. eexists _, _. split; [reflexivity|]. split; [reflexivity|].
    destruct (String.eqb (track_name view d i) "") eqn:Hempty.
    + destruct (i =? 0)%Z; discriminate.
    + now apply String.eqb_neq.
Qed.

End Mixer.

(** ** The connection singletons *)

Lemma get_connection_tidy (h : host) (s : session) :
  tidy s ->
  tidy (snd (Connection.get_connection h s)) /\
  fl_global (snd (Connection.get_connection h s))
    = Some (fst (Connection.get_connection h s)) /\
  (forall address c, objects s !! address = Some c ->
                     objects (snd (Connection.get_connection h s)) !! address = Some c).
Proof.
  intros [Hshared Hexists]. unfold Connection.get_connection.
  destruct (fl_global s) as [conn|] eqn:Hfl; cbn [fst snd].
  { split; [split; [now rewrite Hfl|exact Hexists]|]. now split. }
  unfold Connection.new, MidiGlobal.get_connection.
  destruct (midi_global s) as [address|] eqn:Hmidi; cbn [fst snd].
  - split; [split|split]; cbn; try reflexivity.
    + intros conn [= <-]. exact Hmidi.
    + intros a Ha. rewrite Hmidi in Ha. injection Ha as <-. now apply Hexists.
    + auto.
  - split; [split|split]; cbn; try reflexivity.
    + now intros conn [= <-].
    + intros a [= <-]. rewrite lookup_insert_eq. eauto.
    + intros a c Hc. rewrite lookup_insert_ne; [exact Hc|].
      intros <-. pose proof (is_fresh (dom (objects s))) as Hfresh.
      apply Hfresh. apply elem_of_dom. eauto.
Qed.

Lemma reset_connection_tidy (s : session) :
  tidy (Connection.reset_connection s) /\
  fl_global (Connection.reset_connection s) = None /\
  midi_global (Connection.reset_connection s) = None.
Proof.
  unfold Connection.reset_connection, MidiGlobal.reset_connection, tidy.
  destruct (midi_global s) eqn:Hmidi; cbn; rewrite ?Hmidi; repeat split; discriminate.
Qed.

(** X19: The wrapper and the module global share one [MIDIConnection] object.
    From a session in this state, [get_connection] returns a wrapper of
    that very object, the same one at every call, without disturbing any
    object; sending a command through it changes the object in place; and
    [reset_connection] unsets both globals together. *)
Theorem wrapper_and_global_share_one_object (h : host) (s : session) :
  tidy s ->
  let conn := fst (Connection.get_connection h s) in
  let s' := snd (Connection.get_connection h s) in
  tidy s' /\
  fl_global s' = Some conn /\ midi_global s' = Some (_midi conn) /\
  is_Some (objects s' !! _midi conn) /\
  Connection.get_connection h s' = (conn, s') /\
  (forall address c, objects s !! address = Some c -> objects s' !! address = Some c) /\
  (forall float_str action params timeout w r s2 w2,
      Connection.send_command float_str conn action params timeout s' w
        = Some (r, s2, w2) ->
      tidy s2 /\ Connection.get_connection h s2 = (conn, s2)) /\
  tidy (Connection.reset_connection s) /\
  fl_global (Connection.reset_connection s) = None /\
  midi_global (Connection.reset_connection s) = None.
Proof.
  intros Htidy conn s'.
  destruct (get_connection_tidy h s Htidy) as (Htidy' & Hfl & Hkept).
  fold s' in Htidy', Hfl, Hkept. fold conn in Hfl.
  assert (Hmidi : midi_global s' = Some (_midi conn)) by now apply Htidy'.
  assert (Hobject : is_Some (objects s' !! _midi conn)) by now apply Htidy'.
  split; [exact Htidy'|]. split; [exact Hfl|]. split; [exact Hmidi|].
  split; [exact Hobject|].
  split; [unfold Connection.get_connection; now rewrite Hfl|].
  split; [exact Hkept|]. split; [|apply reset_connection_tidy].
  intros float_str action params timeout w r s2 w2.
  unfold Connection.send_command.
  destruct (objects s' !! _midi conn) as [c|]; [|discriminate].
  destruct (send_command _ _ _ _ _ _) as [[[r' c'] w']|]; [|discriminate].
  intros [= _ <- _]. split.
  - split; cbn.
    + apply Htidy'.
    + intros address Haddress. destruct (decide (address = _midi conn)) as [->|Hne].
      * rewrite lookup_insert_eq. eauto.
      * rewrite lookup_insert_ne by congruence. now apply Htidy'.
  - unfold Connection.get_connection. cbn. now rewrite Hfl.
Qed.



(** ** The tools of [server.py] and [tools/transport.py] *)

Lemma ensure_connected_connected (c c1 : MIDIConnection) (m : mido_env) :
  ensure_connected c m = (Returned tt, c1) -> is_connected c1 = true.
Proof.
  unfold ensure_connected. destruct (is_connected c) eqn:Hconn; cbn [negb].
  - now intros [= <-].
  - destruct (connect c m) as [ok c0] eqn:Hconnect. destruct ok; [|discriminate].
    cbn [negb]. intros [= <-]. revert Hconnect. unfold connect. rewrite Hconn.
    destruct (import_mido m); [|discriminate].
    destruct (get_output_names m) as [[|first_port names]|e]; try discriminate.
    destruct (open_output m _) as [p|e]; [|discriminate]. now intros [= <-].
Qed.

Lemma send_command_returned_connected
      (float_str : Q -> string) (c : MIDIConnection) (action : string)
      (params : option Dict.t) (timeout : Q) (w : world)
      (response : json) (c' : MIDIConnection) (w' : world) :
  send_command float_str c action params timeout w = Some (Returned response, c', w') ->
  is_connected c' = true.
Proof.
  unfold send_command.
  destruct (ensure_connected c (mido w)) as [[[]|e1] c1] eqn:Hensure; [|discriminate].
  apply ensure_connected_connected in Hensure.
  destruct (Path.write_json _ _ _) as [[[]|e2] fs1]; [|now intros [= _ <- _]].
  destruct (send_trigger c1 (mido w)) as [[[]|e3] c2] eqn:Htrigger;
    apply (send_trigger_keeps_connected _ _ _ _ Hensure) in Htrigger as (H2 & _ & _).
  - destruct (_wait_for_response _ _ _ _) as [[r w2]|]; [|discriminate].
    now intros [= _ <- _].
  - now intros [= _ <- _].
Qed.

Section ServerTools.

Variable float_str : Q -> string.
Variable py_repr : json -> string.

(** X21: What the status resource says after a tool of [tools/transport.py]:
    connected when the tool has returned an answer (or tripped over a
    Response that is not a dict), and not connected, with the message of
    the [RuntimeError], when the tool has raised for want of a
    connection.  The tools connect on their own, at their first use. *)
Theorem status_follows_the_last_tool_call
        (h : host) (action : string) (params : option Dict.t)
        (show : Dict.t -> string) (s : session) (w : world)
        (r : outcome string) (s' : session) (w' : world) :
  tidy s ->
  Server.call_tool float_str py_repr h action params show s w = Some (r, s', w') ->
  tidy s' /\
  Server.get_fl_status h s' =
    Some (match r with
          | Returned _ => "Connected to FL Studio via MIDI"
          | Raised e =>
              match exn_cls e with
              | RuntimeError => "Not connected: " +:+ exn_msg e
              | _ => "Connected to FL Studio via MIDI"
              end
          end, s').
Proof.
  intros Htidy. unfold Server.call_tool.
  destruct (get_connection_tidy h s Htidy) as (Htidy1 & Hfl1 & _).
  destruct (Connection.get_connection h s) as [conn s1]. cbn [fst snd] in *.
  unfold Connection.send_command.
  destruct (objects s1 !! _midi conn) as [c|] eqn:Hobject; [|discriminate].
  destruct (send_command float_str c action params 2 w) as [[[r0 c'] w0]|] eqn:Hcall;
    [|discriminate].
  set (s2 := Session (<[_midi conn := c']> (objects s1)) (midi_global s1) (fl_global s1)).
  assert (Htidy2 : tidy s2).
  { split; cbn; [apply Htidy1|].
    intros address Haddress. destruct (decide (address = _midi conn)) as [->|Hne].
    - rewrite lookup_insert_eq. eauto.
    - rewrite lookup_insert_ne by congruence. now apply Htidy1. }
  assert (Hstatus :
            Server.get_fl_status h s2
            = Some (if is_connected c' then "Connected to FL Studio via MIDI"
                    else "Not connected: " +:+ Server.str_optional (_error c'), s2)).
  { unfold Server.get_fl_status, Connection.get_connection. cbn [fl_global s2].
    rewrite Hfl1. unfold Connection.is_connected, Connection.connection_error.
    cbn [objects s2]. now rewrite lookup_insert_eq. }
  destruct r0 as [response|e].
  - apply send_command_returned_connected in Hcall.
    destruct (Server.as_result response) as [result|e] eqn:Hresult;
      [destruct (Tools.shows_error result)|]; intros [= <- <- _];
      (split; [exact Htidy2|]); rewrite Hstatus, Hcall; try reflexivity.
    unfold Server.as_result in Hresult.
    destruct response; try discriminate; now injection Hresult as <-.
  - apply send_command_raises_only_unconnected in Hcall.
    destruct (ensure_connected_failure _ _ _ _ Hcall) as (Hcls & Herr & _ & Hnot & _).
    intros [= <- <- _]. split; [exact Htidy2|].
    now rewrite Hstatus, Hnot, Herr, Hcls.
Qed.

Lemma send_command_times_out
      (c : MIDIConnection) (action : string) (params : option Dict.t)
      (timeout : Q) (w : world) (c1 : MIDIConnection) (p : port)
      (start_time : Q) (ticks : list Q) (n : nat) (now : Q) :
  trigger_goes_out c w c1 p ->
  clock w = start_time :: ticks ->
  idle_until n (_response_file c1) timeout start_time ticks
             (fs_at_poll_start c1 action params (fs w)) (others w) ->
  ticks !! n = Some now ->
  ~ (now - start_time < timeout)%Q ->
  exists w',
    send_command float_str c action params timeout w =
      Some (Returned (failure (timeout_message float_str timeout)), triggered c1 p, w').
Proof.
  intros Hgo Hclock Hidle Hnow Hout.
  rewrite (send_command_polls _ _ _ _ _ _ _ _ Hgo).
  rewrite (wait_for_response_turn float_str (triggered c1 p) timeout _ start_time ticks n now);
    [|exact Hclock|exact Hidle|exact Hnow].
  rewrite poll_times_out by exact Hout. eauto.
Qed.

(** X22: A DAW that does not answer shows in the tool's own answer: [fl_stop]
    returns the text "Error: " followed by the timeout message for its two
    seconds, and the connection object of the session has sent its
    trigger. *)
Theorem tool_reports_a_timeout
        (h : host) (s : session) (w : world) (conn : FLConnection)
        (c c1 : MIDIConnection) (p : port)
        (start_time : Q) (ticks : list Q) (n : nat) (now : Q) :
  fl_global s = Some conn ->
  objects s !! _midi conn = Some c ->
  trigger_goes_out c w c1 p ->
  clock w = start_time :: ticks ->
  idle_until n (_response_file c1) 2 start_time ticks
             (fs_at_poll_start c1 "transport.stop" None (fs w)) (others w) ->
  ticks !! n = Some now ->
  ~ (now - start_time < 2)%Q ->
  exists (s' : session) (w' : world),
    Server.fl_stop float_str py_repr h s w
      = Some (Returned ("Error: " +:+ timeout_message float_str 2), s', w') /\
    objects s' !! _midi conn = Some (triggered c1 p).
Proof.
  intros Hfl Hobject Hgo Hclock Hidle Hnow Hout.
  destruct (send_command_times_out c "transport.stop" None 2 w c1 p
              start_time ticks n now Hgo Hclock Hidle Hnow Hout) as (w' & Hcall).
  unfold Server.fl_stop, Server.call_tool, Connection.get_connection.
  rewrite Hfl. unfold Connection.send_command. rewrite Hobject, Hcall.
  cbn [Server.as_result failure].
  eexists _, _. split; [reflexivity|]. cbn. apply lookup_insert_eq.
Qed.

End ServerTools.

(** ** Both sides together *)

Lemma append_assoc (a b c : string) : (a +:+ b) +:+ c = a +:+ (b +:+ c).
Proof.
  induction a as [|x a IH]; [reflexivity|].
  change (String x ((a +:+ b) +:+ c) = String x (a +:+ (b +:+ c))).
  now rewrite IH.
Qed.

Lemma append_cancel (s a b : string) : s +:+ a = s +:+ b -> a = b.
Proof. apply String.app_inj. Qed.

Lemma join_assoc (a b name : string) :
  Path.join (a +:+ b) name = a +:+ Path.join b name.
Proof. unfold Path.join. apply append_assoc. Qed.

Lemma join_start (home name : string) :
  Path.join home name = home +:+ Path.join "" name.
Proof. reflexivity. Qed.

Ltac under_home dir H :=
  rewrite ?(join_start dir) in H; rewrite ?(join_assoc dir) in H.

(** X23: On macOS the server and the controller script use the same command
    and response files.  On any other system but Windows the two sides
    never meet: the server works under [.fl-studio/Settings], the script
    under [Documents/Image-Line/FL Studio/Settings], whatever the home
    directory. *)
Theorem both_sides_meet_on_mac (dir : string) (up : option string) :
  (_command_file (init (Host "Darwin" dir))
     = Controller.COMMAND_FILE (Controller.DawHost "darwin" dir up) /\
   _response_file (init (Host "Darwin" dir))
     = Controller.RESPONSE_FILE (Controller.DawHost "darwin" dir up)) /\
  (forall os platform : string,
      os <> "Darwin" -> os <> "Windows" ->
      platform <> "darwin" -> platform <> "win32" ->
      _command_file (init (Host os dir))
        <> Controller.COMMAND_FILE (Controller.DawHost platform dir up) /\
      _response_file (init (Host os dir))
        <> Controller.RESPONSE_FILE (Controller.DawHost platform dir up)).
Proof.
  split; [split; reflexivity|].
  intros os platform Hd Hw Hd' Hw'.
  unfold init, _get_fl_hardware_dir, Controller.COMMAND_FILE, Controller.RESPONSE_FILE,
    Controller._get_script_dir.
  cbn [_command_file _response_file system home
       Controller.sys_platform Controller.daw_home].
  apply String.eqb_neq in Hd, Hw, Hd', Hw'. rewrite Hd, Hw, Hd', Hw'.
  split; intros Hsame; under_home dir Hsame; apply append_cancel in Hsame;
    vm_compute in Hsame; discriminate Hsame.
Qed.

Lemma controller_files_differ (hd : Controller.daw_host) :
  Controller.COMMAND_FILE hd <> Controller.RESPONSE_FILE hd.
Proof.
  unfold Controller.COMMAND_FILE, Controller.RESPONSE_FILE, Path.join.
  intros Hsame. apply append_cancel in Hsame. discriminate Hsame.
Qed.

Section Script.

Variable Daw : Type.
Variable run_handler : Controller.handler -> json -> Daw -> outcome Dict.t * Daw.
Variable py_repr : json -> string.

Local Abbreviation execute := (Controller.execute_pending_command Daw run_handler py_repr).

(** Whatever the script finds, it ends by writing one response. *)
Lemma execute_writes_a_response (hd : Controller.daw_host) (s : Controller.state Daw) :
  exists response : Dict.t,
    Controller.daw_fs Daw (execute hd s)
    = Controller.write_response hd response (Controller.daw_fs Daw s).
Proof.
  unfold Controller.execute_pending_command.
  destruct (negb _); [eexists; reflexivity|].
  destruct (Path.read_json _ _) as [[| | | | |command]|e]; try (eexists; reflexivity).
  destruct (Controller.dispatch_command _ _ _ _ _ _) as [[result|e] d'];
    eexists; reflexivity.
Qed.

(** X24: The script reads the command file and writes the response file, and
    that is all it does to the shared directory: it never deletes the
    command it has run, and every file but the response file is as it was.
    When it may write the response file, a response is there afterwards,
    whatever the command file held. *)
Theorem script_writes_the_response_only
        (hd : Controller.daw_host) (s : Controller.state Daw) :
  let after := Controller.daw_fs Daw (execute hd s) in
  let before := Controller.daw_fs Daw s in
  (forall p, p <> Controller.RESPONSE_FILE hd -> files after !! p = files before !! p) /\
  write_denied after = write_denied before /\
  unlink_denied after = unlink_denied before /\
  (Controller.RESPONSE_FILE hd ∉ write_denied before ->
   exists response : Dict.t,
     files after !! Controller.RESPONSE_FILE hd = Some (WellFormed (JObj response))).
Proof.
  intros after before.
  destruct (execute_writes_a_response hd s) as (response & Hafter).
  unfold after. rewrite Hafter. fold before.
  unfold Controller.write_response, Path.write_json.
  destruct (decide (Controller.RESPONSE_FILE hd ∈ write_denied before)) as [Hin|Hout];
    cbn [snd files write_denied unlink_denied].
  - repeat split. contradiction.
  - repeat split.
    + intros p Hp. apply lookup_insert_ne. congruence.
    + intros _. exists response. apply lookup_insert_eq.
Qed.

(** X25: A command the script cannot use does nothing to the DAW: when the
    command file is missing, unreadable, not JSON or not a JSON object, no
    handler runs, and the response, if it can be written, is a failure;
    for a missing file it says "No command file found". *)
Theorem unusable_command_leaves_the_daw_alone
        (hd : Controller.daw_host) (s : Controller.state Daw) :
  (forall command : Dict.t,
      files (Controller.daw_fs Daw s) !! Controller.COMMAND_FILE hd
      <> Some (WellFormed (JObj command))) ->
  let s' := execute hd s in
  Controller.api Daw s' = Controller.api Daw s /\
  (Controller.RESPONSE_FILE hd ∉ write_denied (Controller.daw_fs Daw s) ->
   exists msg : string,
     files (Controller.daw_fs Daw s') !! Controller.RESPONSE_FILE hd
     = Some (WellFormed (failure msg)) /\
     (files (Controller.daw_fs Daw s) !! Controller.COMMAND_FILE hd = None ->
      msg = "No command file found")).
Proof.
  intros Hunusable s'. unfold s', Controller.execute_pending_command.
  unfold Path.exists_, Path.read_json, Controller.write_response, Path.write_json.
  destruct (files (Controller.daw_fs Daw s) !! Controller.COMMAND_FILE hd)
    as [[value|why|e]|] eqn:Hfile; cbn [negb].
  - destruct value as [| | | | |command]; try (now elim (Hunusable command));
      (split; [reflexivity|]); intros Hwrite;
      destruct (decide (Controller.RESPONSE_FILE hd ∈ write_denied (Controller.daw_fs Daw s)));
      try contradiction; cbn [snd Controller.daw_fs files];
      (eexists; split; [apply lookup_insert_eq|discriminate]).
  - split; [reflexivity|]. intros Hwrite.
    destruct (decide (Controller.RESPONSE_FILE hd ∈ write_denied (Controller.daw_fs Daw s)));
      try contradiction; cbn [snd Controller.daw_fs files].
    eexists; split; [apply lookup_insert_eq|discriminate].
  - split; [reflexivity|]. intros Hwrite.
    destruct (decide (Controller.RESPONSE_FILE hd ∈ write_denied (Controller.daw_fs Daw s)));
      try contradiction; cbn [snd Controller.daw_fs files].
    eexists; split; [apply lookup_insert_eq|discriminate].
  - split; [reflexivity|]. intros Hwrite.
    destruct (decide (Controller.RESPONSE_FILE hd ∈ write_denied (Controller.daw_fs Daw s)));
      try contradiction; cbn [snd Controller.daw_fs files].
    eexists; split; [apply lookup_insert_eq|reflexivity].
Qed.

Lemma script_reply_applied (hd : Controller.daw_host) (d : Daw) (fs : filesystem) :
  fold_left apply_op (script_reply run_handler py_repr hd d fs) fs
  = Controller.daw_fs Daw (execute hd (Controller.State Daw fs d 0)).
Proof.
  unfold script_reply.
  destruct (execute_writes_a_response hd (Controller.State Daw fs d 0))
    as (response & Hafter).
  rewrite Hafter. cbn [Controller.daw_fs].
  unfold Controller.write_response, Path.write_json.
  destruct (decide (Controller.RESPONSE_FILE hd ∈ write_denied fs)); cbn [snd].
  - destruct (files fs !! Controller.RESPONSE_FILE hd) as [data|] eqn:Hfile;
      [|reflexivity].
    cbn. destruct fs as [fls wd ud]. cbn in *. f_equal. now apply insert_id.
  - cbn [files]. rewrite lookup_insert_eq. reflexivity.
Qed.

Lemma execute_known (hd : Controller.daw_host) (fs : filesystem) (d d' : Daw)
      (action : string) (params : option Dict.t)
      (h : Controller.handler) (result : Dict.t) :
  files fs !! Controller.COMMAND_FILE hd = Some (WellFormed (command_of action params)) ->
  Controller.find_handler action = Some h ->
  run_handler h (JObj (params_or_empty params)) d = (Returned result, d') ->
  execute hd (Controller.State Daw fs d 0)
  = Controller.State Daw
      (Controller.write_response hd (Dict.update [("success", JBool true)] result) fs)
      d' 1.
Proof.
  intros Hfile Hknown Hrun.
  unfold Controller.execute_pending_command, Path.exists_, Path.read_json.
  cbn [Controller.daw_fs Controller.api Controller.executions].
  rewrite Hfile. cbn [negb command_of].
  change (Dict.get_default "action" (JStr "") _) with (JStr action).
  change (Dict.get_default "params" (JObj []) _) with (JObj (params_or_empty params)).
  unfold Controller.dispatch_command. rewrite Hknown, Hrun. reflexivity.
Qed.

Variable float_str : Q -> string.

(** X26: The two programs together.  The server sends a command for an action
    the script knows; the script, woken by the trigger, runs while the
    server sleeps for the first time, on the directory as the server left
    it.  Then the server's call returns the handler's result with
    ["success": true] put in front, the response file is gone again and the
    command file still holds the command.  (Both sides use the same two
    files, the response file may be written and unlinked, and the clock is
    within the budget at the first two turns.) *)
Theorem command_comes_back_with_the_result
        (c c1 : MIDIConnection) (p : port) (w : world) (hd : Controller.daw_host)
        (d d' : Daw) (action : string) (params : option Dict.t)
        (h : Controller.handler) (result : Dict.t)
        (timeout start_time first second : Q) (ticks : list Q)
        (rest : list (list fs_op)) :
  trigger_goes_out c w c1 p ->
  _command_file c1 = Controller.COMMAND_FILE hd ->
  _response_file c1 = Controller.RESPONSE_FILE hd ->
  Controller.RESPONSE_FILE hd ∉ write_denied (fs w) ->
  Controller.RESPONSE_FILE hd ∉ unlink_denied (fs w) ->
  clock w = start_time :: first :: second :: ticks ->
  (first - start_time < timeout)%Q ->
  (second - start_time < timeout)%Q ->
  others w = script_reply run_handler py_repr hd d
               (fs_at_poll_start c1 action params (fs w)) :: rest ->
  Controller.find_handler action = Some h ->
  run_handler h (JObj (params_or_empty params)) d = (Returned result, d') ->
  exists w' : world,
    send_command float_str c action params timeout w
    = Some (Returned (JObj (Dict.update [("success", JBool true)] result)),
            triggered c1 p, w') /\
    files (fs w') !! Controller.RESPONSE_FILE hd = None /\
    files (fs w') !! Controller.COMMAND_FILE hd
    = Some (WellFormed (command_of action params)) /\
    clock w' = ticks /\ others w' = rest.
Proof.
  intros Hout Hcmd Hresp Hwrite Hunlink Hclock Hfirst Hsecond Hothers Hknown Hrun.
  pose proof (controller_files_differ hd) as Hdiffer.
  set (fs2 := fs_at_poll_start c1 action params (fs w)) in *.
  assert (Hcommand : files fs2 !! Controller.COMMAND_FILE hd
                     = Some (WellFormed (command_of action params))).
  { unfold fs2, fs_at_poll_start. rewrite Hresp, Hcmd.
    rewrite clear_old_response_other by exact Hdiffer. apply put_lookup. }
  assert (Hnone : files fs2 !! Controller.RESPONSE_FILE hd = None).
  { unfold fs2, fs_at_poll_start. rewrite Hresp.
    apply clear_old_response_clears. exact Hunlink. }
  assert (Hwrite2 : Controller.RESPONSE_FILE hd ∉ write_denied fs2).
  { unfold fs2, fs_at_poll_start.
    now rewrite clear_old_response_write_denied, put_write_denied. }
  assert (Hunlink2 : unlink_denied fs2 = unlink_denied (fs w)).
  { apply fs_at_poll_start_unlink_denied. }
  set (response := Dict.update [("success", JBool true)] result) in *.
  set (fs3 := Controller.write_response hd response fs2).
  assert (Hslept : sleep fs2 (others w) = (fs3, rest)).
  { rewrite Hothers. cbn [sleep]. rewrite script_reply_applied.
    now rewrite (execute_known hd fs2 d d' action params h result). }
  assert (Hfs3 : fs3 = apply_op fs2 (Put (Controller.RESPONSE_FILE hd)
                                         (WellFormed (JObj response)))).
  { unfold fs3, Controller.write_response, Path.write_json.
    now destruct (decide (Controller.RESPONSE_FILE hd ∈ write_denied fs2)). }
  rewrite (send_command_polls float_str c action params timeout w c1 p Hout).
  fold fs2.
  rewrite (wait_for_response_polls float_str _ timeout _ start_time
             (first :: second :: ticks)) by exact Hclock.
  cbn [_response_file triggered with_fs fs others mido]. rewrite Hresp.
  rewrite poll_sleeps by assumption. rewrite Hslept. cbn [fst snd].
  rewrite (poll_reads float_str _ timeout start_time second ticks fs3 rest (JObj response))
    by (try assumption; rewrite Hfs3; apply put_lookup).
  eexists. split; [reflexivity|]. cbn [fs clock others].
  repeat split.
  - apply unlink_present with (d := WellFormed (JObj response)).
    + rewrite Hfs3. apply put_lookup.
    + rewrite Hfs3. cbn [apply_op unlink_denied]. now rewrite Hunlink2.
  - rewrite unlink_other by (intros Hsame; now apply Hdiffer).
    rewrite Hfs3. cbn [apply_op files].
    rewrite lookup_insert_ne by (intros Hsame; now apply Hdiffer).
    exact Hcommand.
Qed.

End Script.

Lemma find_handler_known (action : string) :
  In action Controller.known_actions ->
  exists h : Controller.handler, Controller.find_handler action = Some h.
Proof.
  unfold Controller.known_actions, Controller.find_handler.
  generalize Controller.dispatch_table as table.
  induction table as [|[key handler] table IH]; intros Hin; [contradiction|].
  cbn [find fst]. destruct (String.eqb action key) eqn:Hkey.
  - exists handler. reflexivity.
  - apply IH. destruct Hin as [Hhere|Hin]; [|exact Hin].
    cbn in Hhere. subst key. now rewrite String.eqb_refl in Hkey.
Qed.

(** X29: The tools and the script agree on the actions: every action a tool
    sends is dispatched to a handler by the script, which therefore never
    answers a tool with "Unknown action"; and the script has no handler
    that no tool asks for. *)
Theorem every_sent_action_has_a_handler :
  (forall action : string,
      In action ToolCalls.sent_actions <-> In action Controller.known_actions) /\
  (forall action : string,
      In action ToolCalls.sent_actions ->
      exists h : Controller.handler,
        Controller.find_handler action = Some h /\
        forall (Daw : Type)
               (run_handler : Controller.handler -> json -> Daw -> outcome Dict.t * Daw)
               (py_repr : json -> string) (params : json) (d : Daw),
          Controller.dispatch_command Daw run_handler py_repr (JStr action) params d
          = run_handler h params d).
Proof.
  assert (Hsame : forall action : string,
             In action ToolCalls.sent_actions <-> In action Controller.known_actions).
  { intros action. unfold ToolCalls.sent_actions.
    change (ToolCalls.transport ++ ToolCalls.mixer ++ ToolCalls.channels
            ++ ToolCalls.plugins)%list with Controller.known_actions.
    rewrite in_app_iff. split; [|now right].
    intros [Hserver|Hknown]; [|exact Hknown].
    destruct Hserver as [<-|[]]. vm_compute. tauto. }
  split; [exact Hsame|].
  intros action Hsent. apply Hsame in Hsent.
  destruct (find_handler_known action Hsent) as [h Hfound].
  exists h. split; [exact Hfound|].
  intros Daw run_handler py_repr params d.
  unfold Controller.dispatch_command. now rewrite Hfound.
Qed.

(** ** More statements at sample inputs *)

Lemma connect_chooses_port_witness :
  exists (names : list string) (name : string) (p : port),
    get_output_names Sample.mido_iac = Returned names /\
    In name names /\
    open_output Sample.mido_iac name = Returned p /\
    _port (snd (connect Sample.fresh Sample.mido_iac)) = Some p /\
    _port_name (snd (connect Sample.fresh Sample.mido_iac)) = Some name /\
    is_connected (snd (connect Sample.fresh Sample.mido_iac)) = true /\
    _error (snd (connect Sample.fresh Sample.mido_iac)) = None /\
    (find wanted_port names = Some name \/
     find wanted_port names = None /\ head names = Some name).
Proof.
  apply (connect_chooses_port Sample.fresh Sample.mido_iac).
  - reflexivity.
  - reflexivity.
Defined.

Lemma ensure_connected_raises_the_recorded_error_witness :
  let msg := "No MIDI output ports found. On Mac, enable IAC Driver in Audio MIDI Setup." in
  exn_cls (Exn RuntimeError msg) = RuntimeError /\
  _error (set_error Sample.fresh msg) = Some (exn_msg (Exn RuntimeError msg)) /\
  exn_msg (Exn RuntimeError msg) <> "" /\
  is_connected (set_error Sample.fresh msg) = false /\
  _port (set_error Sample.fresh msg) = _port Sample.fresh /\
  _port_name (set_error Sample.fresh msg) = _port_name Sample.fresh /\
  _connected (set_error Sample.fresh msg) = _connected Sample.fresh.
Proof.
  intros msg.
  apply (ensure_connected_raises_the_recorded_error Sample.fresh Sample.mido_no_ports).
  reflexivity.
Defined.

Lemma send_command_keeps_the_connection_witness :
  exists (r : outcome json) (c' : MIDIConnection) (w' : world),
    send_command Sample.float_str Sample.connected "transport.start" None 2 Sample.silent
      = Some (r, c', w') /\
    (exists response, r = Returned response) /\
    is_connected c' = true /\
    _port_name c' = _port_name Sample.connected /\ _error c' = _error Sample.connected /\
    (forall m' : mido_env, ensure_connected c' m' = (Returned tt, c')).
Proof.
  eexists _, _, _. split.
  - vm_compute. reflexivity.
  - eapply (send_command_keeps_the_connection Sample.float_str Sample.connected
              "transport.start" None 2 Sample.silent).
    + reflexivity.
    + vm_compute. reflexivity.
Defined.

Lemma broken_port_is_not_reopened_witness :
  send_command Sample.float_str Sample2.unplugged "transport.start" None 2 Sample.silent
  = Some (Returned (failure "Failed to send MIDI trigger: port closed"),
          Sample2.unplugged,
          with_fs Sample.silent
            (fs_at_poll_start Sample2.unplugged "transport.start" None (fs Sample.silent))).
Proof.
  apply (broken_port_is_not_reopened Sample.float_str Sample2.unplugged "transport.start"
           None 2 Sample.silent
           (Port "IAC Driver Bus 1" [] (Some (Exn OSError "port closed")))
           (Exn OSError "port closed")).
  - reflexivity.
  - reflexivity.
  - reflexivity.
  - reflexivity.
  - apply not_elem_of_empty.
Defined.

Lemma send_command_touches_two_files_witness :
  exists (r : outcome json) (c' : MIDIConnection) (w' : world),
    send_command Sample.float_str Sample.connected "transport.start" None 2 Sample.silent
      = Some (r, c', w') /\
    write_denied (fs w') = write_denied (fs Sample.silent) /\
    unlink_denied (fs w') = unlink_denied (fs Sample.silent) /\
    files (fs w') !! "/Users/me/song.flp" = files (fs Sample.silent) !! "/Users/me/song.flp".
Proof.
  eexists _, _, _. split.
  - vm_compute. reflexivity.
  - destruct (send_command_touches_two_files Sample.float_str Sample.connected
                "transport.start" None 2 Sample.silent _ _ _ "/Users/me/song.flp"
                ltac:(vm_compute; reflexivity)) as (Hwrite & Hunlink & Hfiles).
    split; [exact Hwrite|]. split; [exact Hunlink|].
    apply Hfiles.
    + discriminate.
    + discriminate.
    + intros ops op [].
Defined.

Lemma command_file_holds_the_last_command_witness :
  exists (response : json) (w' : world),
    send_command Sample.float_str Sample.connected "transport.start" None 2 Sample.silent
      = Some (Returned response, triggered Sample.connected Sample.iac, w') /\
    files (fs w') !! _command_file (triggered Sample.connected Sample.iac)
      = Some (WellFormed (command_of "transport.start" None)).
Proof.
  eexists _, _. split.
  - vm_compute. reflexivity.
  - eapply (command_file_holds_the_last_command Sample.float_str Sample.connected
              "transport.start" None 2 Sample.silent).
    + vm_compute. reflexivity.
    + apply not_elem_of_empty.
    + discriminate.
    + intros ops op [].
Defined.

Lemma response_was_written_during_the_call_witness :
  let w := Sample.answering Sample.no_files (WellFormed Sample.answer) in
  exists w' : world,
    send_command Sample.float_str Sample.connected "transport.start" None 2 w
      = Some (Returned Sample.answer, triggered Sample.connected Sample.iac, w') /\
    ((exists msg, Sample.answer = failure msg /\ reported_failure Sample.float_str 2 msg) \/
     (exists ops, In ops (others w) /\
                  In (Put (_response_file Sample.connected) (WellFormed Sample.answer)) ops)).
Proof.
  intros w. eexists. split.
  - vm_compute. reflexivity.
  - eapply (response_was_written_during_the_call Sample.float_str Sample.connected
              "transport.start" None 2 w Sample.answer
              (triggered Sample.connected Sample.iac)).
    + vm_compute. reflexivity.
    + apply not_elem_of_empty.
Defined.

Lemma no_budget_no_look_witness :
  _wait_for_response Sample.float_str Sample.connected 0
    (Sample.waiting (WellFormed Sample.answer) ∅)
  = Some (failure (timeout_message Sample.float_str 0),
          World (fs (Sample.waiting (WellFormed Sample.answer) ∅)) [(21 # 10)%Q] []
                Sample.mido_iac).
Proof.
  apply (no_budget_no_look Sample.float_str Sample.connected 0
           (Sample.waiting (WellFormed Sample.answer) ∅) 0 (1 # 100)%Q [(21 # 10)%Q]).
  - discriminate.
  - reflexivity.
  - discriminate.
Defined.

Lemma unsupported_platform_is_left_alone_witness :
  Trigger.trigger_fl_studio Sample2.linux 2 Sample2.pc_ok None []
    = (false, Some (Trigger.new Sample2.linux), []) /\
  PianoRollTools.fl_trigger_script Sample2.linux Sample2.pc_ok Sample2.empty_desk
    = ("Error: Auto-trigger not supported on Linux",
       PianoRollTools.Desk Sample.no_files (Some (Trigger.new Sample2.linux)) []).
Proof.
  destruct (unsupported_platform_is_left_alone Sample2.linux) as (_ & _ & Hother).
  apply (Hother ltac:(discriminate) ltac:(discriminate) 2%Q Sample2.pc_ok None []
           Sample2.empty_desk).
  - left. reflexivity.
  - left. reflexivity.
Defined.

Lemma successful_trigger_releases_every_key_witness :
  exists trace : list Trigger.effect,
    Trigger.trigger (Trigger.new Sample2.pc) 2 Sample2.pc_ok [] = (true, trace) /\
    held trace = [].
Proof.
  eexists. split.
  - vm_compute. reflexivity.
  - apply (successful_trigger_releases_every_key (Trigger.new Sample2.pc) 2 Sample2.pc_ok).
    vm_compute. reflexivity.
Defined.

Lemma failed_keyboard_call_leaves_keys_down_witness :
  Trigger.trigger (Trigger.new Sample2.pc) 2 Sample2.pc_third_key_fails []
    = (false, firstn 2 (Trigger.chord Trigger.Key_ctrl)) /\
  held (firstn 2 (Trigger.chord Trigger.Key_ctrl)) <> [].
Proof.
  apply (failed_keyboard_call_leaves_keys_down Sample2.pc 2 Sample2.pc_third_key_fails 2
           (Exn OtherException "key")).
  - reflexivity.
  - reflexivity.
  - intros j Hj. destruct j as [|[|j]]; [reflexivity|reflexivity|lia].
  - reflexivity.
  - lia.
Defined.

Lemma script_exit_status_is_ignored_witness :
  PianoRollTools.fl_trigger_script Sample.mac Sample2.mac_script_fails Sample2.empty_desk =
    ("FL Studio triggered successfully. Notes should now appear in the piano roll.",
     PianoRollTools.Desk Sample.no_files (Some (Trigger.new Sample.mac))
       [Trigger.Ran Trigger.keystroke_script 10; Trigger.Slept 2]).
Proof.
  destruct (script_exit_status_is_ignored Sample.mac Sample2.mac_script_fails
              Sample2.empty_desk) as [Hcompleted _].
  - reflexivity.
  - left. reflexivity.
  - apply (Hcompleted 1%Z). reflexivity.
Defined.

Lemma delete_notes_queues_one_request_witness :
  exists (text : string) (s' : PianoRollTools.desk),
    PianoRollTools.fl_delete_notes Sample.mac Sample2.pc_ok [Sample2.note_c4] false
                                   Sample2.queued_desk = (Returned text, s') /\
    PianoRollTools.disk s' =
      apply_op (PianoRollTools.disk Sample2.queued_desk)
        (Put (PianoRoll._get_request_file Sample.mac)
             (WellFormed (JArr [JObj Sample.add_c4;
                                JObj [("action", JStr "delete_notes");
                                      ("notes", JArr [JObj Sample2.note_c4])]]))) /\
    (false = false ->
     PianoRollTools.the_trigger s' = None /\
     PianoRollTools.happened s' = [] /\
     text = "Queued deletion of 1 note(s).").
Proof.
  destruct (delete_notes_queues_one_request Sample.mac Sample2.pc_ok [Sample2.note_c4] false
              Sample2.queued_desk) as [_ Hqueued].
  apply (Hqueued [JObj Sample.add_c4]).
  - discriminate.
  - reflexivity.
  - apply not_elem_of_empty.
Defined.


Lemma note_names_are_unambiguous_witness : 60%Z = 60%Z.
Proof. apply (note_names_are_unambiguous 60 60). reflexivity. Defined.

Lemma colour_keeps_its_components_witness :
  Handlers.color_of (JInt 255) (JInt 128) (JInt 0) = Returned (Handlers.bgr 255 128 0) /\
  Handlers.bgr 255 128 0 = (255 + 256 * 128 + 65536 * 0)%Z /\
  Z.land (Handlers.bgr 255 128 0) 255 = 255%Z /\
  Z.land (Z.shiftr (Handlers.bgr 255 128 0) 8) 255 = 128%Z /\
  Z.shiftr (Handlers.bgr 255 128 0) 16 = 0%Z /\
  (0 <= Handlers.bgr 255 128 0 < 16777216)%Z.
Proof. apply (colour_keeps_its_components 255 128 0); lia. Defined.


Lemma step_sequence_round_trip_witness :
  exists (name : json) (d' : gmap Z Z),
    Handlers.handle_channels_set_step_sequence (gmap Z Z) Sample2.kick_api
      (JObj [("channel", JInt 0); ("pattern", JArr (map JBool [true; false; true]))]) ∅
      = (Returned [("active_steps", JInt (count_on [true; false; true]));
                   ("total_steps", JInt (Z.of_nat (length [true; false; true])));
                   ("channel_name", name)], d') /\
    (0 <= count_on [true; false; true] <= Z.of_nat (length [true; false; true]))%Z /\
    Handlers.handle_channels_get_step_sequence (gmap Z Z) Sample2.kick_api
      (JObj [("channel", JInt 0);
             ("steps", JInt (Z.of_nat (length [true; false; true])))]) d'
      = (Returned [("sequence", JArr (map JBool [true; false; true]))], d').
Proof.
  apply (step_sequence_round_trip (gmap Z Z) Sample2.kick_api Sample2.kick_bit).
  split; [|split].
  - intros d channel i v. eexists _, _. split; [reflexivity|].
    unfold Sample2.kick_bit. split.
    + now rewrite lookup_insert_eq.
    + intros j Hj. now rewrite lookup_insert_ne by congruence.
  - reflexivity.
  - intros d channel. eexists. reflexivity.
Defined.

Lemma wrapper_and_global_share_one_object_witness :
  let conn := fst (Connection.get_connection Sample.mac no_session) in
  let s' := snd (Connection.get_connection Sample.mac no_session) in
  tidy s' /\
  fl_global s' = Some conn /\ midi_global s' = Some (_midi conn) /\
  Connection.get_connection Sample.mac s' = (conn, s').
Proof.
  intros conn s'.
  destruct (wrapper_and_global_share_one_object Sample.mac no_session)
    as (Htidy & Hwrapper & Hglobal & _ & Hsame & _).
  - split.
    + intros wrapper Hset. discriminate Hset.
    + intros address Hset. discriminate Hset.
  - split; [exact Htidy|]. split; [exact Hwrapper|]. split; [exact Hglobal|exact Hsame].
Defined.

Lemma status_follows_the_last_tool_call_witness :
  let msg := "No MIDI output ports found. On Mac, enable IAC Driver in Audio MIDI Setup." in
  exists (s' : session) (w' : world),
    Server.fl_stop Sample.float_str Sample.repr_unused Sample.mac no_session Sample.no_midi
      = Some (Raised (Exn RuntimeError msg), s', w') /\
    tidy s' /\
    Server.get_fl_status Sample.mac s' = Some ("Not connected: " +:+ msg, s').
Proof.
  intros msg. eexists _, _. split.
  - vm_compute. reflexivity.
  - eapply (status_follows_the_last_tool_call Sample.float_str Sample.repr_unused Sample.mac
              "transport.stop" None (fun _ => "Playback stopped") no_session Sample.no_midi
              (Raised (Exn RuntimeError msg))).
    + split.
      * intros wrapper Hset. discriminate Hset.
      * intros address Hset. discriminate Hset.
    + vm_compute. reflexivity.
Defined.

Lemma tool_reports_a_timeout_witness :
  exists (s' : session) (w' : world),
    Server.fl_stop Sample.float_str Sample.repr_unused Sample.mac Sample2.live_session
                   Sample.silent
      = Some (Returned ("Error: " +:+ timeout_message Sample.float_str 2), s', w') /\
    objects s' !! _midi (FLConn 0) = Some (triggered Sample.connected Sample.iac).
Proof.
  apply (tool_reports_a_timeout Sample.float_str Sample.repr_unused Sample.mac
           Sample2.live_session Sample.silent (FLConn 0) Sample.connected Sample.connected
           Sample.iac 0 [1 # 100; 3 # 100; 21 # 10]%Q 2 (21 # 10)%Q).
  - reflexivity.
  - vm_compute. reflexivity.
  - goes_out.
  - reflexivity.
  - idle_turns.
  - reflexivity.
  - intros Hlt. discriminate Hlt.
Defined.

Lemma both_sides_meet_on_mac_witness :
  _command_file (init Sample2.linux)
    <> Controller.COMMAND_FILE (Controller.DawHost "linux" "/home/me" None) /\
  _response_file (init Sample2.linux)
    <> Controller.RESPONSE_FILE (Controller.DawHost "linux" "/home/me" None).
Proof.
  destruct (both_sides_meet_on_mac "/home/me" None) as [_ Hother].
  apply (Hother "Linux" "linux"); discriminate.
Defined.

Lemma script_writes_the_response_only_witness :
  exists response : Dict.t,
    files (Controller.daw_fs unit
             (Controller.execute_pending_command unit Sample.quiet_handler
                Sample.repr_unused Sample.studio Sample.rewind_pending))
      !! Controller.RESPONSE_FILE Sample.studio
    = Some (WellFormed (JObj response)).
Proof.
  destruct (script_writes_the_response_only unit Sample.quiet_handler Sample.repr_unused
              Sample.studio Sample.rewind_pending) as (_ & _ & _ & Hwritten).
  apply Hwritten. apply not_elem_of_empty.
Defined.

Lemma unusable_command_leaves_the_daw_alone_witness :
  let s' := Controller.execute_pending_command unit Sample.quiet_handler Sample.repr_unused
              Sample.studio (Controller.State unit Sample.no_files tt 0) in
  Controller.api unit s' = tt /\
  exists msg : string,
    files (Controller.daw_fs unit s') !! Controller.RESPONSE_FILE Sample.studio
    = Some (WellFormed (failure msg)) /\
    msg = "No command file found".
Proof.
  intros s'.
  destruct (unusable_command_leaves_the_daw_alone unit Sample.quiet_handler
              Sample.repr_unused Sample.studio (Controller.State unit Sample.no_files tt 0))
    as [Hapi Hresponse].
  - intros command Hfile. vm_compute in Hfile. discriminate Hfile.
  - split; [exact Hapi|].
    destruct (Hresponse ltac:(apply not_elem_of_empty)) as (msg & Hfile & Hmsg).
    exists msg. split; [exact Hfile|]. apply Hmsg. vm_compute. reflexivity.
Defined.

Lemma command_comes_back_with_the_result_witness :
  exists w' : world,
    send_command Sample.float_str Sample.connected "transport.start" None 2
                 (Sample2.replying "transport.start" 0)
    = Some (Returned (JObj [("success", JBool true); ("started", JInt 1)]),
            triggered Sample.connected Sample.iac, w') /\
    files (fs w') !! Controller.RESPONSE_FILE Sample.studio = None /\
    files (fs w') !! Controller.COMMAND_FILE Sample.studio
    = Some (WellFormed (command_of "transport.start" None)) /\
    clock w' = [(21 # 10)%Q] /\ others w' = [].
Proof.
  apply (command_comes_back_with_the_result Z Sample2.counting_handler Sample.repr_unused
           Sample.float_str Sample.connected Sample.connected Sample.iac
           (Sample2.replying "transport.start" 0) Sample.studio 0%Z 1%Z
           "transport.start" None Controller.handle_transport_start
           [("started", JInt 1)] 2 0 (1 # 100)%Q (3 # 100)%Q [(21 # 10)%Q] []).
  - goes_out.
  - reflexivity.
  - reflexivity.
  - apply not_elem_of_empty.
  - apply not_elem_of_empty.
  - reflexivity.
  - reflexivity.
  - reflexivity.
  - reflexivity.
  - reflexivity.
  - reflexivity.
Defined.

Lemma handler_error_is_reported_as_failure_witness :
  files (Controller.daw_fs unit
           (Controller.execute_pending_command unit Sample2.failing_handler
              Sample.repr_unused Sample.studio Sample2.start_pending))
    !! Controller.RESPONSE_FILE Sample.studio
  = Some (WellFormed (failure "Error executing command: no such track")).
Proof.
  apply (handler_error_is_reported_as_failure unit Sample2.failing_handler
           Sample.repr_unused Sample.studio Sample2.start_pending Sample2.start
           (Exn OtherException "no such track") tt).
  - vm_compute. reflexivity.
  - reflexivity.
  - apply not_elem_of_empty.
Defined.

Lemma all_tracks_lists_the_master_witness :
  Handlers.handle_mixer_get_all_tracks unit Sample2.band_api
    (JObj [("include_empty", JBool false)]) tt
  = (Returned [("tracks", JArr [entry_of Sample2.band tt 0; entry_of Sample2.band tt 2])],
     tt).
Proof.
  destruct (all_tracks_lists_the_master unit Sample2.band_api Sample2.band) with
    (include_empty := false) (d := tt) as [Hanswer _].
  - intros []. split; [reflexivity|]. intros i. repeat split; reflexivity.
  - exact Hanswer.
Defined.

Lemma every_sent_action_has_a_handler_witness :
  exists h : Controller.handler,
    Controller.find_handler "channels.setGridBit" = Some h /\
    forall (Daw : Type)
           (run_handler : Controller.handler -> json -> Daw -> outcome Dict.t * Daw)
           (py_repr : json -> string) (params : json) (d : Daw),
      Controller.dispatch_command Daw run_handler py_repr (JStr "channels.setGridBit")
                                  params d
      = run_handler h params d.
Proof.
  destruct every_sent_action_has_a_handler as [_ Hsent].
  apply (Hsent "channels.setGridBit"). vm_compute. tauto.
Defined.
